(** * Withdrawal workflow of the trading bot (main_telebot.py)

    A shallow embedding of the withdrawal state machine of
    [main_telebot.py]: the transaction-id validator, the free-text router,
    the TXID and destination-address handlers, the [enter_address_]
    callback and the confirmation-accrual coroutine, together with the
    properties the specification states about them.

    The storage layer ([bot/database.py]) and [config.py] are not part of
    the sources at hand; the ledger operations are modelled from the
    specification (each such definition says so), configuration constants
    are section variables. *)

From Stdlib Require Import Ascii String ZArith NArith QArith Lia.
From stdpp Require Import base gmap strings list pretty.

Local Open Scope string_scope.
Local Open Scope list_scope.

(* ===================================================================== *)
(** * Python values used by the handlers *)
(* ===================================================================== *)

(** A Python [str] is a sequence of Unicode code points. *)
Definition pystr := list N.

(** The code points of an ASCII literal of the source. *)
Fixpoint codes (s : string) : pystr :=
  match s with
  | EmptyString => []
  | String a r => N_of_ascii a :: codes r
  end.

(** What a caller may hand to a function annotated [txid: str]: Python does
    not enforce the annotation. *)
Inductive pyobj :=
| PyStr (s : pystr)
| PyNone
| PyInt (z : Z).

(** [c in "literal"] for a single character [c]. *)
Definition char_in (alphabet : string) (c : N) : bool :=
  existsb (N.eqb c) (codes alphabet).

(** [str.isspace] on one code point (CPython's [_PyUnicode_IsWhitespace]). *)
Definition is_space (c : N) : bool :=
  ((9 <=? c) && (c <=? 13) || (28 <=? c) && (c <=? 32)
   || (c =? 133) || (c =? 160) || (c =? 5760)
   || (8192 <=? c) && (c <=? 8202)
   || (c =? 8232) || (c =? 8233) || (c =? 8239) || (c =? 8287)
   || (c =? 12288))%N.

Fixpoint lstrip (s : pystr) : pystr :=
  match s with
  | [] => []
  | c :: r => if is_space c then lstrip r else s
  end.

Definition rstrip (s : pystr) : pystr := rev (lstrip (rev s)).

(** [s.strip()] *)
Definition strip (s : pystr) : pystr := rstrip (lstrip s).

(** [s.startswith(p)] *)
Fixpoint startswith (s p : pystr) : bool :=
  match p, s with
  | [], _ => true
  | _ :: _, [] => false
  | a :: p', b :: s' => (N.eqb a b) && startswith s' p'
  end.

(* ===================================================================== *)
(** * Validation utilities (lines 59-99, 6185-6198) *)
(* ===================================================================== *)

Definition hex_chars : string := "0123456789abcdefABCDEF".
Definition base58_chars : string :=
  "123456789ABCDEFGHJKLMNPQRSTUVWXYZabcdefghijkmnopqrstuvwxyz".

(** [validate_txid(txid, token)], lines 59-85. *)
Definition validate_txid (txid : pyobj) (token : string) : bool :=
  match txid with
  | PyStr s =>
      if bool_decide (s = []) then false
      else
        let txid := strip s in
        if bool_decide (token ∈ ["BTC"]) then
          (length txid =? 64)%nat && forallb (char_in hex_chars) txid
        else if bool_decide (token ∈ ["ETH"; "USDT"; "BNB"; "MATIC"; "LINK"]) then
          (length txid =? 66)%nat && startswith txid (codes "0x")
          && forallb (char_in hex_chars) (drop 2 txid)
        else if bool_decide (token ∈ ["SOL"]) then
          (length txid =? 88)%nat && forallb (char_in base58_chars) txid
        else if bool_decide (token ∈ ["ADA"]) then
          (length txid =? 64)%nat && forallb (char_in hex_chars) txid
        else false
  | PyNone => false
  | PyInt _ => false
  end.

(** [get_token_confirmation_requirement(token)], lines 87-99: a dictionary
    lookup with default 3. *)
Definition confirmation_requirements : list (string * nat) :=
  [("BTC", 2); ("ETH", 6); ("USDT", 6); ("BNB", 3); ("MATIC", 3);
   ("SOL", 1); ("ADA", 5); ("LINK", 6)]%nat.

Fixpoint dict_get {V} (d : list (string * V)) (k : string) (default : V) : V :=
  match d with
  | [] => default
  | (k', v) :: r => if String.eqb k' k then v else dict_get r k default
  end.

Definition get_token_confirmation_requirement (token : string) : nat :=
  dict_get confirmation_requirements token 3%nat.

(** [get_fee_payment_token(withdrawal_token)], lines 6185-6198. *)
Definition fee_token_mapping : list (string * string) :=
  [("BTC", "BTC"); ("ETH", "ETH"); ("SOL", "SOL"); ("USDT", "ETH");
   ("BNB", "BNB"); ("MATIC", "ETH"); ("ADA", "ADA"); ("LINK", "ETH")].

Definition get_fee_payment_token (withdrawal_token : string) : string :=
  dict_get fee_token_mapping withdrawal_token "ETH".

(* ===================================================================== *)
(** * Data model *)
(* ===================================================================== *)

(** Amounts are Python floats in the source; they are modelled as exact
    rationals, so rounding is outside the model. *)
Definition tenth : Q := 1 # 10.

Inductive fee_status := pending | verified | rejected.

Record FeePayment := {
  fp_id : Z;
  fp_user_id : Z;
  fp_token : string;
  fp_expected_amount : Q;
  fp_txid : pystr;
  fp_network : string;
  fp_withdrawal_token : string;
  fp_withdrawal_amount : Q;
  fp_confirmations : nat;
  fp_status : fee_status
}.

Record Withdrawal := {
  wd_id : Z;
  wd_user_id : Z;
  wd_type : string;
  wd_token : string;
  wd_amount : Q;
  wd_fee_amount : Q;
  wd_fee_token : string;
  wd_fee_payment_id : Z;
  wd_to_address : pystr
}.

Record holding := { amount : Q; avg_price : Q }.

(** The persistent store behind [db]: both ledgers in insertion order
    (records are never deleted), and the portfolio keyed by user and
    token. *)
Record Database := {
  fee_payments : list FeePayment;
  withdrawals : list Withdrawal;
  portfolio : gmap (Z * string) holding
}.

(** The draft handed to [db.create_fee_payment] (lines 5966-5974). *)
Record payment_data := {
  pd_user_id : Z;
  pd_token : string;
  pd_expected_amount : Q;
  pd_txid : pystr;
  pd_network : string;
  pd_withdrawal_token : string;
  pd_withdrawal_amount : Q
}.

(** The dictionary [atomic_create_verified_withdrawal] returns. *)
Inductive WithdrawalResult :=
| Rejected (reason : string) (message : string)
| Approved (withdrawal_id : Z) (fee_amount : Q) (fee_token : string)
           (net_amount : Q) (fee_txid : pystr).

(** One entry of [user_withdrawal_states]: a Python dict whose keys are the
    ones the source ever stores; an absent key is [None]. *)
Record wstate := {
  ws_token : option string;
  ws_withdrawal_token : option string;
  ws_withdrawal_amount : option Q;
  ws_fee_amount : option Q;
  ws_net_amount : option Q;
  ws_step : option string;
  ws_payment_id : option Z;
  ws_txid : option pystr;
  ws_fee_verified : option bool;
  ws_fee_payment_id : option Z
}.

Definition empty_wstate : wstate :=
  {| ws_token := None; ws_withdrawal_token := None;
     ws_withdrawal_amount := None; ws_fee_amount := None;
     ws_net_amount := None; ws_step := None; ws_payment_id := None;
     ws_txid := None; ws_fee_verified := None; ws_fee_payment_id := None |}.

(** [not d] for such a dict: true when it has no key at all. *)
Definition wstate_falsy (st : wstate) : bool :=
  match ws_token st, ws_withdrawal_token st, ws_withdrawal_amount st,
        ws_fee_amount st, ws_net_amount st with
  | None, None, None, None, None =>
      match ws_step st, ws_payment_id st, ws_txid st, ws_fee_verified st,
            ws_fee_payment_id st with
      | None, None, None, None, None => true
      | _, _, _, _, _ => false
      end
  | _, _, _, _, _ => false
  end.

(** [st['step'] = s] *)
Definition set_step (s : string) (st : wstate) : wstate :=
  {| ws_token := ws_token st; ws_withdrawal_token := ws_withdrawal_token st;
     ws_withdrawal_amount := ws_withdrawal_amount st;
     ws_fee_amount := ws_fee_amount st; ws_net_amount := ws_net_amount st;
     ws_step := Some s; ws_payment_id := ws_payment_id st;
     ws_txid := ws_txid st; ws_fee_verified := ws_fee_verified st;
     ws_fee_payment_id := ws_fee_payment_id st |}.

(** [st.update({'step': 'verifying', 'payment_id': p, 'txid': t})],
    lines 6018-6022. *)
Definition set_verifying (p : Z) (t : pystr) (st : wstate) : wstate :=
  {| ws_token := ws_token st; ws_withdrawal_token := ws_withdrawal_token st;
     ws_withdrawal_amount := ws_withdrawal_amount st;
     ws_fee_amount := ws_fee_amount st; ws_net_amount := ws_net_amount st;
     ws_step := Some "verifying"; ws_payment_id := Some p;
     ws_txid := Some t; ws_fee_verified := ws_fee_verified st;
     ws_fee_payment_id := ws_fee_payment_id st |}.

(** [st.get('step') == s] *)
Definition step_is (st : wstate) (s : string) : bool :=
  match ws_step st with
  | Some s' => String.eqb s' s
  | None => false
  end.

(** The inline keyboards that matter to the flow, by their callback data. *)
Inductive keyboard :=
| KbProceed (token : string)          (* fee_verified_<token> / cancel *)
| KbCheckStatus (payment_id : Z).     (* check_verification_<id> / cancel *)

(** Outgoing chat messages, one constructor per text of the source, with
    the values interpolated into it. *)
Inductive message :=
| MsgInvalidTxidFormat (token : string)
| MsgTxidAlreadyUsed (token : string)
| MsgSystemError (token : string)
| MsgVerificationInProgress (txid : pystr) (token : string) (fee_amount : Q)
    (network : string) (required : nat) (payment_id : Z)
| MsgErrorOccurred
| MsgInvalidAddress (token : string)
| MsgTokenNotFound
| MsgWithdrawalRejected (reason message : string) (fee : Q) (fee_token : string)
| MsgWithdrawalApproved (token : string) (gross fee_amount : Q)
    (fee_token : string) (net : Q) (address : pystr) (withdrawal_id : Z)
    (fee_txid : pystr)
| MsgWithdrawalError
| MsgSecurityBlock
| MsgEnterAddress (token : string)
| MsgVerificationUpdate (txid : pystr) (confirmation required : nat)
    (network : string) (kb : keyboard)
| MsgDefaultGuidance
| MsgNoTokenToWithdraw (token : string)
| MsgTxidRequest (token : string) (fee : Q)
| MsgEnterTxid (token : string)
| MsgNoVerifiedPayment
| MsgProvideAddress (token : string) (balance fee net : Q).

Record admin_op := { op_action : string; op_step : string }.

(** The process-wide dictionaries of lines 35-42, the store, the messages
    sent so far (oldest first) and the background tasks created so far. *)
Record World := {
  users_inputting_trader_id : gset Z;
  users_connecting_wallet : gmap Z string;
  user_withdrawal_states : gmap Z wstate;
  user_states : gmap Z string;
  admin_balance_operations : gmap Z admin_op;
  admin_ban_operations : gmap Z admin_op;
  db : Database;
  sent : list (Z * message);
  tasks : list (Z * nat)
}.

Definition with_trader_ids (f : gset Z → gset Z) (w : World) : World :=
  {| users_inputting_trader_id := f (users_inputting_trader_id w);
     users_connecting_wallet := users_connecting_wallet w;
     user_withdrawal_states := user_withdrawal_states w;
     user_states := user_states w;
     admin_balance_operations := admin_balance_operations w;
     admin_ban_operations := admin_ban_operations w;
     db := db w; sent := sent w; tasks := tasks w |}.

Definition with_wallets (f : gmap Z string → gmap Z string) (w : World) : World :=
  {| users_inputting_trader_id := users_inputting_trader_id w;
     users_connecting_wallet := f (users_connecting_wallet w);
     user_withdrawal_states := user_withdrawal_states w;
     user_states := user_states w;
     admin_balance_operations := admin_balance_operations w;
     admin_ban_operations := admin_ban_operations w;
     db := db w; sent := sent w; tasks := tasks w |}.

Definition with_withdrawal_states (f : gmap Z wstate → gmap Z wstate)
    (w : World) : World :=
  {| users_inputting_trader_id := users_inputting_trader_id w;
     users_connecting_wallet := users_connecting_wallet w;
     user_withdrawal_states := f (user_withdrawal_states w);
     user_states := user_states w;
     admin_balance_operations := admin_balance_operations w;
     admin_ban_operations := admin_ban_operations w;
     db := db w; sent := sent w; tasks := tasks w |}.

Definition with_user_states (f : gmap Z string → gmap Z string) (w : World) : World :=
  {| users_inputting_trader_id := users_inputting_trader_id w;
     users_connecting_wallet := users_connecting_wallet w;
     user_withdrawal_states := user_withdrawal_states w;
     user_states := f (user_states w);
     admin_balance_operations := admin_balance_operations w;
     admin_ban_operations := admin_ban_operations w;
     db := db w; sent := sent w; tasks := tasks w |}.

Definition with_balance_ops (f : gmap Z admin_op → gmap Z admin_op)
    (w : World) : World :=
  {| users_inputting_trader_id := users_inputting_trader_id w;
     users_connecting_wallet := users_connecting_wallet w;
     user_withdrawal_states := user_withdrawal_states w;
     user_states := user_states w;
     admin_balance_operations := f (admin_balance_operations w);
     admin_ban_operations := admin_ban_operations w;
     db := db w; sent := sent w; tasks := tasks w |}.

Definition with_ban_ops (f : gmap Z admin_op → gmap Z admin_op)
    (w : World) : World :=
  {| users_inputting_trader_id := users_inputting_trader_id w;
     users_connecting_wallet := users_connecting_wallet w;
     user_withdrawal_states := user_withdrawal_states w;
     user_states := user_states w;
     admin_balance_operations := admin_balance_operations w;
     admin_ban_operations := f (admin_ban_operations w);
     db := db w; sent := sent w; tasks := tasks w |}.

Definition with_db (f : Database → Database) (w : World) : World :=
  {| users_inputting_trader_id := users_inputting_trader_id w;
     users_connecting_wallet := users_connecting_wallet w;
     user_withdrawal_states := user_withdrawal_states w;
     user_states := user_states w;
     admin_balance_operations := admin_balance_operations w;
     admin_ban_operations := admin_ban_operations w;
     db := f (db w); sent := sent w; tasks := tasks w |}.

Definition with_sent (f : list (Z * message) → list (Z * message))
    (w : World) : World :=
  {| users_inputting_trader_id := users_inputting_trader_id w;
     users_connecting_wallet := users_connecting_wallet w;
     user_withdrawal_states := user_withdrawal_states w;
     user_states := user_states w;
     admin_balance_operations := admin_balance_operations w;
     admin_ban_operations := admin_ban_operations w;
     db := db w; sent := f (sent w); tasks := tasks w |}.

Definition with_tasks (f : list (Z * nat) → list (Z * nat)) (w : World) : World :=
  {| users_inputting_trader_id := users_inputting_trader_id w;
     users_connecting_wallet := users_connecting_wallet w;
     user_withdrawal_states := user_withdrawal_states w;
     user_states := user_states w;
     admin_balance_operations := admin_balance_operations w;
     admin_ban_operations := admin_ban_operations w;
     db := db w; sent := sent w; tasks := f (tasks w) |}.

(* ===================================================================== *)
(** * The storage layer [db] *)
(* ===================================================================== *)

Definition set_fee_payments (l : list FeePayment) (d : Database) : Database :=
  {| fee_payments := l; withdrawals := withdrawals d; portfolio := portfolio d |}.

Definition set_withdrawals (l : list Withdrawal) (d : Database) : Database :=
  {| fee_payments := fee_payments d; withdrawals := l; portfolio := portfolio d |}.

Definition set_portfolio (p : gmap (Z * string) holding) (d : Database) : Database :=
  {| fee_payments := fee_payments d; withdrawals := withdrawals d; portfolio := p |}.

Definition set_confirmations (n : nat) (p : FeePayment) : FeePayment :=
  {| fp_id := fp_id p; fp_user_id := fp_user_id p; fp_token := fp_token p;
     fp_expected_amount := fp_expected_amount p; fp_txid := fp_txid p;
     fp_network := fp_network p; fp_withdrawal_token := fp_withdrawal_token p;
     fp_withdrawal_amount := fp_withdrawal_amount p;
     fp_confirmations := n; fp_status := fp_status p |}.

Definition set_status (s : fee_status) (p : FeePayment) : FeePayment :=
  {| fp_id := fp_id p; fp_user_id := fp_user_id p; fp_token := fp_token p;
     fp_expected_amount := fp_expected_amount p; fp_txid := fp_txid p;
     fp_network := fp_network p; fp_withdrawal_token := fp_withdrawal_token p;
     fp_withdrawal_amount := fp_withdrawal_amount p;
     fp_confirmations := fp_confirmations p; fp_status := s |}.

(** Apply [f] to the payment with the given id, if there is one. *)
Definition alter_payment (id : Z) (f : FeePayment → FeePayment)
    (d : Database) : Database :=
  set_fee_payments
    (map (fun p => if Z.eqb (fp_id p) id then f p else p) (fee_payments d)) d.

(** Modelled from the spec: [db.get_fee_payment_by_id], the ledger's
    [get(id) -> FeePayment | NotFound] (section 4.2). *)
Definition get_fee_payment_by_id (d : Database) (id : Z) : option FeePayment :=
  List.find (fun p => Z.eqb (fp_id p) id) (fee_payments d).

(** Modelled from the spec: [db.get_fee_payment_by_txid], the ledger's
    [find_by_txid]; the match is case-sensitive and exact (section 4.2). *)
Definition get_fee_payment_by_txid (d : Database) (txid : pystr)
    : option FeePayment :=
  List.find (fun p => bool_decide (fp_txid p = txid)) (fee_payments d).

(** Modelled from the spec: [db.create_fee_payment], the ledger's [create]:
    rejects a txid already present for any prior record, otherwise inserts
    with status pending and zero confirmations (section 4.2). *)
Definition create_fee_payment (d : Database) (pd : payment_data)
    : option Z * Database :=
  match get_fee_payment_by_txid d (pd_txid pd) with
  | Some _ => (None, d)
  | None =>
      let id := Z.of_nat (S (length (fee_payments d))) in
      (Some id,
       set_fee_payments
         (fee_payments d ++
          [{| fp_id := id; fp_user_id := pd_user_id pd; fp_token := pd_token pd;
              fp_expected_amount := pd_expected_amount pd;
              fp_txid := pd_txid pd; fp_network := pd_network pd;
              fp_withdrawal_token := pd_withdrawal_token pd;
              fp_withdrawal_amount := pd_withdrawal_amount pd;
              fp_confirmations := 0; fp_status := pending |}]) d)
  end.

(** Modelled from the spec: [db.update_fee_payment_confirmations], the
    ledger's [advance_confirmations]: a monotonic update, a no-op when the
    new count is below the current one (section 4.2). *)
Definition update_fee_payment_confirmations (d : Database) (id : Z) (n : nat)
    : Database :=
  alter_payment id
    (fun p => if (n <? fp_confirmations p)%nat then p else set_confirmations n p) d.

(** Modelled from the spec: [db.mark_fee_payment_verified]: a terminal
    transition, idempotent, and a safe no-op after the opposite terminal
    state (section 4.2). *)
Definition mark_fee_payment_verified (d : Database) (id : Z) : Database :=
  alter_payment id
    (fun p => match fp_status p with pending => set_status verified p | _ => p end) d.

(** Modelled from the spec: [db.mark_fee_payment_rejected], as above. *)
Definition mark_fee_payment_rejected (d : Database) (id : Z) : Database :=
  alter_payment id
    (fun p => match fp_status p with pending => set_status rejected p | _ => p end) d.

(** A fee payment is consumed once a Withdrawal references it. *)
Definition consumed (d : Database) (id : Z) : bool :=
  existsb (fun w => Z.eqb (wd_fee_payment_id w) id) (withdrawals d).

Definition verified_unconsumed (d : Database) (user_id : Z) (asset : string)
    (p : FeePayment) : bool :=
  Z.eqb (fp_user_id p) user_id && String.eqb (fp_token p) asset
  && match fp_status p with verified => true | _ => false end
  && negb (consumed d (fp_id p)).

(** Modelled from the spec: the ledger's
    [find_latest_verified_unconsumed(user_id, asset)], which excludes any
    FeePayment already referenced by a Withdrawal (section 4.2). *)
Definition find_latest_verified_unconsumed (d : Database) (user_id : Z)
    (asset : string) : option FeePayment :=
  last (List.filter (verified_unconsumed d user_id asset) (fee_payments d)).

(** Modelled from the spec: [db.get_user_verified_fee_payment(user_id,
    token)], the lookup the callbacks use; it is the ledger query above at
    the token the callback names. *)
Definition get_user_verified_fee_payment (d : Database) (user_id : Z)
    (token : string) : option FeePayment :=
  find_latest_verified_unconsumed d user_id token.

(** Modelled from the spec: [db.get_user_portfolio(user_id)], the user's
    holdings by token. The returned dictionary is represented by its
    lookup function. *)
Definition get_user_portfolio (d : Database) (user_id : Z)
    : string → option holding :=
  fun token => portfolio d !! (user_id, token).

(** Modelled from the spec: [db.update_portfolio(user_id, token, delta,
    price)], the portfolio store's credit and debit: the quantity moves by
    [delta] (lines 1297 and 5042 pass a positive amount to buy and a
    negative one to sell). *)
Definition update_portfolio (d : Database) (user_id : Z) (token : string)
    (delta price : Q) : Database :=
  let h := match portfolio d !! (user_id, token) with
           | Some h => {| amount := (amount h + delta)%Q; avg_price := avg_price h |}
           | None => {| amount := delta; avg_price := price |}
           end in
  set_portfolio (<[(user_id, token) := h]> (portfolio d)) d.

Definition no_verified_fee_payment : string := "no_verified_fee_payment".
Definition amount_exceeds_holding : string := "amount_exceeds_holding".

Definition held (d : Database) (user_id : Z) (token : string) : Q :=
  match portfolio d !! (user_id, token) with
  | Some h => amount h
  | None => 0%Q
  end.

(** Modelled from the spec: [db.atomic_create_verified_withdrawal], the
    atomic withdrawal gate (section 4.4): step 1, the lookup of a verified
    unconsumed fee payment at [fee_asset_for(asset)] with the rejection
    [no_verified_fee_payment] that mutates nothing; the edge case that the
    gross amount must not exceed the holding (the spec gives that rejection
    no name); step 2, fee = 10% and net = gross - fee; step 3, the
    Withdrawal record referencing, and thereby consuming, the fee payment;
    step 5, the result. Step 4, the debit, is in the sources: the caller
    performs it at line 6285, so the gate modelled here stops at the
    record. *)
Definition atomic_create_verified_withdrawal (d : Database) (user_id : Z)
    (withdrawal_type withdrawal_token : string) (withdrawal_amount : Q)
    (to_address : pystr) : WithdrawalResult * Database :=
  let fee_token := get_fee_payment_token withdrawal_token in
  match find_latest_verified_unconsumed d user_id fee_token with
  | None =>
      (Rejected no_verified_fee_payment
         "No verified fee payment found for this withdrawal", d)
  | Some p =>
      if negb (Qle_bool withdrawal_amount (held d user_id withdrawal_token)) then
        (Rejected amount_exceeds_holding
           "Withdrawal amount exceeds the current holding", d)
      else
        let fee := (withdrawal_amount * tenth)%Q in
        let net := (withdrawal_amount - fee)%Q in
        let id := Z.of_nat (S (length (withdrawals d))) in
        (Approved id fee fee_token net (fp_txid p),
         set_withdrawals
           (withdrawals d ++
            [{| wd_id := id; wd_user_id := user_id; wd_type := withdrawal_type;
                wd_token := withdrawal_token; wd_amount := withdrawal_amount;
                wd_fee_amount := fee; wd_fee_token := fee_token;
                wd_fee_payment_id := fp_id p; wd_to_address := to_address |}]) d)
  end.

(* ===================================================================== *)
(** * A state-and-exception monad for the handlers *)
(* ===================================================================== *)

Inductive exn :=
| KeyError (key : string)
| StorageError
| SendError.

Inductive res (A : Type) :=
| Ok (a : A)
| Raise (e : exn).
Arguments Ok {A} a.
Arguments Raise {A} e.

(** A computation over a state [S] that returns or raises. *)
Definition M (S A : Type) : Type := S → res A * S.

Definition run {S A} (m : M S A) (s : S) : res A * S := m s.

#[global] Instance M_ret {S} : MRet (M S) := λ A a s, (Ok a, s).

#[global] Instance M_bind {S} : MBind (M S) := λ A B f m s,
  match m s with
  | (Ok a, s') => f a s'
  | (Raise e, s') => (Raise e, s')
  end.

Definition raise {S A} (e : exn) : M S A := λ s, (Raise e, s).

(** [try: m except Exception: h] *)
Definition try_except {S A} (m : M S A) (h : exn → M S A) : M S A := λ s,
  match m s with
  | (Ok a, s') => (Ok a, s')
  | (Raise e, s') => h e s'
  end.

Definition gets {S A} (f : S → A) : M S A := λ s, (Ok (f s), s).
Definition modify {S} (f : S → S) : M S unit := λ s, (Ok tt, f s).

(** [d[key]] on a dict entry that may be absent. *)
Definition getitem {S A} (key : string) (o : option A) : M S A :=
  match o with
  | Some a => mret a
  | None => raise (KeyError key)
  end.

(** [bot.send_message(chat_id, msg)] *)
Definition send_message (chat_id : Z) (msg : message) : M World unit :=
  modify (with_sent (λ l, l ++ [(chat_id, msg)])).

(** [del user_withdrawal_states[user_id]] *)
Definition del_withdrawal_state (user_id : Z) : M World unit :=
  st ← gets (λ w, user_withdrawal_states w !! user_id);
  match st with
  | Some _ => modify (with_withdrawal_states (delete user_id))
  | None => raise (KeyError "user_id")
  end.

(** [user_withdrawal_states.pop(user_id, None)] *)
Definition pop_withdrawal_state (user_id : Z) : M World unit :=
  modify (with_withdrawal_states (delete user_id)).

(** [await db.<query>(...)] *)
Definition db_read {A} (q : Database → A) : M World A := gets (λ w, q (db w)).

(** [await db.<update>(...)] with a result. *)
Definition db_call {A} (op : Database → A * Database) : M World A := λ w,
  let '(a, d) := op (db w) in (Ok a, with_db (λ _, d) w).

(** [await db.<update>(...)] without one. *)
Definition db_write (op : Database → Database) : M World unit :=
  modify (with_db op).

(** [asyncio.create_task(simulate_blockchain_confirmations(id, required))],
    lines 6051-6054. *)
Definition start_fee_verification_simulation (payment_id : Z)
    (required_confirmations : nat) : M World unit :=
  modify (with_tasks (λ l, l ++ [(payment_id, required_confirmations)])).

(** [user_withdrawal_states[user_id][...] = ...] and
    [user_withdrawal_states[user_id].update(...)] *)
Definition update_withdrawal_state (user_id : Z) (f : wstate → wstate)
    : M World unit :=
  st ← gets (λ w, user_withdrawal_states w !! user_id);
  match st with
  | Some s => modify (with_withdrawal_states (<[user_id := f s]>))
  | None => raise (KeyError "user_id")
  end.

(** Truthiness of a row id: [None] and [0] are falsy. *)
Definition truthy_id (o : option Z) : bool :=
  match o with
  | Some i => negb (Z.eqb i 0)
  | None => false
  end.

(* ===================================================================== *)
(** * Message and callback handlers *)
(* ===================================================================== *)

Section Handlers.

(** [config.py] is not among the sources: its constants are parameters. *)
Variable ADMIN_USER_ID : option Z.
(** [WITHDRAWAL_FEE_ADDRESSES[token]["network"]], where configured. *)
Variable WITHDRAWAL_FEE_NETWORK : string → option string.

(** [is_admin(user_id)], lines 55-57. *)
Definition is_admin (user_id : Z) : bool :=
  match ADMIN_USER_ID with
  | Some a => Z.eqb user_id a
  | None => false
  end.

(** ** [process_txid_input], lines 5900-6038 *)
Definition process_txid_input (chat_id user_id : Z) (txid : pystr)
    : M World unit :=
  try_except
    (withdrawal_state ← gets (λ w, user_withdrawal_states w !! user_id);
     match withdrawal_state with
     | None => mret tt
     | Some st =>
         if wstate_falsy st || negb (step_is st "entering_txid") then mret tt
         else
           token ← getitem "token" (ws_token st);
           withdrawal_token ← getitem "withdrawal_token" (ws_withdrawal_token st);
           withdrawal_amount ← getitem "withdrawal_amount" (ws_withdrawal_amount st);
           fee_amount ← getitem "fee_amount" (ws_fee_amount st);
           (* Validate TXID format *)
           if negb (validate_txid (PyStr txid) token) then
             send_message chat_id (MsgInvalidTxidFormat token)
           else
             (* Check if TXID already used *)
             existing_payment ← db_read (λ d, get_fee_payment_by_txid d txid);
             match existing_payment with
             | Some _ => send_message chat_id (MsgTxidAlreadyUsed token)
             | None =>
                 (* Create fee payment record and start verification *)
                 let fee_network :=
                   default (token +:+ " Network") (WITHDRAWAL_FEE_NETWORK token) in
                 payment_id ← db_call (λ d, create_fee_payment d
                   {| pd_user_id := user_id; pd_token := token;
                      pd_expected_amount := fee_amount; pd_txid := txid;
                      pd_network := fee_network;
                      pd_withdrawal_token := withdrawal_token;
                      pd_withdrawal_amount := withdrawal_amount |});
                 if negb (truthy_id payment_id) then
                   send_message chat_id (MsgSystemError token)
                 else
                   let payment_id := default 0%Z payment_id in
                   let required_confirmations :=
                     get_token_confirmation_requirement token in
                   update_withdrawal_state user_id (set_verifying payment_id txid);;
                   send_message chat_id
                     (MsgVerificationInProgress txid token fee_amount fee_network
                        required_confirmations payment_id);;
                   start_fee_verification_simulation payment_id
                     required_confirmations
             end
     end)
    (λ _, send_message chat_id MsgErrorOccurred).

(** ** [process_withdrawal_address_input], lines 6200-6337

    The coroutine is cut at its three awaited storage calls, so that the
    same pieces serve the sequential handler and the interleaved runs
    below. *)

Record address_ctx := {
  ac_token : string;
  ac_address : pystr;
  ac_portfolio : string → option holding
}.

Record gate_ctx := {
  gc_token : string;
  gc_address : pystr;
  gc_token_amount : Q;
  gc_withdrawal_fee : Q;
  gc_result : WithdrawalResult
}.

Record approved_ctx := {
  ap_token : string;
  ap_address : pystr;
  ap_token_amount : Q;
  ap_withdrawal_id : Z;
  ap_fee_amount : Q;
  ap_fee_token : string;
  ap_net_amount : Q;
  ap_fee_txid : pystr
}.

(** Lines 6203-6223: state lookup, address validation, portfolio read. *)
Definition address_lookup (chat_id user_id : Z) (wallet_address : pystr)
    : M World (option address_ctx) :=
  withdrawal_state ← gets (λ w, user_withdrawal_states w !! user_id);
  match withdrawal_state with
  | None => mret None
  | Some st =>
      if wstate_falsy st then mret None
      else
        token ← getitem "token" (ws_token st);
        let wallet_address := strip wallet_address in
        (* Basic address validation *)
        if (length wallet_address <? 20)%nat || (100 <? length wallet_address)%nat
        then
          send_message chat_id (MsgInvalidAddress token);;
          mret None
        else
          portfolio ← db_read (λ d, get_user_portfolio d user_id);
          mret (Some {| ac_token := token; ac_address := wallet_address;
                        ac_portfolio := portfolio |})
  end.

(** Lines 6224-6242: the holding of the token, and the gate. *)
Definition address_gate (chat_id user_id : Z) (c : address_ctx)
    : M World (option gate_ctx) :=
  let token := ac_token c in
  let user_holdings := λ t, amount <$> ac_portfolio c t in
  match user_holdings token with
  | None =>
      send_message chat_id MsgTokenNotFound;;
      del_withdrawal_state user_id;;
      mret None
  | Some token_amount =>
      let withdrawal_fee := (token_amount * tenth)%Q in
      withdrawal_result ← db_call (λ d,
        atomic_create_verified_withdrawal d user_id "crypto" token
          token_amount (ac_address c));
      mret (Some {| gc_token := token; gc_address := ac_address c;
                    gc_token_amount := token_amount;
                    gc_withdrawal_fee := withdrawal_fee;
                    gc_result := withdrawal_result |})
  end.

(** Lines 6244-6285: the security block, or the portfolio debit. *)
Definition address_settle (chat_id user_id : Z) (g : gate_ctx)
    : M World (option approved_ctx) :=
  let token := gc_token g in
  match gc_result g with
  | Rejected reason message =>
      send_message chat_id
        (MsgWithdrawalRejected reason message (gc_withdrawal_fee g)
           (get_fee_payment_token token));;
      del_withdrawal_state user_id;;
      mret None
  | Approved withdrawal_id fee_amount fee_token net_amount fee_txid =>
      db_write (λ d, update_portfolio d user_id token (- gc_token_amount g) 0);;
      mret (Some {| ap_token := token; ap_address := gc_address g;
                    ap_token_amount := gc_token_amount g;
                    ap_withdrawal_id := withdrawal_id;
                    ap_fee_amount := fee_amount; ap_fee_token := fee_token;
                    ap_net_amount := net_amount; ap_fee_txid := fee_txid |})
  end.

(** Lines 6287-6332: the approval message, and the state is cleared. *)
Definition address_confirm (chat_id user_id : Z) (a : approved_ctx)
    : M World unit :=
  send_message chat_id
    (MsgWithdrawalApproved (ap_token a) (ap_token_amount a) (ap_fee_amount a)
       (ap_fee_token a) (ap_net_amount a) (ap_address a)
       (ap_withdrawal_id a) (ap_fee_txid a));;
  del_withdrawal_state user_id.

(** Lines 6334-6337: the [except] clause. *)
Definition address_except (chat_id user_id : Z) : M World unit :=
  send_message chat_id MsgWithdrawalError;;
  pop_withdrawal_state user_id.

Definition process_withdrawal_address_input (chat_id user_id : Z)
    (wallet_address : pystr) : M World unit :=
  try_except
    (c ← address_lookup chat_id user_id wallet_address;
     match c with
     | None => mret tt
     | Some c =>
         g ← address_gate chat_id user_id c;
         match g with
         | None => mret tt
         | Some g =>
             a ← address_settle chat_id user_id g;
             match a with
             | None => mret tt
             | Some a => address_confirm chat_id user_id a
             end
         end
     end)
    (λ _, address_except chat_id user_id).


(** ** The [fee_paid_], [enter_txid_] and [fee_verified_] branches of
    [handle_callback_query], lines 2305-2491 *)
Definition fee_paid_callback (chat_id user_id : Z) (token : string)
    : M World unit :=
  portfolio ← db_read (λ d, get_user_portfolio d user_id);
  let user_holdings := λ t, amount <$> portfolio t in
  match user_holdings token with
  | None => send_message chat_id (MsgNoTokenToWithdraw token)
  | Some token_amount =>
      let withdrawal_fee := (token_amount * tenth)%Q in
      let net_amount := (token_amount - withdrawal_fee)%Q in
      (* Store withdrawal context for TXID verification *)
      modify (with_withdrawal_states
        (<[user_id := {| ws_token := Some token;
                         ws_withdrawal_token := Some token;
                         ws_withdrawal_amount := Some token_amount;
                         ws_fee_amount := Some withdrawal_fee;
                         ws_net_amount := Some net_amount;
                         ws_step := Some "awaiting_txid";
                         ws_payment_id := None; ws_txid := None;
                         ws_fee_verified := None;
                         ws_fee_payment_id := None |}]>));;
      send_message chat_id (MsgTxidRequest token withdrawal_fee)
  end.

Definition enter_txid_callback (chat_id user_id : Z) (token : string)
    : M World unit :=
  st ← gets (λ w, user_withdrawal_states w !! user_id);
  match st with
  | Some _ => update_withdrawal_state user_id (set_step "entering_txid")
  | None => mret tt
  end;;
  send_message chat_id (MsgEnterTxid token).

Definition fee_verified_callback (chat_id user_id : Z) (token : string)
    : M World unit :=
  verified_payment ← db_read (λ d, get_user_verified_fee_payment d user_id token);
  match verified_payment with
  | None => send_message chat_id MsgNoVerifiedPayment
  | Some p =>
      let fee_amount := fp_expected_amount p in
      let withdrawal_amount := fp_withdrawal_amount p in
      let net_amount := (withdrawal_amount - fee_amount)%Q in
      modify (with_withdrawal_states
        (<[user_id := {| ws_token := Some token; ws_withdrawal_token := None;
                         ws_withdrawal_amount := None; ws_fee_amount := None;
                         ws_net_amount := None;
                         ws_step := Some "entering_address";
                         ws_payment_id := None; ws_txid := None;
                         ws_fee_verified := Some true;
                         ws_fee_payment_id := Some (fp_id p) |}]>));;
      send_message chat_id
        (MsgProvideAddress token withdrawal_amount fee_amount net_amount)
  end.

(** ** The free-text router [handle_text_input], lines 5270-5338 *)

Record text_message := {
  from_user : Z;
  chat : Z;
  text : pystr
}.

(** The handler a message is handed to, with its arguments. The handlers
    for trader ids, wallets, admin input, support and bug reports lie
    outside the withdrawal core and appear only as calls. *)
Inductive handler_call :=
| call_process_trader_id_input (chat_id user_id : Z) (text : pystr)
| call_process_wallet_credentials (chat_id user_id : Z) (text : pystr)
    (wallet_type : string)
| call_process_admin_balance_input (chat_id user_id : Z) (text : pystr)
| call_process_admin_ban_input (chat_id user_id : Z) (text : pystr)
| call_process_txid_input (chat_id user_id : Z) (text : pystr)
| call_process_withdrawal_address_input (chat_id user_id : Z) (text : pystr)
| call_process_support_message (chat_id user_id : Z) (text : pystr)
| call_process_bug_report (chat_id user_id : Z) (text : pystr).

(** The router's own effects on the dictionaries, its reply, and the
    handler calls it makes, in order. None of the outside handlers reads or
    writes [user_states], so popping that entry after the call (lines
    5323-5324) or before it gives the same dictionaries. *)
Definition handle_text_input (m : text_message) (w : World)
    : World * list handler_call :=
  let user_id := from_user m in
  let text := strip (text m) in
  (* Check if user is inputting trader ID *)
  if bool_decide (user_id ∈ users_inputting_trader_id w) then
    (with_trader_ids (λ s, s ∖ {[user_id]}) w,
     [call_process_trader_id_input (chat m) user_id text])
  else
  (* Check if user is connecting wallet *)
  match users_connecting_wallet w !! user_id with
  | Some wallet_type =>
      (with_wallets (delete user_id) w,
       [call_process_wallet_credentials (chat m) user_id text wallet_type])
  | None =>
  (* Check if admin is performing balance operations *)
  match admin_balance_operations w !! user_id with
  | Some _ =>
      if is_admin user_id then
        (w, [call_process_admin_balance_input (chat m) user_id text])
      else (with_balance_ops (delete user_id) w, [])
  | None =>
  (* Check if admin is performing ban operations *)
  match admin_ban_operations w !! user_id with
  | Some _ =>
      if is_admin user_id then
        (w, [call_process_admin_ban_input (chat m) user_id text])
      else (with_ban_ops (delete user_id) w, [])
  | None =>
  (* Check if user is entering withdrawal info (TXID or address) *)
  match user_withdrawal_states w !! user_id with
  | Some user_state =>
      if step_is user_state "entering_txid" then
        (w, [call_process_txid_input (chat m) user_id text])
      else
        (w, [call_process_withdrawal_address_input (chat m) user_id text])
  | None =>
  (* Check if user is sending support message or bug report *)
  let default_reply := (with_sent (λ l, l ++ [(chat m, MsgDefaultGuidance)]) w, []) in
  match user_states w !! user_id with
  | Some user_state =>
      if String.eqb user_state "waiting_for_support_message" then
        (with_user_states (delete user_id) w,
         [call_process_support_message (chat m) user_id text])
      else if String.eqb user_state "waiting_for_bug_report" then
        (with_user_states (delete user_id) w,
         [call_process_bug_report (chat m) user_id text])
      else default_reply
  | None => default_reply
  end end end end end.

(** [asyncio.run(process_...(...))] for the two handlers of the core; the
    outside handlers are not run. *)
Definition run_call (c : handler_call) : M World unit :=
  match c with
  | call_process_txid_input chat_id user_id text =>
      process_txid_input chat_id user_id text
  | call_process_withdrawal_address_input chat_id user_id text =>
      process_withdrawal_address_input chat_id user_id text
  | _ => mret tt
  end.

(** A text message arrives: the router, then the handler it chose. *)
Definition receive_text (m : text_message) (w : World) : World :=
  let '(w1, cs) := handle_text_input m w in
  fold_left (λ w c, snd (run_call c w)) cs w1.

End Handlers.

(* ===================================================================== *)
(** * The confirmation-accrual coroutine *)
(* ===================================================================== *)

(** The storage calls the coroutine awaits. *)
Inductive storage_call :=
| GetFeePaymentById (payment_id : Z)
| UpdateConfirmations (payment_id : Z) (confirmation : nat)
| MarkVerified (payment_id : Z)
| MarkRejected (payment_id : Z).

(** What lies outside the coroutine: which of its awaited storage calls
    raise (by position among its calls), which notifications fail to be
    delivered (by confirmation index), and what the rest of the bot does to
    the shared dictionaries and the store while the coroutine sleeps before
    a confirmation. *)
Record Environment := {
  storage_fails : nat → bool;
  send_fails : nat → bool;
  during_sleep : nat → World → World
}.

(** The coroutine's view: the shared world, the storage calls it has
    awaited so far and the delays it has slept, oldest first. *)
Record Task := {
  world : World;
  calls : list storage_call;
  slept : list nat
}.

Definition with_world (f : World → World) (t : Task) : Task :=
  {| world := f (world t); calls := calls t; slept := slept t |}.

Section Accrual.

Variable env : Environment.

(** [await db.<op>(...)]: the call is made, and raises or takes effect. *)
Definition await_storage {A} (c : storage_call) (op : Database → A * Database)
    : M Task A := λ t,
  let t' := {| world := world t; calls := calls t ++ [c]; slept := slept t |} in
  if storage_fails env (length (calls t)) then (Raise StorageError, t')
  else let '(a, d) := op (db (world t)) in
       (Ok a, with_world (with_db (λ _, d)) t').

(** [await asyncio.sleep(wait_time)] before confirmation [k]. *)
Definition sleep (k wait_time : nat) : M Task unit := λ t,
  (Ok tt, {| world := during_sleep env k (world t); calls := calls t;
             slept := slept t ++ [wait_time] |}).

(** [bot.send_message(user_id, progress_text, reply_markup=keyboard)] *)
Definition notify (k : nat) (user_id : Z) (msg : message) : M Task unit :=
  if send_fails env k then raise SendError
  else modify (with_world (with_sent (λ l, l ++ [(user_id, msg)]))).

(** Run a handler-level action on the shared world. *)
Definition on_world {A} (m : M World A) : M Task A := λ t,
  let '(r, w) := m (world t) in
  (r, {| world := w; calls := calls t; slept := slept t |}).

Inductive loop_ctl := Continue | Break.

(** [for i in l: body], where the body may [break]. *)
Fixpoint for_each {S} (l : list nat) (body : nat → M S loop_ctl) : M S unit :=
  match l with
  | [] => mret tt
  | i :: r =>
      c ← body i;
      match c with
      | Break => mret tt
      | Continue => for_each r body
      end
  end.

Definition confirmation_delays : list (string * list nat) :=
  [("BTC", [120; 240]); ("ETH", [30; 60]); ("SOL", [15]); ("USDT", [30; 60]);
   ("BNB", [60; 120]); ("MATIC", [30; 60]); ("ADA", [60; 120]);
   ("LINK", [30; 60])]%nat.

(** Lines 6087-6090. *)
Definition wait_time (delays : list nat) (confirmation : nat) : nat :=
  if (confirmation <=? length delays)%nat
  then nth (confirmation - 1) delays 0%nat
  else List.last delays 0%nat.

(** One round of the loop, lines 6086-6141. *)
Definition confirmation_round (payment_id : Z) (required_confirmations : nat)
    (payment : FeePayment) (delays : list nat) (confirmation : nat)
    : M Task loop_ctl :=
  let user_id := fp_user_id payment in
  let token := fp_token payment in
  let txid := fp_txid payment in
  (* Wait for realistic network delay *)
  sleep confirmation (wait_time delays confirmation);;
  (* Update confirmation count in database *)
  await_storage (UpdateConfirmations payment_id confirmation)
    (λ d, (tt, update_fee_payment_confirmations d payment_id confirmation));;
  (* Check if user is still in withdrawal flow *)
  in_flow ← gets (λ t, bool_decide
                         (is_Some (user_withdrawal_states (world t) !! user_id)));
  (if in_flow : bool then
     kb ← (if (required_confirmations <=? confirmation)%nat then
             (* Verification complete - mark as verified and allow withdrawal *)
             await_storage (MarkVerified payment_id)
               (λ d, (tt, mark_fee_payment_verified d payment_id));;
             on_world (update_withdrawal_state user_id (set_step "verified"));;
             mret (KbProceed token)
           else mret (KbCheckStatus payment_id));
     try_except
       (notify confirmation user_id
          (MsgVerificationUpdate txid confirmation required_confirmations
             (fp_network payment) kb))
       (λ _, mret tt)
   else mret tt);;
  (* Break if verification complete *)
  if (required_confirmations <=? confirmation)%nat then mret Break
  else mret Continue.

(** [simulate_blockchain_confirmations], lines 6056-6148. *)
Definition simulate_blockchain_confirmations (payment_id : Z)
    (required_confirmations : nat) : M Task unit :=
  try_except
    (payment ← await_storage (GetFeePaymentById payment_id)
                 (λ d, (get_fee_payment_by_id d payment_id, d));
     match payment with
     | None => mret tt
     | Some payment =>
         let delays := dict_get confirmation_delays (fp_token payment)
                         [60; 120]%nat in
         for_each (seq 1 required_confirmations)
           (confirmation_round payment_id required_confirmations payment delays)
     end)
    (λ _, (* Mark as rejected on error *)
       await_storage (MarkRejected payment_id)
         (λ d, (tt, mark_fee_payment_rejected d payment_id))).

End Accrual.

(** Start the coroutine on a world. *)
Definition spawn (w : World) : Task := {| world := w; calls := []; slept := [] |}.

(** An environment in which nothing fails and nothing else happens. *)
Definition calm : Environment :=
  {| storage_fails := λ _, false; send_fails := λ _, false;
     during_sleep := λ _ w, w |}.

(** The confirmation counts the coroutine wrote, oldest first. *)
Definition counts_written (cs : list storage_call) : list nat :=
  omap (λ c, match c with UpdateConfirmations _ n => Some n | _ => None end) cs.

(* ===================================================================== *)
(** * The router as the specification words it (section 4.5) *)
(* ===================================================================== *)

(** The state buckets, and the fixed order in which they are checked. *)
Inductive bucket :=
| trader_id_entry
| wallet_connection
| admin_balance_operation
| admin_ban_operation
| withdrawal_state
| support_state.

Definition priority_order : list bucket :=
  [trader_id_entry; wallet_connection; admin_balance_operation;
   admin_ban_operation; withdrawal_state; support_state].

(** Whether a bucket holds a pending expectation for the user. *)
Definition bucket_matches (w : World) (user_id : Z) (b : bucket) : bool :=
  match b with
  | trader_id_entry => bool_decide (user_id ∈ users_inputting_trader_id w)
  | wallet_connection => bool_decide (is_Some (users_connecting_wallet w !! user_id))
  | admin_balance_operation =>
      bool_decide (is_Some (admin_balance_operations w !! user_id))
  | admin_ban_operation =>
      bool_decide (is_Some (admin_ban_operations w !! user_id))
  | withdrawal_state => bool_decide (is_Some (user_withdrawal_states w !! user_id))
  | support_state =>
      bool_decide (user_states w !! user_id = Some "waiting_for_support_message"
                   ∨ user_states w !! user_id = Some "waiting_for_bug_report")
  end.

Definition first_match (w : World) (user_id : Z) : option bucket :=
  List.find (bucket_matches w user_id) priority_order.

Section RouterSpec.

Variable ADMIN_USER_ID : option Z.

(** What each bucket does with the message. *)
Definition dispatch_to (b : bucket) (m : text_message) (w : World)
    : World * list handler_call :=
  let user_id := from_user m in
  let text := strip (text m) in
  match b with
  | trader_id_entry =>
      (with_trader_ids (λ s, s ∖ {[user_id]}) w,
       [call_process_trader_id_input (chat m) user_id text])
  | wallet_connection =>
      (with_wallets (delete user_id) w,
       [call_process_wallet_credentials (chat m) user_id text
          (default "" (users_connecting_wallet w !! user_id))])
  | admin_balance_operation =>
      if is_admin ADMIN_USER_ID user_id
      then (w, [call_process_admin_balance_input (chat m) user_id text])
      else (with_balance_ops (delete user_id) w, [])
  | admin_ban_operation =>
      if is_admin ADMIN_USER_ID user_id
      then (w, [call_process_admin_ban_input (chat m) user_id text])
      else (with_ban_ops (delete user_id) w, [])
  | withdrawal_state =>
      if bool_decide ((user_withdrawal_states w !! user_id) ≫= ws_step
                      = Some "entering_txid")
      then (w, [call_process_txid_input (chat m) user_id text])
      else (w, [call_process_withdrawal_address_input (chat m) user_id text])
  | support_state =>
      (with_user_states (delete user_id) w,
       [if bool_decide (user_states w !! user_id
                        = Some "waiting_for_support_message")
        then call_process_support_message (chat m) user_id text
        else call_process_bug_report (chat m) user_id text])
  end.

(** Dispatch to exactly the first match; the generic guidance otherwise. *)
Definition route_by_priority (m : text_message) (w : World)
    : World * list handler_call :=
  match first_match w (from_user m) with
  | Some b => dispatch_to b m w
  | None => (with_sent (λ l, l ++ [(chat m, MsgDefaultGuidance)]) w, [])
  end.

End RouterSpec.

(* ===================================================================== *)
(** * Transaction-id shapes as the specification words them *)
(* ===================================================================== *)

Definition is_hex (c : N) : Prop := c ∈ codes hex_chars.
Definition is_base58 (c : N) : Prop := c ∈ codes base58_chars.

Inductive txid_shape : string → pystr → Prop :=
| shape_hex64 token s :
    token ∈ ["BTC"; "ADA"] →
    length s = 64%nat → Forall is_hex s →
    txid_shape token s
| shape_0x_hex64 token h :
    token ∈ ["ETH"; "USDT"; "BNB"; "MATIC"; "LINK"] →
    length h = 64%nat → Forall is_hex h →
    txid_shape token (codes "0x" ++ h)
| shape_base58 token s :
    token ∈ ["SOL"] →
    length s = 88%nat → Forall is_base58 s →
    txid_shape token s.

(* ===================================================================== *)
(** * Interleaved runs of the destination-address path *)
(* ===================================================================== *)

(** Where an invocation of [process_withdrawal_address_input] stands: at
    one of its awaited storage calls, or finished. *)
Inductive address_pc :=
| AtLookup (wallet_address : pystr)
| AtGate (c : address_ctx)
| AtSettle (g : gate_ctx)
| AtConfirm (a : approved_ctx)
| Finished.

Record invocation := {
  inv_chat : Z;
  inv_user : Z;
  inv_pc : address_pc
}.

(** A portfolio debit made by the withdrawal path, with the id of the
    Withdrawal record the invocation obtained from the gate. *)
Inductive effect :=
| Debited (user_id : Z) (token : string) (amount : Q) (withdrawal_id : Z).

(** Run an invocation up to and including its next awaited storage call. *)
Definition advance (i : invocation) : M World (address_pc * list effect) :=
  match inv_pc i with
  | AtLookup a =>
      r ← address_lookup (inv_chat i) (inv_user i) a;
      mret (from_option AtGate Finished r, [])
  | AtGate c =>
      r ← address_gate (inv_chat i) (inv_user i) c;
      mret (from_option AtSettle Finished r, [])
  | AtSettle g =>
      r ← address_settle (inv_chat i) (inv_user i) g;
      mret (match r with
            | Some a => (AtConfirm a,
                         [Debited (inv_user i) (ap_token a) (ap_token_amount a)
                            (ap_withdrawal_id a)])
            | None => (Finished, [])
            end)
  | AtConfirm a =>
      address_confirm (inv_chat i) (inv_user i) a;;
      mret (Finished, [])
  | Finished => mret (Finished, [])
  end.

(** The same, inside the handler's [try]: an exception ends the invocation
    in the [except] clause. *)
Definition step_invocation (i : invocation) (w : World)
    : invocation * World * list effect :=
  match try_except (advance i)
          (λ _, address_except (inv_chat i) (inv_user i);; mret (Finished, [])) w
  with
  | (Ok (pc, es), w') =>
      ({| inv_chat := inv_chat i; inv_user := inv_user i; inv_pc := pc |}, w', es)
  | (Raise _, w') =>
      ({| inv_chat := inv_chat i; inv_user := inv_user i; inv_pc := Finished |},
       w', [])
  end.

(** The bot with some address-path invocations in flight. *)
Record system := {
  shared : World;
  running : list invocation;
  effects : list effect
}.

(** What may happen next: an invocation in flight moves on; the router
    hands a new message to the address path; or something else runs (the
    TXID handler, an accrual coroutine, a callback). A crash is the end of
    the schedule. *)
Inductive event :=
| Run (n : nat)
| Arrive (chat_id user_id : Z) (wallet_address : pystr)
| Elsewhere (f : World → World).

Definition occur (s : system) (e : event) : system :=
  match e with
  | Run n =>
      match running s !! n with
      | Some i =>
          let '(i', w', es) := step_invocation i (shared s) in
          {| shared := w'; running := <[n := i']> (running s);
             effects := effects s ++ es |}
      | None => s
      end
  | Arrive chat_id user_id a =>
      {| shared := shared s;
         running := running s ++
           [{| inv_chat := chat_id; inv_user := user_id; inv_pc := AtLookup a |}];
         effects := effects s |}
  | Elsewhere f =>
      {| shared := f (shared s); running := running s; effects := effects s |}
  end.

Definition exec (schedule : list event) (s : system) : system :=
  fold_left occur schedule s.


Definition boot (w : World) : system :=
  {| shared := w; running := []; effects := [] |}.



(* ===================================================================== *)
(** * Notions used in the statements and proofs *)
(* ===================================================================== *)

(** The length check of lines 6210-6211 passes. *)
Definition address_ok (a : pystr) : Prop :=
  (20 ≤ length (strip a) ≤ 100)%nat.






(** The debit that belongs to a Withdrawal record: the gross amount of the
    record, from the holding of its user in its token. *)
Definition debit_of (r : Withdrawal) : effect :=
  Debited (wd_user_id r) (wd_token r) (wd_amount r) (wd_id r).



(** The debit an invocation still has to make: it stands between the
    gate, which has approved and created the record, and line 6285. *)
Definition pending_debit (i : invocation) : option effect :=
  match inv_pc i with
  | AtSettle g =>
      match gc_result g with
      | Approved withdrawal_id _ _ _ _ =>
          Some (Debited (inv_user i) (gc_token g) (gc_token_amount g)
                  withdrawal_id)
      | Rejected _ _ => None
      end
  | _ => None
  end.

(** The debits awaited by the invocations in flight. *)
Definition awaited (s : system) : list effect :=
  omap pending_debit (running s).

(** The Withdrawal records created since the bot was in state [w0]. *)
Definition created (w0 : World) (s : system) : list Withdrawal :=
  drop (length (withdrawals (db w0))) (withdrawals (db (shared s))).



(** The records created are numbered by their position in the ledger and
    are, one for one, the debits made and the debits awaited. *)
Definition settled (w0 : World) (s : system) : Prop :=
  (length (withdrawals (db w0)) ≤ length (withdrawals (db (shared s))))%nat
  ∧ (∀ k r, withdrawals (db (shared s)) !! k = Some r →
       (length (withdrawals (db w0)) ≤ k)%nat → wd_id r = Z.of_nat (S k))
  ∧ map debit_of (created w0 s) ≡ₚ effects s ++ awaited s.

(** No awaited storage call with a position in [a, b) raises. *)
Definition clean (env : Environment) (a b : nat) : Prop :=
  ∀ j, (a ≤ j < b)%nat → storage_fails env j = false.

(** The owner of the payment still has an entry in
    [user_withdrawal_states] when the coroutine wakes up for round [i]. *)
Definition in_flow_after_sleep (env : Environment) (p : FeePayment) (i : nat)
    (t : Task) : Prop :=
  is_Some (user_withdrawal_states (during_sleep env i (world t)) !! fp_user_id p).

(** How every run of the coroutine looks, by its storage calls: the
    lookup, the confirmation writes 1..k, [mark_verified] only after the
    write of [req] and only with the owner still in the flow, and
    [mark_rejected] exactly when a call raised. *)
Definition accrual_outcome (env : Environment) (id : Z) (req : nat) (w : World)
    (r : res unit) (t : Task) : Prop :=
  ∃ k tail rej,
    calls t = GetFeePaymentById id
                :: map (UpdateConfirmations id) (seq 1 k) ++ tail ++ rej
    ∧ (k ≤ req)%nat
    ∧ (tail = []
       ∨ tail = [MarkVerified id] ∧ k = req ∧ (0 < req)%nat
         ∧ ∃ p t0, get_fee_payment_by_id (db w) id = Some p
                   ∧ in_flow_after_sleep env p req t0)
    ∧ (rej = [] ∧ clean env 0 (S (k + length tail)) ∧ r = Ok tt
       ∧ (∀ p, get_fee_payment_by_id (db w) id = Some p →
            k = req
            ∧ ((0 < req)%nat → (∀ t0, in_flow_after_sleep env p req t0) →
               tail = [MarkVerified id]))
       ∧ (get_fee_payment_by_id (db w) id = None →
            k = 0%nat ∧ tail = [] ∧ world t = w)
       ∨ rej = [MarkRejected id]
         ∧ storage_fails env (k + length tail) = true
         ∧ clean env 0 (k + length tail)
         ∧ ((0 < k + length tail)%nat →
            is_Some (get_fee_payment_by_id (db w) id))
         ∧ (storage_fails env (S (k + length tail)) = false →
            r = Ok tt
            ∧ ∃ d, db (world t) = mark_fee_payment_rejected d id)).

(* ===================================================================== *)
(** * Sample data for the concrete runs *)
(* ===================================================================== *)

Definition hex_txid : pystr :=
  codes "a1b2c3d4e5f6789012345678901234567890abcdef1234567890abcdef123456".

(** The same transaction id with a trailing blank: 65 characters. *)
Definition padded_txid : pystr := hex_txid ++ codes " ".

Definition sol_txid : pystr :=
  codes "5uGfMDHLd3PwLhWmUhyKYBpZ8nQGvmjw7XrVCQ2KzBhqN3vFpE9rKdYtQwPjMnL85uGfMDHLd3PwLhWmUhyKYBpZ".

Definition sol_address : pystr :=
  codes "So11111111111111111111111111111111111111112".

Definition no_networks : string → option string := λ _, None.

Definition empty_world : World :=
  {| users_inputting_trader_id := ∅; users_connecting_wallet := ∅;
     user_withdrawal_states := ∅; user_states := ∅;
     admin_balance_operations := ∅; admin_ban_operations := ∅;
     db := {| fee_payments := []; withdrawals := []; portfolio := ∅ |};
     sent := []; tasks := [] |}.

(** User 7 holds 5 SOL. *)
Definition holder_world : World :=
  with_db (set_portfolio {[ (7%Z, "SOL") := {| amount := 5; avg_price := 20 |} ]})
    empty_world.

Definition text_from (user_id : Z) (t : pystr) : text_message :=
  {| from_user := user_id; chat := user_id; text := t |}.

(** User 7 has pressed "fee paid" and "enter TXID" for SOL and has then sent
    a well-formed transaction id: payment 1 is pending, its coroutine has
    been created. *)
Definition world_verifying : World :=
  receive_text None no_networks (text_from 7 sol_txid)
    (snd (enter_txid_callback 7 7 "SOL"
       (snd (fee_paid_callback 7 7 "SOL" holder_world)))).

(** While the coroutine sleeps, user 7 sends one more text of address
    length; nothing fails. *)
Definition user_sends_text : Environment :=
  {| storage_fails := λ _, false; send_fails := λ _, false;
     during_sleep := λ _, receive_text None no_networks (text_from 7 sol_address) |}.

(** The coroutine of payment 1 has run undisturbed: the payment is
    verified. *)
Definition world_verified : World :=
  world (snd (run (simulate_blockchain_confirmations calm 1
                     (get_token_confirmation_requirement "SOL"))
                (spawn world_verifying))).

(** User 7 then presses "proceed to withdrawal". *)
Definition world_awaiting_address : World :=
  snd (run (fee_verified_callback 7 7 "SOL") world_verified).

(** User 7 is asked for an address although no fee payment exists: the
    entry carries a stale [fee_verified] flag. *)
Definition world_stale_flag : World :=
  with_withdrawal_states
    (<[7%Z := {| ws_token := Some "SOL"; ws_withdrawal_token := None;
                 ws_withdrawal_amount := None; ws_fee_amount := None;
                 ws_net_amount := None; ws_step := Some "entering_address";
                 ws_payment_id := None; ws_txid := None;
                 ws_fee_verified := Some true;
                 ws_fee_payment_id := Some 1%Z |}]>) holder_world.

(** User 1 has a BTC fee payment on the ledger under [hex_txid]; user 2 is
    entering a transaction id for ETH. *)
Definition world_two_users : World :=
  with_withdrawal_states
    (<[2%Z := {| ws_token := Some "ETH"; ws_withdrawal_token := Some "ETH";
                 ws_withdrawal_amount := Some 3%Q; ws_fee_amount := Some (3 # 10);
                 ws_net_amount := Some (27 # 10); ws_step := Some "entering_txid";
                 ws_payment_id := None; ws_txid := None;
                 ws_fee_verified := None; ws_fee_payment_id := None |}]>)
    (with_db (set_fee_payments
       [{| fp_id := 1; fp_user_id := 1; fp_token := "BTC";
           fp_expected_amount := 1 # 10; fp_txid := hex_txid;
           fp_network := "BTC Network"; fp_withdrawal_token := "BTC";
           fp_withdrawal_amount := 1; fp_confirmations := 2;
           fp_status := verified |}]) empty_world).

(** The same, with user 2 entering a transaction id for BTC. *)
Definition world_two_users_btc : World :=
  with_withdrawal_states
    (<[2%Z := {| ws_token := Some "BTC"; ws_withdrawal_token := Some "BTC";
                 ws_withdrawal_amount := Some 3%Q; ws_fee_amount := Some (3 # 10);
                 ws_net_amount := Some (27 # 10); ws_step := Some "entering_txid";
                 ws_payment_id := None; ws_txid := None;
                 ws_fee_verified := None; ws_fee_payment_id := None |}]>)
    world_two_users.

(** User 5, who is not the admin (user 1), has a left-over balance
    operation. *)
Definition world_stale_admin : World :=
  with_balance_ops (<[5%Z := {| op_action := "add"; op_step := "user_id" |}]>)
    empty_world.

(** The same for a ban operation. *)
Definition world_stale_ban : World :=
  with_ban_ops (<[5%Z := {| op_action := "ban"; op_step := "user_id" |}]>)
    empty_world.

(** Two address messages of user 7 handled at the same time, their steps
    alternating. *)
Definition double_tap : list event :=
  [Arrive 7 7 sol_address; Arrive 7 7 sol_address;
   Run 0; Run 1; Run 0; Run 1; Run 0; Run 1; Run 0; Run 1]%nat.


(** User 7 with a second verified fee payment for SOL on the ledger. *)
Definition world_two_payments : World :=
  with_db (λ d, set_fee_payments
     (fee_payments d ++
      [{| fp_id := 2; fp_user_id := 7; fp_token := "SOL";
          fp_expected_amount := 5 # 10; fp_txid := codes "second";
          fp_network := "SOL Network"; fp_withdrawal_token := "SOL";
          fp_withdrawal_amount := 5; fp_confirmations := 1;
          fp_status := verified |}]) d) world_awaiting_address.

(* ===================================================================== *)
(** * The callback dispatcher [handle_callback_query], lines 454-4571 *)
(* ===================================================================== *)

(** [s.replace(old, new)] for a non-empty [old]: the occurrences of [old]
    are found from the left and do not overlap; [skip] counts the
    characters of the occurrence at hand that are still to be dropped. *)
Fixpoint replace_from (old new : pystr) (skip : nat) (s : pystr) : pystr :=
  match s with
  | [] => []
  | c :: r =>
      match skip with
      | S k => replace_from old new k r
      | O =>
          if startswith s old then new ++ replace_from old new (length old - 1) r
          else c :: replace_from old new 0 r
      end
  end.

(** [s.replace(old, new)]; an empty [old] matches before every character
    and at the end. *)
Definition str_replace (s old new : pystr) : pystr :=
  match old with
  | [] => new ++ flat_map (λ c, c :: new) s
  | _ :: _ => replace_from old new 0 s
  end.

(** The conditions of the [if]/[elif] chain on [data], lines 466-4415. *)
Inductive guard :=
| Equals (s : string)                 (* data == "s" *)
| StartsWith (prefix : string)        (* data.startswith("prefix") *)
| OneOf (l : list string)             (* data in [...] *)
| EitherOf (a b : string).            (* data == "a" or data == "b" *)

Definition guard_holds (data : pystr) (g : guard) : bool :=
  match g with
  | Equals s => bool_decide (data = codes s)
  | StartsWith prefix => startswith data (codes prefix)
  | OneOf l => bool_decide (data ∈ map codes l)
  | EitherOf a b => bool_decide (data = codes a) || bool_decide (data = codes b)
  end.

(** The branches of the chain in the order of the source, each under the
    line of its condition. The final [else] (line 4552) takes what no
    condition accepts. *)
Definition callback_branches : list (nat * guard) :=
  [
   (466, Equals "back_to_main");
   (479, Equals "menu_buy");
   (494, Equals "menu_sell");
   (549, Equals "menu_wallet");
   (581, Equals "menu_portfolio");
   (601, Equals "menu_settings");
   (649, Equals "settings_security");
   (689, Equals "settings_trading");
   (729, Equals "settings_notifications");
   (769, Equals "settings_wallet");
   (813, Equals "wallet_connect");
   (855, Equals "menu_withdraw");
   (916, Equals "menu_analytics");
   (984, Equals "refresh_prices");
   (1008, StartsWith "buy_token_");
   (1123, StartsWith "sell_token_");
   (1172, StartsWith "sell_percent_");
   (1193, Equals "menu_admin");
   (1221, Equals "admin_pending_deposits");
   (1276, StartsWith "approve_deposit_");
   (1377, StartsWith "reject_deposit_");
   (1468, StartsWith "admin_curr_");
   (1520, StartsWith "admin_");
   (1825, StartsWith "wallet_");
   (2074, StartsWith "withdraw_type_");
   (2128, StartsWith "withdraw_token_");
   (2204, StartsWith "confirm_fee_");
   (2290, StartsWith "copy_fee_address_");
   (2305, StartsWith "fee_paid_");
   (2389, StartsWith "enter_txid_");
   (2423, StartsWith "fee_verified_");
   (2493, StartsWith "check_verification_");
   (2560, StartsWith "enter_address_");
   (2602, StartsWith "buy_amount_");
   (2677, StartsWith "confirm_deposit_");
   (2789, StartsWith "copy_address_");
   (2806, StartsWith "copy_withdrawal_");
   (2822, StartsWith "refresh_token_");
   (2932, Equals "menu_deposits");
   (2935, Equals "menu_notifications");
   (2938, Equals "menu_copy_trading");
   (2941, Equals "show_addresses");
   (2945, Equals "copy_browse");
   (2953, Equals "copy_following");
   (2956, Equals "copy_specific_trader");
   (2964, StartsWith "view_provider_");
   (2969, StartsWith "connect_wallet_");
   (2973, Equals "wallet_disconnect");
   (2976, StartsWith "follow_");
   (2992, StartsWith "unfollow_");
   (3002, Equals "wallet_refresh");
   (3036, Equals "wallet_settings");
   (3077, EitherOf "menu_withdraw" "wallet_withdraw");
   (3119, Equals "withdraw_help");
   (3167, Equals "contact_support");
   (3213, Equals "analytics_performance");
   (3266, Equals "analytics_risk");
   (3325, Equals "analytics_recommendations");
   (3390, Equals "analytics_trends");
   (3470, Equals "copy_performance");
   (3541, Equals "copy_become_provider");
   (3581, Equals "provider_requirements");
   (3627, Equals "analytics_detailed");
   (3668, Equals "analytics_assets");
   (3719, Equals "analytics_compare");
   (3768, Equals "analytics_alerts");
   (3822, Equals "copy_settings");
   (3877, Equals "copy_detailed");
   (3937, Equals "wallet_security");
   (3993, Equals "wallet_privacy");
   (4051, Equals "wallet_backup");
   (4108, OneOf ["analytics_stoploss"; "analytics_riskreport";
      "analytics_risksettings"]);
   (4118, OneOf ["execute_recommendations"; "analytics_fullanalysis";
      "analytics_aisettings"]);
   (4128, OneOf ["analytics_hotpicks"; "analytics_sectors";
      "analytics_charts"]);
   (4138, OneOf ["copy_budget"; "copy_risk"; "copy_notifications";
      "copy_execution"]);
   (4148, OneOf ["enable_2fa"; "setup_hardware_key"; "setup_biometric";
      "setup_ip_whitelist"]);
   (4158, OneOf ["rebalance_portfolio"; "compare_allocation";
      "view_leaderboard"; "add_price_alert"; "alert_settings";
      "alert_history"; "manage_alerts"; "email_copy_report";
      "export_report"]);
   (4169, OneOf ["leaderboard_optin"; "email_preferences";
      "export_user_data"; "delete_account_request"; "generate_seed_phrase";
      "export_private_keys"; "setup_recovery_questions"; "test_recovery"]);
   (4180, OneOf ["broadcast_emergency"; "broadcast_market";
      "broadcast_promo"; "broadcast_general"; "broadcast_stats"]);
   (4190, Equals "menu_help");
   (4236, Equals "help_bot_support");
   (4283, Equals "contact_admin");
   (4327, Equals "submit_bug_report");
   (4365, Equals "help_trading");
   (4415, OneOf ["help_analytics"; "help_copy_trading"; "help_wallet";
      "help_security"; "help_commands"; "help_faq"])
  ]%nat.

(** The branch that runs for [data]: the first whose condition holds;
    [None] is the final [else]. *)
Definition selected_branch (data : pystr) : option nat :=
  fst <$> List.find (λ b, guard_holds data (snd b)) callback_branches.

(** The chain inside the [wallet_] branch, lines 1827-2013, on
    [action = data.replace("wallet_", "")]; it has no [else]. *)
Definition wallet_actions : list (nat * string) :=
  [(1829, "balance"); (1883, "history"); (1909, "refresh"); (1945, "settings");
   (1980, "withdraw"); (2013, "withdrawals")]%nat.

Definition wallet_action (data : pystr) : option nat :=
  let action := str_replace data (codes "wallet_") [] in
  fst <$> List.find (λ b, bool_decide (action = codes (snd b))) wallet_actions.

(** [f"<prefix>{token}"], the callback data a keyboard gives a button
    (lines 2117, 2191, 2277, 2376, 2480, 2521, 2534, 6216, 6271). *)
Definition callback_data (prefix : string) (token : pystr) : pystr :=
  codes prefix ++ token.

(** [data.replace("<prefix>", "")], how a branch reads the token back
    (lines 2076, 2130, 2206, 2292, 2307, 2391, 2425, 2562). *)
Definition callback_token (prefix : string) (data : pystr) : pystr :=
  str_replace data (codes prefix) [].

(** The buttons of the withdrawal flow, each with the branch written for
    it. *)
Definition flow_buttons : list (string * nat) :=
  [("withdraw_type_", 2074); ("withdraw_token_", 2128); ("confirm_fee_", 2204);
   ("copy_fee_address_", 2290); ("fee_paid_", 2305); ("enter_txid_", 2389);
   ("fee_verified_", 2423); ("check_verification_", 2493);
   ("enter_address_", 2560)]%nat.

(** The branches that stand behind an earlier branch accepting all their
    data. *)
Definition shadowed_branches : list nat :=
  [2973; 3002; 3036; 3077; 3937; 3993; 4051]%nat.

(** A callback data that satisfies the guard. *)
Definition sample_of (g : guard) : pystr :=
  match g with
  | Equals s => codes s
  | StartsWith p => codes p
  | OneOf l => codes (List.hd "" l)
  | EitherOf a b => codes b
  end.

(** All the callback data that satisfy the guard, when they are finitely
    many. *)
Definition all_of (g : guard) : option (list pystr) :=
  match g with
  | Equals s => Some [codes s]
  | StartsWith p => None
  | OneOf l => Some (map codes l)
  | EitherOf a b => Some [codes a; codes b]
  end.

(** For a shadowed branch: no data of its guard selects it; for another
    branch: the sample of its guard selects it. *)
Definition branch_check (b : nat * guard) : bool :=
  if bool_decide (fst b ∈ shadowed_branches) then
    match all_of (snd b) with
    | Some ds =>
        forallb (λ d, negb (bool_decide (selected_branch d = Some (fst b)))) ds
    | None => false
    end
  else bool_decide (selected_branch (sample_of (snd b)) = Some (fst b)).

(** Two strings that differ at a position both have. *)
Fixpoint diverge (x y : pystr) : bool :=
  match x, y with
  | a :: x', b :: y' => if N.eqb a b then diverge x' y' else true
  | _, _ => false
  end.

(** No string that begins with [x] satisfies the guard; the strings of
    [excl] are left to the caller. *)
Definition guard_apart (x : pystr) (excl : list pystr) (g : guard) : bool :=
  match g with
  | Equals s => diverge x (codes s) || bool_decide (codes s ∈ excl)
  | StartsWith p => diverge x (codes p)
  | OneOf l => forallb (λ s, diverge x (codes s)) l
  | EitherOf a b => diverge x (codes a) && diverge x (codes b)
  end.

(** The branch that every string beginning with [x] and outside [excl]
    selects, when the table decides it from [x] alone. *)
Fixpoint resolve (x : pystr) (excl : list pystr) (table : list (nat * guard))
    : option nat :=
  match table with
  | [] => None
  | (line, g) :: rest =>
      if guard_apart x excl g then resolve x excl rest
      else match g with
           | StartsWith p => if startswith x (codes p) then Some line else None
           | _ => None
           end
  end.

(** [old] occurs in [s]. *)
Definition occurs (old s : pystr) : Prop := ∃ a b, s = a ++ old ++ b.

(* ===================================================================== *)
(** * [escape_markdown], lines 47-53 *)
(* ===================================================================== *)

(** The character class [[*_`\[]] of the pattern. *)
Definition markdown_special (c : N) : bool := char_in "*_`[" c.

Definition backslash : N := 92%N.

(** [re.sub(r'([*_`\[])', r'\\\1', s)]: a backslash before every character
    of the class. *)
Fixpoint escape_chars (s : pystr) : pystr :=
  match s with
  | [] => []
  | c :: r =>
      if markdown_special c then backslash :: c :: escape_chars r
      else c :: escape_chars r
  end.

(** [str(text)] *)
Definition py_str (text : pyobj) : pystr :=
  match text with
  | PyStr s => s
  | PyNone => codes "None"
  | PyInt z => codes (pretty z)
  end.

(** [not text] *)
Definition falsy (text : pyobj) : bool :=
  match text with
  | PyStr s => bool_decide (s = [])
  | PyNone => true
  | PyInt z => Z.eqb z 0
  end.

Definition escape_markdown (text : pyobj) : pystr :=
  if falsy text then [] else escape_chars (py_str text).

(* ===================================================================== *)
(** * The status check of a fee payment, lines 2493-2558 and 6150-6166 *)
(* ===================================================================== *)

(** [get_verification_status_message(current, required, token)], lines
    6150-6166: the text that reports the verification as done, or the
    progress text; the percentage and the estimated time shown in the
    latter are computed from the three arguments. *)
Inductive status_message :=
| StatusVerified (token : string)
| StatusProgress (current required : nat) (token : string).

Definition get_verification_status_message (current required : nat)
    (token : string) : status_message :=
  if (required <=? current)%nat then StatusVerified token
  else StatusProgress current required token.

(** What the [check_verification_] branch of [handle_callback_query]
    answers: a popup ([bot.answer_callback_query]), or a message with the
    values interpolated into it; the first button under the message is
    [fee_verified_<token>], [enter_txid_<token>] and
    [check_verification_<id>] respectively. *)
Inductive verification_reply :=
| PopupPaymentNotFound
| PopupAccessDenied
| ReplyVerificationComplete (token : string) (confirmations required : nat)
| ReplyVerificationFailed (token : string)
| ReplyVerificationInProgress (token : string) (confirmations required : nat)
    (body : status_message) (payment_id : Z).

Definition check_verification_callback (d : Database) (user_id payment_id : Z)
    : verification_reply :=
  match get_fee_payment_by_id d payment_id with
  | None => PopupPaymentNotFound
  | Some payment =>
      if negb (Z.eqb (fp_user_id payment) user_id) then PopupAccessDenied
      else
        let token := fp_token payment in
        let confirmations := fp_confirmations payment in
        let required_confirmations := get_token_confirmation_requirement token in
        match fp_status payment with
        | verified =>
            ReplyVerificationComplete token confirmations required_confirmations
        | rejected => ReplyVerificationFailed token
        | pending =>
            ReplyVerificationInProgress token confirmations required_confirmations
              (get_verification_status_message confirmations
                 required_confirmations token)
              payment_id
        end
  end.

(** The reply carries the button "Proceed to Withdrawal". *)
Definition offers_to_proceed (r : verification_reply) : bool :=
  match r with
  | ReplyVerificationComplete _ _ _ => true
  | _ => false
  end.

(* ===================================================================== *)
(** * Further notions used in the statements *)
(* ===================================================================== *)

(** No state bucket that the router checks before the withdrawal state
    holds anything for the user. *)
Definition idle_elsewhere (w : World) (user_id : Z) : Prop :=
  (user_id ∉ users_inputting_trader_id w)
  ∧ users_connecting_wallet w !! user_id = None
  ∧ admin_balance_operations w !! user_id = None
  ∧ admin_ban_operations w !! user_id = None.

(** What a handler of one user's message leaves alone: the state buckets
    other than the withdrawal states, and what is kept for the other
    users. *)
Definition untouched_outside (user_id : Z) (w w' : World) : Prop :=
  users_inputting_trader_id w' = users_inputting_trader_id w
  ∧ users_connecting_wallet w' = users_connecting_wallet w
  ∧ user_states w' = user_states w
  ∧ admin_balance_operations w' = admin_balance_operations w
  ∧ admin_ban_operations w' = admin_ban_operations w
  ∧ (∀ u, u ≠ user_id →
       user_withdrawal_states w' !! u = user_withdrawal_states w !! u)
  ∧ (∀ u token, u ≠ user_id →
       portfolio (db w') !! (u, token) = portfolio (db w) !! (u, token)).

(** The delays the coroutine of a payment of [token] sleeps when it runs to
    the end: one before each required confirmation (lines 6070-6090). *)
Definition sleep_schedule (token : string) : list nat :=
  map (wait_time (dict_get confirmation_delays token [60; 120]%nat))
    (seq 1 (get_token_confirmation_requirement token)).

(** The id [create_fee_payment] gives the next payment. *)
Definition next_payment_id (d : Database) : Z :=
  Z.of_nat (S (length (fee_payments d))).

(* ===================================================================== *)
(** * Handlers whose calls can raise *)
(* ===================================================================== *)

(** How a call ends. *)
Inductive ending := returned | raised.

Section Endings.

Variable ADMIN_USER_ID : option Z.
Variable WITHDRAWAL_FEE_NETWORK : string → option string.

(** [handle_text_input], lines 5271-5338, with the order of its own writes
    and calls: what the router has done to the state buckets when the call
    it makes has ended. The trader-id and the wallet state are removed
    before the call (lines 5278 and 5284); an admin operation is popped
    only for a sender who is not the admin, and nothing is called then; the
    withdrawal state is left to its handlers; the support and bug-report
    state is popped after the call (lines 5324 and 5330), so only when the
    call has returned. The handlers are not run, and none of them but the
    admin and the withdrawal handlers writes a state bucket. *)
Definition handle_text_input_after (call : ending) (m : text_message)
    (w : World) : World :=
  let user_id := from_user m in
  if bool_decide (user_id ∈ users_inputting_trader_id w) then
    with_trader_ids (λ s, s ∖ {[user_id]}) w
  else
  match users_connecting_wallet w !! user_id with
  | Some wallet_type => with_wallets (delete user_id) w
  | None =>
  match admin_balance_operations w !! user_id with
  | Some _ =>
      if is_admin ADMIN_USER_ID user_id then w
      else with_balance_ops (delete user_id) w
  | None =>
  match admin_ban_operations w !! user_id with
  | Some _ =>
      if is_admin ADMIN_USER_ID user_id then w
      else with_ban_ops (delete user_id) w
  | None =>
  match user_withdrawal_states w !! user_id with
  | Some user_state => w
  | None =>
  let default_reply :=
    match call with
    | returned => with_sent (λ l, l ++ [(chat m, MsgDefaultGuidance)]) w
    | raised => w
    end in
  match user_states w !! user_id with
  | Some user_state =>
      if String.eqb user_state "waiting_for_support_message"
         || String.eqb user_state "waiting_for_bug_report" then
        match call with
        | returned => with_user_states (delete user_id) w
        | raised => w
        end
      else default_reply
  | None => default_reply
  end end end end end.

(** Which of the two [bot.send_message] calls that one run of
    [process_txid_input] can reach are delivered: the reply of the [try]
    body (the format error, the replay error, the system error or the
    progress message of line 6024) and the apology of the [except] clause
    (line 6038). A call that is not delivered raises. *)
Record delivery := {
  reply_delivered : bool;
  apology_delivered : bool
}.

(** [bot.send_message(...)], which raises when the message cannot be
    delivered. *)
Definition send_message_or_raise (delivered : bool) (chat_id : Z)
    (msg : message) : M World unit :=
  if delivered then send_message chat_id msg else raise SendError.

(** [process_txid_input], lines 5900-6038, with [bot.send_message] able
    to raise. The storage calls are as in [process_txid_input]. *)
Definition process_txid_input_sending (b : delivery) (chat_id user_id : Z)
    (txid : pystr) : M World unit :=
  let reply := send_message_or_raise (reply_delivered b) chat_id in
  try_except
    (withdrawal_state ← gets (λ w, user_withdrawal_states w !! user_id);
     match withdrawal_state with
     | None => mret tt
     | Some st =>
         if wstate_falsy st || negb (step_is st "entering_txid") then mret tt
         else
           token ← getitem "token" (ws_token st);
           withdrawal_token ← getitem "withdrawal_token" (ws_withdrawal_token st);
           withdrawal_amount ← getitem "withdrawal_amount" (ws_withdrawal_amount st);
           fee_amount ← getitem "fee_amount" (ws_fee_amount st);
           (* Validate TXID format *)
           if negb (validate_txid (PyStr txid) token) then
             reply (MsgInvalidTxidFormat token)
           else
             (* Check if TXID already used *)
             existing_payment ← db_read (λ d, get_fee_payment_by_txid d txid);
             match existing_payment with
             | Some _ => reply (MsgTxidAlreadyUsed token)
             | None =>
                 (* Create fee payment record and start verification *)
                 let fee_network :=
                   default (token +:+ " Network") (WITHDRAWAL_FEE_NETWORK token) in
                 payment_id ← db_call (λ d, create_fee_payment d
                   {| pd_user_id := user_id; pd_token := token;
                      pd_expected_amount := fee_amount; pd_txid := txid;
                      pd_network := fee_network;
                      pd_withdrawal_token := withdrawal_token;
                      pd_withdrawal_amount := withdrawal_amount |});
                 if negb (truthy_id payment_id) then
                   reply (MsgSystemError token)
                 else
                   let payment_id := default 0%Z payment_id in
                   let required_confirmations :=
                     get_token_confirmation_requirement token in
                   update_withdrawal_state user_id (set_verifying payment_id txid);;
                   reply
                     (MsgVerificationInProgress txid token fee_amount fee_network
                        required_confirmations payment_id);;
                   start_fee_verification_simulation payment_id
                     required_confirmations
             end
     end)
    (λ _, send_message_or_raise (apology_delivered b) chat_id MsgErrorOccurred).

(** One user going through the withdrawal flow of a token, as the program
    runs it: the buttons "I paid" ([fee_paid_]) and "Enter transaction id"
    ([enter_txid_]), the transaction id as a text message, the button
    "Proceed to withdrawal" ([fee_verified_]), the address as a text
    message. The coroutine that [process_txid_input] creates (line 6054)
    belongs to the event loop of the [asyncio.run] of line 5311, which
    cancels what is left when [process_txid_input] returns; the coroutine
    stands at most at its first [asyncio.sleep] then (line 6092), before
    its first write, and the cancellation is no [Exception] for its
    [except] clause. So it is created and never runs on. The handlers
    are those of [receive_text], with every message delivered. *)
Definition withdrawal_attempt (chat_id user_id : Z) (token : string)
    (typed_txid typed_address : pystr) (w : World) : World :=
  let press callback w := snd (run (callback chat_id user_id token) w) in
  let say t := receive_text ADMIN_USER_ID WITHDRAWAL_FEE_NETWORK
                 {| from_user := user_id; chat := chat_id; text := t |} in
  say typed_address
    (press fee_verified_callback
       (say typed_txid
          (press enter_txid_callback (press fee_paid_callback w)))).

End Endings.

(* ===================================================================== *)
(** * Further sample data *)
(* ===================================================================== *)

Definition eth_txid : pystr :=
  codes "0xa1b2c3d4e5f6789012345678901234567890abcdef1234567890abcdef123456".

(** User 7 holds 100 USDT. *)
Definition usdt_holder_world : World :=
  with_db (set_portfolio {[ (7%Z, "USDT") := {| amount := 100; avg_price := 1 |} ]})
    empty_world.

(** The same, with a verified fee payment of user 7 recorded under USDT
    on the ledger. *)
Definition usdt_verified_world : World :=
  with_db (set_fee_payments
     [{| fp_id := 1; fp_user_id := 7; fp_token := "USDT";
         fp_expected_amount := 10; fp_txid := eth_txid;
         fp_network := "USDT Network"; fp_withdrawal_token := "USDT";
         fp_withdrawal_amount := 100; fp_confirmations := 2;
         fp_status := verified |}]) usdt_holder_world.

(** User 7 has pressed the support button: the next text is the support
    message. *)
Definition world_awaiting_support : World :=
  with_user_states (<[7%Z := "waiting_for_support_message"]>) empty_world.

(* ===================================================================== *)
(** * Callback data with several fields, lines 254, 1107, 1172-1177,
      2602-2605, 2659 and 2677-2680 *)
(* ===================================================================== *)

Definition underscore : N := 95%N.

(** [s.split(sep)] for a separator of one character: the pieces between
    the occurrences of [sep], empty pieces included; there is always at
    least one piece. *)
Fixpoint split_char (sep : N) (s : pystr) : list pystr :=
  match s with
  | [] => [[]]
  | c :: r =>
      if N.eqb c sep then [] :: split_char sep r
      else match split_char sep r with
           | p :: ps => (c :: p) :: ps
           | [] => [[c]]
           end
  end.

(** [sep.join(parts)] *)
Fixpoint join_char (sep : N) (parts : list pystr) : pystr :=
  match parts with
  | [] => []
  | p :: ps =>
      match ps with
      | [] => p
      | _ :: _ => p ++ sep :: join_char sep ps
      end
  end.

(** [parts[3:-1]] *)
Definition from_third_to_last (parts : list pystr) : list pystr :=
  take (length parts - 1 - 3) (drop 3 parts).

(** [f"buy_amount_{token_symbol}_{value}"], lines 1107 and 2916. *)
Definition buy_amount_data (token_symbol value : pystr) : pystr :=
  codes "buy_amount_" ++ token_symbol ++ underscore :: value.

(** Lines 2603-2605: [parts = data.split("_")], [token_symbol = parts[2]],
    [amount_str = "_".join(parts[3:])]; [None] is the IndexError of
    [parts[2]]. *)
Definition buy_amount_fields (data : pystr) : option (pystr * pystr) :=
  let parts := split_char underscore data in
  token_symbol ← parts !! 2%nat;
  Some (token_symbol, join_char underscore (drop 3 parts)).

(** [f"confirm_deposit_{token_symbol}_{amount_str}_{user_id}"], line
    2659. *)
Definition confirm_deposit_data (token_symbol amount_str : pystr)
    (user_id : Z) : pystr :=
  codes "confirm_deposit_" ++ token_symbol
  ++ underscore :: amount_str ++ underscore :: codes (pretty user_id).

(** Lines 2679-2681: [token_symbol = parts[2]],
    [amount_str = "_".join(parts[3:-1])]; the user id at the end is not
    read. *)
Definition confirm_deposit_fields (data : pystr) : option (pystr * pystr) :=
  let parts := split_char underscore data in
  token_symbol ← parts !! 2%nat;
  Some (token_symbol, join_char underscore (from_third_to_last parts)).

(** [f"sell_percent_{token_symbol}_{percentage}"], line 254, for the
    integer percentages of the keyboard. *)
Definition sell_percent_data (token_symbol : pystr) (percentage : Z) : pystr :=
  codes "sell_percent_" ++ token_symbol
  ++ underscore :: codes (pretty percentage).

(** Lines 1174-1177: [parts = data.split("_")] and, when
    [len(parts) >= 4], the token [parts[2]] and the text [parts[3]] handed
    to [float]; with fewer parts the branch does nothing ([None]). *)
Definition sell_percent_fields (data : pystr) : option (pystr * pystr) :=
  let parts := split_char underscore data in
  if (4 <=? length parts)%nat then
    token_symbol ← parts !! 2%nat;
    percentage ← parts !! 3%nat;
    Some (token_symbol, percentage)
  else None.

(* ===================================================================== *)
(** * The buttons of the file and the code behind them *)
(* ===================================================================== *)

(** The chain inside the [admin_] branch, lines 1528-1821, on
    [action = data.replace("admin_", "")]; it has no [else]. *)
Definition admin_actions : list (nat * string) :=
  [(1528, "users"); (1558, "stats"); (1588, "notifications");
   (1633, "controls"); (1657, "mark_read"); (1671, "balances");
   (1696, "trades"); (1717, "broadcast"); (1761, "balance_mgmt");
   (1786, "ban_mgmt"); (1809, "add_balance"); (1813, "subtract_balance");
   (1817, "ban_user"); (1821, "unban_user")]%nat.

(** The three branches that go on by what follows the prefix of [data],
    each with its prefix and the comparisons of its inner chain; none of
    the three chains has an [else]. *)
Definition inner_chains : list (nat * (string * list (nat * string))) :=
  [(1520, ("admin_", admin_actions));
   (1825, ("wallet_", wallet_actions));
   (2074, ("withdraw_type_", [(2078, "CRYPTO")]))]%nat.

(** The comparison of an inner chain that holds for [data]. *)
Definition inner_action (prefix : string) (actions : list (nat * string))
    (data : pystr) : option nat :=
  let action := str_replace data (codes prefix) [] in
  fst <$> List.find (λ b, bool_decide (action = codes (snd b))) actions.

(** Some code is written for [data]: a branch other than the final [else]
    takes it and, in a branch with an inner chain, a comparison of the
    chain holds. *)
Definition handled (data : pystr) : bool :=
  match selected_branch data with
  | None => false
  | Some line =>
      match List.find (λ c, Nat.eqb (fst c) line) inner_chains with
      | Some (_, (prefix, actions)) =>
          bool_decide (is_Some (inner_action prefix actions data))
      | None => true
      end
  end.

(** The callback data that the file writes as literals
    ([callback_data="..."]), each under the line of the first button that
    carries it. *)
Definition literal_buttons : list (N * string) :=
  [(161, "menu_buy"); (162, "menu_sell"); (165, "menu_portfolio");
   (166, "menu_analytics"); (169, "menu_wallet"); (170, "menu_deposits");
   (173, "menu_copy_trading"); (174, "menu_settings"); (179, "menu_admin");
   (182, "refresh_prices"); (183, "menu_help"); (191, "admin_users");
   (192, "admin_stats"); (195, "admin_pending_deposits");
   (196, "admin_balance_mgmt"); (199, "admin_notifications");
   (200, "admin_controls"); (203, "admin_trades"); (204, "admin_broadcast");
   (207, "back_to_main"); (561, "wallet_balance"); (562, "wallet_history");
   (565, "wallet_refresh"); (566, "wallet_settings");
   (569, "wallet_connect"); (570, "menu_withdraw");
   (622, "settings_security"); (623, "settings_trading");
   (626, "settings_notifications"); (627, "settings_wallet");
   (673, "security_2fa"); (674, "security_email"); (677, "security_history");
   (678, "security_password"); (713, "trading_slippage");
   (714, "trading_limits"); (717, "trading_alerts"); (718, "trading_risk");
   (753, "notif_telegram"); (754, "notif_email"); (757, "notif_price");
   (758, "notif_trade"); (794, "connect_wallet_MetaMask");
   (795, "connect_wallet_Trust"); (798, "connect_wallet_Coinbase");
   (799, "connect_wallet_Phantom"); (802, "connect_wallet_WalletConnect");
   (903, "withdraw_type_CRYPTO"); (905, "wallet_withdrawals");
   (968, "analytics_performance"); (969, "analytics_risk");
   (972, "analytics_recommendations"); (973, "analytics_trends");
   (1552, "admin_ban_mgmt"); (1621, "admin_mark_read");
   (1650, "admin_restart"); (1651, "admin_clear_cache");
   (1689, "admin_add_balance"); (1690, "admin_subtract_balance");
   (1747, "broadcast_emergency"); (1748, "broadcast_market");
   (1751, "broadcast_promo"); (1752, "broadcast_general");
   (1755, "broadcast_stats"); (1802, "admin_ban_user");
   (1803, "admin_unban_user"); (2089, "wallet_withdraw");
   (3061, "wallet_security"); (3062, "wallet_privacy");
   (3066, "wallet_backup"); (3103, "withdraw_type_USD");
   (3108, "withdraw_help"); (3156, "contact_support");
   (3250, "analytics_detailed"); (3251, "analytics_assets");
   (3255, "analytics_compare"); (3309, "analytics_alerts");
   (3310, "analytics_stoploss"); (3313, "analytics_riskreport");
   (3314, "analytics_risksettings"); (3374, "execute_recommendations");
   (3378, "analytics_fullanalysis"); (3379, "analytics_aisettings");
   (3454, "analytics_hotpicks"); (3455, "analytics_sectors");
   (3459, "analytics_charts"); (3525, "copy_following");
   (3526, "copy_settings"); (3529, "copy_detailed"); (3530, "copy_browse");
   (3532, "menu_copy"); (3570, "provider_requirements");
   (3617, "copy_become_provider"); (3663, "export_report");
   (3712, "rebalance_portfolio"); (3713, "compare_allocation");
   (3763, "view_leaderboard"); (3811, "add_price_alert");
   (3812, "alert_settings"); (3815, "alert_history");
   (3816, "manage_alerts"); (3866, "copy_budget"); (3867, "copy_risk");
   (3870, "copy_notifications"); (3871, "copy_execution");
   (3873, "copy_performance"); (3932, "email_copy_report");
   (3982, "enable_2fa"); (3983, "setup_hardware_key");
   (3986, "setup_biometric"); (3987, "setup_ip_whitelist");
   (4040, "leaderboard_optin"); (4041, "email_preferences");
   (4044, "export_user_data"); (4045, "delete_account_request");
   (4096, "generate_seed_phrase"); (4097, "export_private_keys");
   (4100, "setup_recovery_questions"); (4101, "test_recovery");
   (4217, "help_bot_support"); (4218, "help_trading");
   (4221, "help_analytics"); (4222, "help_copy_trading");
   (4225, "help_wallet"); (4226, "help_security"); (4229, "help_commands");
   (4230, "help_faq"); (4274, "contact_admin"); (4275, "submit_bug_report");
   (4582, "copy_specific_trader"); (4955, "show_addresses");
   (5424, "connect_wallet_TrustWallet"); (5723, "admin_curr_USD");
   (5724, "admin_curr_BTC"); (5727, "admin_curr_ETH");
   (5728, "admin_curr_SOL"); (5731, "admin_curr_USDT");
   (5732, "admin_curr_BNB"); (5735, "admin_curr_MATIC");
   (5736, "admin_curr_ADA"); (5739, "admin_curr_LINK")]%N.

(** The literal buttons for which no code is written. *)
Definition unhandled_buttons : list (N * string) :=
  [(673, "security_2fa"); (674, "security_email"); (677, "security_history");
   (678, "security_password"); (713, "trading_slippage");
   (714, "trading_limits"); (717, "trading_alerts"); (718, "trading_risk");
   (753, "notif_telegram"); (754, "notif_email"); (757, "notif_price");
   (758, "notif_trade"); (1650, "admin_restart"); (1651, "admin_clear_cache");
   (3061, "wallet_security"); (3062, "wallet_privacy"); (3066, "wallet_backup");
   (3103, "withdraw_type_USD"); (3532, "menu_copy")]%N.

(** The branches that strings beginning with [x] may select, in the order
    of the chain; [None] stands for the final [else]. *)
Fixpoint candidates (x : pystr) (table : list (nat * guard))
    : list (option nat) :=
  match table with
  | [] => [None]
  | (line, g) :: rest =>
      if guard_apart x [] g then candidates x rest
      else
        match g with
        | StartsWith p =>
            if startswith x (codes p) then [Some line]
            else Some line :: candidates x rest
        | _ => Some line :: candidates x rest
        end
  end.

(** The conditions of the branches under a line. *)
Definition guards_of (line : nat) : list guard :=
  map snd (List.filter (λ b, Nat.eqb (fst b) line) callback_branches).

(* ===================================================================== *)
(** * The admin operations, lines 1193-1823 and 5552-5661 *)
(* ===================================================================== *)

(** The branches whose body begins with [if not is_admin(user_id):], the
    answer "Access denied. Admin only." and [return] (lines 1195, 1223,
    1278, 1379, 1472 and 1522; at 1468 a log line stands before it). *)
Definition admin_checked_branches : list nat :=
  [1193; 1221; 1276; 1377; 1468; 1520]%nat.

(** [start_balance_management(chat_id, admin_id, action)], lines 5552-5588:
    the entry is written first (line 5554); the screen sent after it lists
    users of the store and is not recorded. *)
Definition start_balance_management (admin_id : Z) (action : string)
    (w : World) : World :=
  with_balance_ops
    (<[admin_id := {| op_action := action; op_step := "user_id" |}]>) w.

(** [start_user_ban_process(chat_id, admin_id)], lines 5590-5623. *)
Definition start_user_ban_process (admin_id : Z) (w : World) : World :=
  with_ban_ops
    (<[admin_id := {| op_action := "ban"; op_step := "user_id" |}]>) w.

(** [start_user_unban_process(chat_id, admin_id)], lines 5625-5661. *)
Definition start_user_unban_process (admin_id : Z) (w : World) : World :=
  with_ban_ops
    (<[admin_id := {| op_action := "unban"; op_step := "user_id" |}]>) w.

Section AdminOperations.

Variable ADMIN_USER_ID : option Z.

(** The [admin_] branch, lines 1520-1823, as far as the dictionaries go;
    [None] is the return after "Access denied. Admin only.". The ten
    actions before [add_balance] (lines 1528-1807) send a screen and write
    no dictionary, and the chain has no [else]. *)
Definition admin_branch (user_id : Z) (data : pystr) (w : World)
    : option World :=
  if negb (is_admin ADMIN_USER_ID user_id) then None
  else
    let action := str_replace data (codes "admin_") [] in
    Some
      (if bool_decide (action = codes "add_balance") then
         start_balance_management user_id "add" w
       else if bool_decide (action = codes "subtract_balance") then
         start_balance_management user_id "subtract" w
       else if bool_decide (action = codes "ban_user") then
         start_user_ban_process user_id w
       else if bool_decide (action = codes "unban_user") then
         start_user_unban_process user_id w
       else w).

End AdminOperations.

(* ===================================================================== *)
(** * The completion time shown with the progress, lines 6168-6183 *)
(* ===================================================================== *)

(** [get_estimated_completion_time(token, current, required)]: the
    dictionary of line 6172 is built from [remaining] with every entry
    formatted, and the token is looked up in it. *)
Definition get_estimated_completion_time (token : string)
    (current required : nat) : string :=
  let remaining := (Z.of_nat required - Z.of_nat current)%Z in
  let minute_or_minutes :=
    pretty (remaining * 1)%Z +:+ " minute"
    +:+ (if (1 <? remaining)%Z then "s" else "") in
  let estimates :=
    [("BTC", pretty (remaining * 3)%Z +:+ " minutes");
     ("ETH", minute_or_minutes);
     ("SOL", "30 seconds");
     ("USDT", minute_or_minutes);
     ("BNB", pretty (remaining * 2)%Z +:+ " minutes");
     ("MATIC", minute_or_minutes);
     ("ADA", pretty (remaining * 2)%Z +:+ " minutes");
     ("LINK", minute_or_minutes)] in
  dict_get estimates token (pretty (remaining * 2)%Z +:+ " minutes").

(** The seconds the coroutine of a payment of [token] still sleeps once it
    has written the confirmation count [confirmation]. *)
Definition remaining_sleep (token : string) (confirmation : nat) : nat :=
  sum_list (drop confirmation (sleep_schedule token)).

(* ===================================================================== *)
(** * The approval of deposits, lines 1276-1466 *)
(* ===================================================================== *)

(** An entry of [pending_deposits] (lines 2707-2720); the timestamp and
    the user info it also holds are only shown. *)
Record deposit := {
  dep_user_id : Z;
  dep_token_symbol : string;
  dep_amount : Q;
  dep_cost_usd : Q
}.

(** [f"DEP_{user_id}_{int(time.time())}"], line 2704. *)
Definition deposit_id (user_id time : Z) : pystr :=
  codes "DEP_" ++ codes (pretty user_id) ++ underscore :: codes (pretty time).

(** The arguments of a call of [db.add_trade_history] that returned (line
    1298). *)
Record trade := {
  tr_user_id : Z;
  tr_type : string;
  tr_token : string;
  tr_amount : Q;
  tr_price : Q;
  tr_total : Q
}.

(** The notices to the depositor (lines 1304-1318 and 1396-1413); a
    failure to deliver one is swallowed. *)
Inductive deposit_notice :=
| NoticeDepositApproved (deposit_id : pystr) (amount : Q) (token : string)
    (cost_usd : Q)
| NoticeDepositRejected (deposit_id : pystr).

(** The answers to the admin's press, where the bot API delivers them. *)
Inductive deposit_popup :=
| PopupAdminOnly                 (* "Access denied. Admin only." *)
| PopupDepositNotFound           (* "Deposit not found or already processed." *)
| PopupDepositApproved (deposit_id : pystr)
| PopupApprovalError             (* "Error processing approval. Please try again." *)
| PopupDepositRejected (deposit_id : pystr).

(** The dictionary [pending_deposits] (line 45), the store, the trades
    recorded and the notices sent. *)
Record Desk := {
  pending_deposits : gmap pystr deposit;
  desk_db : Database;
  trade_history : list trade;
  notices : list (Z * deposit_notice)
}.

(** Which of the two storage calls of an approval raise; a call that
    raises is taken to have written nothing. *)
Record storage_outcome := {
  update_portfolio_raises : bool;
  add_trade_history_raises : bool
}.

Section Deposits.

Variable ADMIN_USER_ID : option Z.

(** The branch of [approve_deposit_], lines 1276-1375. The division of
    line 1296 raises ZeroDivisionError for an amount of zero; whatever is
    raised inside the [try] is answered by the popup of line 1375. *)
Definition approve_deposit_callback (o : storage_outcome) (user_id : Z)
    (data : pystr) (s : Desk) : deposit_popup * Desk :=
  if negb (is_admin ADMIN_USER_ID user_id) then (PopupAdminOnly, s)
  else
    let deposit_id := str_replace data (codes "approve_deposit_") [] in
    match pending_deposits s !! deposit_id with
    | None => (PopupDepositNotFound, s)
    | Some deposit_data =>
        let target_user_id := dep_user_id deposit_data in
        let token_symbol := dep_token_symbol deposit_data in
        let token_amount := dep_amount deposit_data in
        let cost_usd := dep_cost_usd deposit_data in
        if Qeq_bool token_amount 0 then (PopupApprovalError, s)
        else
          let current_price := (cost_usd / token_amount)%Q in
          if update_portfolio_raises o then (PopupApprovalError, s)
          else
            let credited :=
              update_portfolio (desk_db s) target_user_id token_symbol
                token_amount current_price in
            if add_trade_history_raises o then
              (PopupApprovalError,
               {| pending_deposits := pending_deposits s;
                  desk_db := credited;
                  trade_history := trade_history s;
                  notices := notices s |})
            else
              (PopupDepositApproved deposit_id,
               {| pending_deposits := delete deposit_id (pending_deposits s);
                  desk_db := credited;
                  trade_history :=
                    trade_history s ++
                    [{| tr_user_id := target_user_id; tr_type := "DEPOSIT";
                        tr_token := token_symbol; tr_amount := token_amount;
                        tr_price := current_price; tr_total := cost_usd |}];
                  notices :=
                    notices s ++
                    [(target_user_id,
                      NoticeDepositApproved deposit_id token_amount
                        token_symbol cost_usd)] |})
    end.

(** The branch of [reject_deposit_], lines 1377-1466. *)
Definition reject_deposit_callback (user_id : Z) (data : pystr) (s : Desk)
    : deposit_popup * Desk :=
  if negb (is_admin ADMIN_USER_ID user_id) then (PopupAdminOnly, s)
  else
    let deposit_id := str_replace data (codes "reject_deposit_") [] in
    match pending_deposits s !! deposit_id with
    | None => (PopupDepositNotFound, s)
    | Some deposit_data =>
        (PopupDepositRejected deposit_id,
         {| pending_deposits := delete deposit_id (pending_deposits s);
            desk_db := desk_db s;
            trade_history := trade_history s;
            notices :=
              notices s ++
              [(dep_user_id deposit_data, NoticeDepositRejected deposit_id)] |})
    end.

End Deposits.

(** The deposit of 5 SOL for 100 USD that user 7 has confirmed. *)
Definition sample_deposit : deposit :=
  {| dep_user_id := 7; dep_token_symbol := "SOL"; dep_amount := 5;
     dep_cost_usd := 100 |}.

Definition sample_desk : Desk :=
  {| pending_deposits := {[ deposit_id 7 1700000000 := sample_deposit ]};
     desk_db := {| fee_payments := []; withdrawals := []; portfolio := ∅ |};
     trade_history := []; notices := [] |}.

(* ===================================================================== *)
(** * Properties of the validation utilities *)
(* ===================================================================== *)

Lemma char_in_elem alphabet c : char_in alphabet c = true ↔ c ∈ codes alphabet.
Proof.
  unfold char_in. rewrite existsb_exists. split.
  - intros (x & Hin & Heq). apply N.eqb_eq in Heq. subst x.
    by apply list_elem_of_In.
  - intros Hin. exists c. split; [by apply list_elem_of_In | apply N.eqb_refl].
Qed.

Lemma forallb_char_in alphabet s :
  forallb (char_in alphabet) s = true ↔ Forall (λ c, c ∈ codes alphabet) s.
Proof.
  rewrite forallb_forall, Forall_forall. split; intros H x Hx.
  - apply char_in_elem, H. by apply list_elem_of_In.
  - apply char_in_elem, H. by apply list_elem_of_In.
Qed.

Lemma startswith_app s p : startswith s p = true ↔ ∃ r, s = p ++ r.
Proof.
  revert s. induction p as [|a p IH]; intros s.
  - destruct s; simpl; (split; [intros _; by eexists | done]).
  - destruct s as [|b s]; simpl.
    + split; [done | intros (r & Hr); discriminate].
    + rewrite andb_true_iff, N.eqb_eq, IH. split.
      * intros (-> & r & ->). by exists r.
      * intros (r & Hr). injection Hr as -> ->. eauto.
Qed.

Lemma shape_not_empty token s : txid_shape token s → s ≠ [].
Proof.
  intros H Hs. apply (f_equal length) in Hs.
  inversion H; subst; simpl in Hs; lia.
Qed.

Lemma hex64_iff s :
  (length s =? 64)%nat && forallb (char_in hex_chars) s = true
  ↔ length s = 64%nat ∧ Forall is_hex s.
Proof. by rewrite andb_true_iff, Nat.eqb_eq, forallb_char_in. Qed.

Lemma base58_iff s :
  (length s =? 88)%nat && forallb (char_in base58_chars) s = true
  ↔ length s = 88%nat ∧ Forall is_base58 s.
Proof. by rewrite andb_true_iff, Nat.eqb_eq, forallb_char_in. Qed.

Lemma prefixed_hex_iff s :
  (length s =? 66)%nat && startswith s (codes "0x")
    && forallb (char_in hex_chars) (drop 2 s) = true
  ↔ ∃ h, s = codes "0x" ++ h ∧ length h = 64%nat ∧ Forall is_hex h.
Proof.
  rewrite !andb_true_iff, Nat.eqb_eq, forallb_char_in, startswith_app. split.
  - intros [[Hlen (r & ->)] Hhex]. exists r. simpl in *.
    split; [done|]. split; [lia | done].
  - intros (h & -> & Hlen & Hhex). simpl.
    split; [split; [lia | by exists h] | done].
Qed.

(** Decide a membership of a token in a literal list of the source. *)
Ltac token_cases :=
  repeat match goal with
         | H : _ ∈ _ :: _ |- _ =>
             apply elem_of_cons in H as [H|H]; [first [discriminate H | subst] |]
         | H : _ ∈ [] |- _ => by apply elem_of_nil in H
         | H : ¬ (_ ∈ _) |- _ => by (exfalso; apply H; repeat constructor)
         end;
  try done.

(** The four branches of [validate_txid] are three families. *)
Lemma validate_txid_families s token :
  s ≠ [] →
  validate_txid (PyStr s) token =
    if bool_decide (token ∈ ["BTC"; "ADA"]) then
      (length (strip s) =? 64)%nat && forallb (char_in hex_chars) (strip s)
    else if bool_decide (token ∈ ["ETH"; "USDT"; "BNB"; "MATIC"; "LINK"]) then
      (length (strip s) =? 66)%nat && startswith (strip s) (codes "0x")
      && forallb (char_in hex_chars) (drop 2 (strip s))
    else if bool_decide (token ∈ ["SOL"]) then
      (length (strip s) =? 88)%nat && forallb (char_in base58_chars) (strip s)
    else false.
Proof.
  intros Hs. unfold validate_txid.
  rewrite (bool_decide_eq_false_2 _ Hs).
  repeat case_bool_decide; try reflexivity; exfalso; token_cases.
Qed.

(** C9, as amended: [validate_txid] accepts exactly the strings whose
    form with leading and trailing whitespace removed has the shape of the
    asset's family (64 hexadecimal characters for BTC and ADA; [0x] and 64
    hexadecimal characters for ETH, USDT, BNB, MATIC and LINK; 88 base58
    characters for SOL), and it returns false for the empty string and for
    what is not a string. *)
Theorem validate_txid_shape (txid : pyobj) (token : string) :
  (validate_txid txid token = true
   ↔ ∃ s, txid = PyStr s ∧ txid_shape token (strip s))
  ∧ validate_txid (PyStr []) token = false
  ∧ validate_txid PyNone token = false
  ∧ (∀ z, validate_txid (PyInt z) token = false).
Proof.
  split; [| by repeat split].
  destruct txid as [s| |z];
    [| split; [done | intros (s & ? & _); discriminate] ..].
  destruct (decide (s = [])) as [->|Hs].
  { split; [done|]. intros (s & [= <-] & Hsh). by apply shape_not_empty in Hsh. }
  rewrite (validate_txid_families _ _ Hs). split.
  - intros Hv. exists s. split; [done|]. revert Hv.
    repeat case_bool_decide; try done.
    + rewrite hex64_iff. intros []. by apply shape_hex64.
    + rewrite prefixed_hex_iff. intros (h & -> & ? & ?). by apply shape_0x_hex64.
    + rewrite base58_iff. intros []. by apply shape_base58.
  - intros (s' & [= <-] & Hsh).
    remember (strip s) as x eqn:Hx. clear Hx.
    inversion Hsh as [t y Ht Hl Hh|t h Ht Hl Hh|t y Ht Hl Hh]; subst.
    + rewrite (bool_decide_eq_true_2 _ Ht). by apply hex64_iff.
    + rewrite bool_decide_eq_false_2 by (intros ?; token_cases).
      rewrite (bool_decide_eq_true_2 _ Ht). apply prefixed_hex_iff. eauto.
    + rewrite !bool_decide_eq_false_2 by (intros ?; token_cases).
      rewrite (bool_decide_eq_true_2 _ Ht). by apply base58_iff.
Qed.

(** C9 as stated fails: a 65-character string, 64 hexadecimal characters
    and a trailing blank, is accepted for BTC. *)
Lemma validate_txid_accepts_padding :
  validate_txid (PyStr padded_txid) "BTC" = true
  ∧ length padded_txid = 65%nat
  ∧ ¬ Forall is_hex padded_txid.
Proof.
  split; [by vm_compute|]. split; [by vm_compute|].
  unfold is_hex.
  apply (bool_decide_eq_false_1 (Forall (λ c, c ∈ codes hex_chars) padded_txid)).
  by vm_compute.
Qed.

Example validate_txid_btc : validate_txid (PyStr hex_txid) "BTC" = true.
Proof. by vm_compute. Qed.

Example validate_txid_btc_as_eth : validate_txid (PyStr hex_txid) "ETH" = false.
Proof. by vm_compute. Qed.

Example validate_txid_sol : validate_txid (PyStr sol_txid) "SOL" = true.
Proof. by vm_compute. Qed.

Example validate_txid_unknown_asset : validate_txid (PyStr hex_txid) "DOGE" = false.
Proof. by vm_compute. Qed.

(* ===================================================================== *)
(** * Properties of the router *)
(* ===================================================================== *)

Lemma step_is_get st s :
  step_is st s = bool_decide (ws_step st = Some s).
Proof.
  unfold step_is. destruct (ws_step st) as [s'|].
  - destruct (String.eqb_spec s' s) as [->|Hne].
    + by rewrite bool_decide_eq_true_2.
    + rewrite bool_decide_eq_false_2; [done | congruence].
  - by rewrite bool_decide_eq_false_2.
Qed.

Lemma bool_decide_is_Some {A} (o : option A) :
  bool_decide (is_Some o) = match o with Some _ => true | None => false end.
Proof.
  destruct o; [by rewrite bool_decide_eq_true_2 |].
  rewrite bool_decide_eq_false_2; [done | by intros [? ?]].
Qed.

Lemma support_bucket_matches (o : option string) :
  bool_decide (o = Some "waiting_for_support_message"
               ∨ o = Some "waiting_for_bug_report")
  = match o with
    | Some s => String.eqb s "waiting_for_support_message"
                || String.eqb s "waiting_for_bug_report"
    | None => false
    end.
Proof.
  destruct o as [s|]; [| rewrite bool_decide_eq_false_2; [done | by intros [|]]].
  destruct (String.eqb_spec s "waiting_for_support_message") as [->|H1].
  { rewrite bool_decide_eq_true_2; eauto. }
  destruct (String.eqb_spec s "waiting_for_bug_report") as [->|H2].
  { rewrite bool_decide_eq_true_2; eauto. }
  rewrite bool_decide_eq_false_2; [done | intros [[=]|[=]]; congruence].
Qed.

Section Router.

Variable ADMIN_USER_ID : option Z.

(** C7: the router does exactly what dispatching to the first matching
    bucket of the fixed priority order does (trader id, wallet, admin
    balance, admin ban, withdrawal with its two sub-steps, support or bug
    report, else the default guidance), and it calls at most one handler
    per message. *)
Theorem handle_text_input_first_match (m : text_message) (w : World) :
  handle_text_input ADMIN_USER_ID m w = route_by_priority ADMIN_USER_ID m w
  ∧ (length (snd (handle_text_input ADMIN_USER_ID m w)) ≤ 1)%nat.
Proof.
  unfold handle_text_input, route_by_priority, first_match.
  cbn [find priority_order bucket_matches].
  rewrite !bool_decide_is_Some, support_bucket_matches.
  case_bool_decide as Htr; [split; [done | simpl; lia]|].
  destruct (users_connecting_wallet w !! from_user m) as [wt|] eqn:Hwal.
  { cbn. rewrite Hwal. split; [done | simpl; lia]. }
  destruct (admin_balance_operations w !! from_user m) as [op|].
  { cbn. destruct (is_admin _ _); split; simpl; (done || lia). }
  destruct (admin_ban_operations w !! from_user m) as [op|].
  { cbn. destruct (is_admin _ _); split; simpl; (done || lia). }
  destruct (user_withdrawal_states w !! from_user m) as [st|] eqn:Hws.
  { cbn. rewrite Hws. cbn. rewrite step_is_get.
    case_bool_decide; split; simpl; (done || lia). }
  destruct (user_states w !! from_user m) as [us|] eqn:Hus;
    [| split; simpl; (done || lia)].
  destruct (String.eqb_spec us "waiting_for_support_message") as [->|Hsup].
  { cbn. rewrite Hus. split; simpl; (done || lia). }
  destruct (String.eqb_spec us "waiting_for_bug_report") as [->|Hbug].
  { cbn. rewrite Hus. split; simpl; (done || lia). }
  split; simpl; (done || lia).
Qed.

(** C8, as amended: when a non-admin user who is neither entering a
    trader id nor connecting a wallet sends a text while an admin balance
    operation exists for their id, the router drops that entry, calls no
    handler, leaves the store and everything else as they were and sends
    no reply; likewise for an admin ban operation when no balance operation
    exists. *)
Theorem stale_admin_state_is_dropped (m : text_message) (w : World) :
  is_admin ADMIN_USER_ID (from_user m) = false →
  from_user m ∉ users_inputting_trader_id w →
  users_connecting_wallet w !! from_user m = None →
  (is_Some (admin_balance_operations w !! from_user m) →
   handle_text_input ADMIN_USER_ID m w
   = (with_balance_ops (delete (from_user m)) w, [])
   ∧ admin_balance_operations (fst (handle_text_input ADMIN_USER_ID m w))
       !! from_user m = None
   ∧ db (fst (handle_text_input ADMIN_USER_ID m w)) = db w
   ∧ sent (fst (handle_text_input ADMIN_USER_ID m w)) = sent w)
  ∧ (admin_balance_operations w !! from_user m = None →
     is_Some (admin_ban_operations w !! from_user m) →
     handle_text_input ADMIN_USER_ID m w
     = (with_ban_ops (delete (from_user m)) w, [])
     ∧ admin_ban_operations (fst (handle_text_input ADMIN_USER_ID m w))
         !! from_user m = None
     ∧ db (fst (handle_text_input ADMIN_USER_ID m w)) = db w
     ∧ sent (fst (handle_text_input ADMIN_USER_ID m w)) = sent w).
Proof.
  intros Hadm Htr Hwal. unfold handle_text_input.
  rewrite (bool_decide_eq_false_2 _ Htr), Hwal, Hadm.
  split.
  - intros [op ->]. simpl. split; [done|]. split; [apply lookup_delete_eq | done].
  - intros -> [op ->]. simpl. split; [done|].
    split; [apply lookup_delete_eq | done].
Qed.

End Router.

Lemma stale_admin_state_is_dropped_witness :
  is_admin (Some 1%Z) 5 = false
  ∧ is_Some (admin_balance_operations world_stale_admin !! 5%Z)
  ∧ is_Some (admin_ban_operations world_stale_ban !! 5%Z)
  ∧ handle_text_input (Some 1%Z) (text_from 5 sol_address) world_stale_admin
    = (with_balance_ops (delete 5%Z) world_stale_admin, [])
  ∧ handle_text_input (Some 1%Z) (text_from 5 sol_address) world_stale_ban
    = (with_ban_ops (delete 5%Z) world_stale_ban, []).
Proof.
  split; [reflexivity|]. split; [by eexists|]. split; [by eexists|]. split.
  - refine (proj1 (proj1 (stale_admin_state_is_dropped (Some 1%Z)
      (text_from 5 sol_address) world_stale_admin _ _ _) _)).
    + reflexivity.
    + apply not_elem_of_empty.
    + reflexivity.
    + by eexists.
  - refine (proj1 (proj2 (stale_admin_state_is_dropped (Some 1%Z)
      (text_from 5 sol_address) world_stale_ban _ _ _) _ _)).
    + reflexivity.
    + apply not_elem_of_empty.
    + reflexivity.
    + reflexivity.
    + by eexists.
Defined.

(** C8 as stated fails: the non-admin user whose stale balance operation
    is dropped is sent nothing, not the default guidance. *)
Lemma stale_admin_state_gets_no_reply :
  is_admin (Some 1%Z) 5 = false
  ∧ is_Some (admin_balance_operations world_stale_admin !! 5%Z)
  ∧ sent (fst (handle_text_input (Some 1%Z) (text_from 5 sol_address)
                 world_stale_admin)) = []
  ∧ snd (handle_text_input (Some 1%Z) (text_from 5 sol_address)
           world_stale_admin) = [].
Proof. split; [reflexivity|]. split; [by eexists|]. by vm_compute. Qed.

(** The guidance comes only with a message that matches no bucket, such as
    the next one of the same user. *)
Example next_message_gets_guidance :
  sent (fst (handle_text_input (Some 1%Z) (text_from 5 sol_address)
          (fst (handle_text_input (Some 1%Z) (text_from 5 sol_address)
                  world_stale_admin))))
  = [(5%Z, MsgDefaultGuidance)].
Proof. by vm_compute. Qed.

Example router_sends_txid_step_to_txid_handler :
  snd (handle_text_input None (text_from 2 hex_txid) world_two_users)
  = [call_process_txid_input 2 2 hex_txid].
Proof. by vm_compute. Qed.

Example router_sends_other_steps_to_address_handler :
  snd (handle_text_input None (text_from 7 sol_address) world_stale_flag)
  = [call_process_withdrawal_address_input 7 7 sol_address].
Proof. by vm_compute. Qed.

(* ===================================================================== *)
(** * Properties of the storage layer *)
(* ===================================================================== *)

Arguments get_fee_payment_by_txid : simpl never.
Arguments get_fee_payment_by_id : simpl never.
Arguments create_fee_payment : simpl never.
Arguments update_fee_payment_confirmations : simpl never.
Arguments mark_fee_payment_verified : simpl never.
Arguments mark_fee_payment_rejected : simpl never.
Arguments find_latest_verified_unconsumed : simpl never.
Arguments get_user_verified_fee_payment : simpl never.
Arguments atomic_create_verified_withdrawal : simpl never.
Arguments update_portfolio : simpl never.
Arguments get_user_portfolio : simpl never.
Arguments validate_txid : simpl never.
Arguments strip : simpl never.
Arguments get_token_confirmation_requirement : simpl never.
Arguments get_fee_payment_token : simpl never.
Arguments wait_time : simpl never.

(** Unfold the monad and the primitive actions. *)
Ltac run_monad :=
  unfold run, try_except, mbind, M_bind, mret, M_ret, gets, modify, raise,
    getitem, send_message, db_read, db_call, db_write,
    del_withdrawal_state, pop_withdrawal_state, update_withdrawal_state in *;
  simpl in *.

(** Follow every branch of a handler. *)
Ltac run_cases :=
  repeat first [progress run_monad | case_match | progress simplify_eq/=].

Lemma get_fee_payment_by_txid_present d txid :
  txid ∈ map fp_txid (fee_payments d) ↔ is_Some (get_fee_payment_by_txid d txid).
Proof.
  unfold get_fee_payment_by_txid. split.
  - intros Hin. apply list_elem_of_fmap in Hin as (p & -> & Hp).
    destruct (find _ _) as [q|] eqn:Hf; [eauto|].
    apply list_elem_of_In in Hp.
    eapply find_none in Hf; [|exact Hp]. simpl in Hf.
    by rewrite bool_decide_eq_true_2 in Hf.
  - intros [p Hp]. apply find_some in Hp as [Hin Heq].
    apply bool_decide_eq_true_1 in Heq. subst txid.
    apply list_elem_of_fmap. exists p. split; [done | by apply list_elem_of_In].
Qed.

Lemma gate_rejects d user_id ty token amt addr :
  find_latest_verified_unconsumed d user_id (get_fee_payment_token token) = None →
  atomic_create_verified_withdrawal d user_id ty token amt addr
  = (Rejected no_verified_fee_payment
       "No verified fee payment found for this withdrawal", d).
Proof. intros H. unfold atomic_create_verified_withdrawal. by rewrite H. Qed.

Lemma gate_approval d user_id ty token amt addr wid fee ft net txid d' :
  atomic_create_verified_withdrawal d user_id ty token amt addr
  = (Approved wid fee ft net txid, d') →
  fee = (amt * tenth)%Q ∧ net = (amt - amt * tenth)%Q
  ∧ ∃ p, find_latest_verified_unconsumed d user_id (get_fee_payment_token token)
         = Some p
    ∧ portfolio d' = portfolio d ∧ fee_payments d' = fee_payments d
    ∧ withdrawals d' = withdrawals d ++
        [{| wd_id := wid; wd_user_id := user_id; wd_type := ty; wd_token := token;
            wd_amount := amt; wd_fee_amount := fee; wd_fee_token := ft;
            wd_fee_payment_id := fp_id p; wd_to_address := addr |}].
Proof.
  unfold atomic_create_verified_withdrawal.
  destruct (find_latest_verified_unconsumed _ _ _) as [p|]; [|done].
  destruct (negb _); [done|]. intros [= <- <- <- <- <- <-].
  split; [done|]. split; [done|]. exists p. by repeat split.
Qed.

Lemma gate_rejection d user_id ty token amt addr reason msg d' :
  atomic_create_verified_withdrawal d user_id ty token amt addr
  = (Rejected reason msg, d') → d' = d.
Proof.
  unfold atomic_create_verified_withdrawal.
  destruct (find_latest_verified_unconsumed _ _ _) as [p|]; [|by intros [= _ _ <-]].
  destruct (negb _); [by intros [= _ _ <-] | done].
Qed.


Lemma held_after_full_debit d user_id token h :
  portfolio d !! (user_id, token) = Some h →
  Qeq (held (update_portfolio d user_id token (- amount h) 0) user_id token) 0.
Proof.
  intros Hh. unfold held, update_portfolio. simpl.
  rewrite Hh, lookup_insert_eq. simpl. ring.
Qed.

Lemma rejected_payment_not_pending d id p :
  get_fee_payment_by_id (mark_fee_payment_rejected d id) id = Some p →
  fp_status p ≠ pending.
Proof.
  unfold get_fee_payment_by_id, mark_fee_payment_rejected, alter_payment.
  simpl. induction (fee_payments d) as [|q l IH]; [done|]. simpl.
  destruct (fp_id q =? id)%Z eqn:Hq.
  - destruct (fp_status q) eqn:Hs; simpl; rewrite Hq; intros [= <-];
      simpl; congruence.
  - by rewrite Hq.
Qed.

Lemma wstate_with_token st token : ws_token st = Some token → wstate_falsy st = false.
Proof. intros H. unfold wstate_falsy. by rewrite H. Qed.

Lemma address_ok_check a :
  address_ok a →
  (length (strip a) <? 20)%nat || (100 <? length (strip a))%nat = false.
Proof.
  intros [H1 H2]. apply orb_false_iff. split; apply Nat.ltb_ge; lia.
Qed.

(* ===================================================================== *)
(** * Properties of the TXID handler *)
(* ===================================================================== *)

Section Txid.

Variable WITHDRAWAL_FEE_NETWORK : string → option string.

(** C3, as amended: a submission of a transaction id that is already on
    the fee-payment ledger (exact match, whoever owns the earlier record)
    never changes the ledger nor starts a coroutine; and when the user is
    in the [entering_txid] step with the context of the flow stored and
    the id passes [validate_txid] for the token of that flow, the reply is
    the replay error and nothing else changes. *)
Theorem replayed_txid_is_rejected (w : World) (chat_id user_id : Z)
    (txid : pystr) :
  txid ∈ map fp_txid (fee_payments (db w)) →
  (db (snd (run (process_txid_input WITHDRAWAL_FEE_NETWORK chat_id user_id txid) w))
   = db w
   ∧ tasks (snd (run (process_txid_input WITHDRAWAL_FEE_NETWORK chat_id user_id
                        txid) w)) = tasks w)
  ∧ ∀ st token wt wa fa,
      user_withdrawal_states w !! user_id = Some st →
      step_is st "entering_txid" = true →
      ws_token st = Some token →
      ws_withdrawal_token st = Some wt →
      ws_withdrawal_amount st = Some wa →
      ws_fee_amount st = Some fa →
      validate_txid (PyStr txid) token = true →
      run (process_txid_input WITHDRAWAL_FEE_NETWORK chat_id user_id txid) w
      = (Ok tt, with_sent (λ l, l ++ [(chat_id, MsgTxidAlreadyUsed token)]) w).
Proof.
  intros Hin. apply get_fee_payment_by_txid_present in Hin as [p Hp].
  split.
  - unfold process_txid_input.
    repeat first [rewrite Hp | progress run_monad | case_match
                 | progress simplify_eq/=]; by split.
  - intros st token wt wa fa Hst Hstep Htok Hwt Hwa Hfa Hval.
    assert (wstate_falsy st = false) as Hfalsy by (by eapply wstate_with_token).
    unfold process_txid_input. run_monad.
    rewrite Hst, Hfalsy, Hstep, Htok, Hwt, Hwa, Hfa. run_monad.
    rewrite Hval. run_monad. by rewrite Hp.
Qed.

(** A well-formed id that is not yet on the ledger, sent in the
    [entering_txid] step: the payment is recorded as pending with no
    confirmation, and its coroutine is created with the confirmation
    requirement of the payment's token. *)
Lemma fresh_txid_is_accepted (w : World) (chat_id user_id : Z) (txid : pystr)
    st token wt wa fa :
  user_withdrawal_states w !! user_id = Some st →
  step_is st "entering_txid" = true →
  ws_token st = Some token →
  ws_withdrawal_token st = Some wt →
  ws_withdrawal_amount st = Some wa →
  ws_fee_amount st = Some fa →
  validate_txid (PyStr txid) token = true →
  txid ∉ map fp_txid (fee_payments (db w)) →
  let pid := Z.of_nat (S (length (fee_payments (db w)))) in
  let r := run (process_txid_input WITHDRAWAL_FEE_NETWORK chat_id user_id txid) w in
  fst r = Ok tt
  ∧ tasks (snd r) = tasks w ++ [(pid, get_token_confirmation_requirement token)]
  ∧ (∃ p, fee_payments (db (snd r)) = fee_payments (db w) ++ [p]
          ∧ fp_id p = pid ∧ fp_user_id p = user_id ∧ fp_token p = token
          ∧ fp_txid p = txid ∧ fp_confirmations p = 0%nat
          ∧ fp_status p = pending)
  ∧ user_withdrawal_states (snd r) !! user_id = Some (set_verifying pid txid st).
Proof.
  intros Hst Hstep Htok Hwt Hwa Hfa Hval Hnew pid r. subst r.
  assert (get_fee_payment_by_txid (db w) txid = None) as Hnone.
  { destruct (get_fee_payment_by_txid (db w) txid) eqn:Hg; [|done].
    exfalso. apply Hnew, get_fee_payment_by_txid_present. eauto. }
  assert (wstate_falsy st = false) as Hfalsy by (by eapply wstate_with_token).
  unfold process_txid_input. run_monad.
  rewrite Hst, Hfalsy, Hstep, Htok, Hwt, Hwa, Hfa. run_monad.
  rewrite Hval. run_monad. rewrite Hnone. run_monad.
  unfold create_fee_payment. simpl. rewrite Hnone. run_monad.
  rewrite Hst. run_monad.
  split; [done|]. split; [done|]. split.
  - eexists. split; [done|]. by repeat split.
  - by rewrite lookup_insert_eq.
Qed.
End Txid.

Lemma replayed_txid_is_rejected_witness :
  hex_txid ∈ map fp_txid (fee_payments (db world_two_users_btc))
  ∧ run (process_txid_input no_networks 2 2 hex_txid) world_two_users_btc
    = (Ok tt, with_sent (λ l, l ++ [(2%Z, MsgTxidAlreadyUsed "BTC")])
                world_two_users_btc).
Proof.
  assert (hex_txid ∈ map fp_txid (fee_payments (db world_two_users_btc))) as Hin
    by (simpl; apply list_elem_of_singleton; reflexivity).
  split; [exact Hin|].
  refine (proj2 (replayed_txid_is_rejected no_networks world_two_users_btc 2 2
                   hex_txid Hin) _ "BTC" "BTC" 3%Q (3 # 10)%Q _ _ _ _ _ _ _);
    by vm_compute.
Defined.

(** C3 as stated fails: the transaction id of user 1's BTC payment,
    submitted by user 2 in an ETH flow, is turned down by the format check
    before the ledger is consulted, so the reply is the format error, not
    the replay error. *)
Lemma replayed_txid_of_other_format :
  hex_txid ∈ map fp_txid (fee_payments (db world_two_users))
  ∧ run (process_txid_input no_networks 2 2 hex_txid) world_two_users
    = (Ok tt, with_sent (λ l, l ++ [(2%Z, MsgInvalidTxidFormat "ETH")])
                world_two_users).
Proof.
  split; [simpl; apply list_elem_of_singleton; reflexivity | by vm_compute].
Qed.

(** A fresh, well-formed id in the same step creates the payment and its
    coroutine. *)
Example fresh_txid_starts_verification :
  map fp_txid (fee_payments (db world_verifying)) = [sol_txid]
  ∧ tasks world_verifying = [(1%Z, get_token_confirmation_requirement "SOL")].
Proof. by vm_compute. Qed.

(* ===================================================================== *)
(** * Properties of the destination-address path *)
(* ===================================================================== *)

Ltac unfold_address_path :=
  unfold process_withdrawal_address_input, address_lookup, address_gate,
    address_settle, address_confirm, address_except.







(** Whatever the gate answers, an address message that passes the length
    check ends with the user's entry removed (lines 6228, 6275 and 6332). *)
Lemma address_message_clears_entry w chat_id user_id addr st token :
  user_withdrawal_states w !! user_id = Some st →
  ws_token st = Some token →
  address_ok addr →
  user_withdrawal_states
    (snd (run (process_withdrawal_address_input chat_id user_id addr) w))
    !! user_id = None.
Proof.
  intros Hst Htok Hok. unfold_address_path.
  run_monad. rewrite Hst, (wstate_with_token _ _ Htok), Htok. run_monad.
  rewrite (address_ok_check _ Hok). run_monad.
  unfold get_user_portfolio.
  destruct (portfolio (db w) !! (user_id, token)) as [h|]; run_monad.
  - destruct (atomic_create_verified_withdrawal _ _ _ _ _ _) as [[reason msg|] d1];
      run_monad; rewrite Hst; run_monad; apply lookup_delete_eq.
  - rewrite Hst. run_monad. apply lookup_delete_eq.
Qed.



Example stale_flag_is_still_rejected :
  last (sent (snd (run (process_withdrawal_address_input 7 7 sol_address)
                     world_stale_flag)))
  = Some (7%Z, MsgWithdrawalRejected no_verified_fee_payment
                 "No verified fee payment found for this withdrawal"
                 (5 # 10) "SOL").
Proof. by vm_compute. Qed.

(** C10: on the address path the gross amount handed to the gate is the
    user's whole current holding of the token, whatever amounts the entry
    of the conversation holds; the fee the gate charges is a tenth of that
    holding; and after an approval the holding is debited by its whole
    amount, which leaves zero. *)
Theorem address_path_withdraws_whole_holding (w : World) (chat_id user_id : Z)
    (addr : pystr) (st : wstate) (token : string) (h : holding) :
  user_withdrawal_states w !! user_id = Some st →
  ws_token st = Some token →
  address_ok addr →
  portfolio (db w) !! (user_id, token) = Some h →
  let gate := atomic_create_verified_withdrawal (db w) user_id "crypto" token
                (amount h) (strip addr) in
  let after := snd (run (process_withdrawal_address_input chat_id user_id addr) w) in
  (∀ reason msg, fst gate = Rejected reason msg → db after = db w)
  ∧ (∀ wid fee ft net txid,
       fst gate = Approved wid fee ft net txid →
       db after = update_portfolio (snd gate) user_id token (- amount h) 0
       ∧ fee = (amount h * tenth)%Q
       ∧ (∃ r, last (withdrawals (db after)) = Some r ∧ wd_id r = wid
               ∧ wd_amount r = amount h
               ∧ wd_fee_amount r = (amount h * tenth)%Q)
       ∧ Qeq (held (db after) user_id token) 0
       ∧ last (sent after)
         = Some (chat_id, MsgWithdrawalApproved token (amount h) fee ft net
                            (strip addr) wid txid)).
Proof.
  intros Hst Htok Hok Hh gate after. subst gate after.
  destruct (atomic_create_verified_withdrawal _ _ _ _ _ _)
    as [res d1] eqn:Hgate.
  assert (run (process_withdrawal_address_input chat_id user_id addr) w
          = match res with
            | Rejected reason msg =>
                (Ok tt,
                 with_withdrawal_states (delete user_id)
                   (with_sent (λ l, l ++ [(chat_id,
                      MsgWithdrawalRejected reason msg (amount h * tenth)
                        (get_fee_payment_token token))])
                      (with_db (λ _, d1) w)))
            | Approved wid fee ft net txid =>
                (Ok tt,
                 with_withdrawal_states (delete user_id)
                   (with_sent (λ l, l ++ [(chat_id,
                      MsgWithdrawalApproved token (amount h) fee ft net
                        (strip addr) wid txid)])
                      (with_db (λ _, update_portfolio d1 user_id token
                                       (- amount h) 0) w)))
            end) as Hrun.
  { unfold_address_path.
    run_monad. rewrite Hst, (wstate_with_token _ _ Htok), Htok. run_monad.
    rewrite (address_ok_check _ Hok). run_monad.
    unfold get_user_portfolio. rewrite Hh. run_monad.
    rewrite Hgate. destruct res; run_monad; by rewrite Hst. }
  rewrite Hrun. simpl. split.
  - intros reason msg ->. simpl. by apply gate_rejection in Hgate.
  - intros wid fee ft net txid ->. simpl.
    apply gate_approval in Hgate as (Hfee & Hnet & p & Hp & Hport & Hfees & Hwd).
    split; [done|]. split; [done|]. split; [|split].
    + unfold update_portfolio. simpl. rewrite Hwd, last_snoc.
      eexists. split; [done|]. simpl. by rewrite Hfee.
    + apply held_after_full_debit. by rewrite Hport.
    + by rewrite last_snoc.
Qed.

Lemma address_path_withdraws_whole_holding_witness :
  address_ok sol_address
  ∧ portfolio (db world_awaiting_address) !! (7%Z, "SOL")
    = Some {| amount := 5; avg_price := 20 |}
  ∧ Qeq (held (db (snd (run (process_withdrawal_address_input 7 7 sol_address)
                          world_awaiting_address))) 7 "SOL") 0
  ∧ ∃ r, last (withdrawals (db (snd (run (process_withdrawal_address_input 7 7
                                            sol_address) world_awaiting_address))))
         = Some r
         ∧ wd_amount r = 5%Q ∧ wd_fee_amount r = (5 * tenth)%Q.
Proof.
  assert (address_ok sol_address) as Hok by (by vm_compute; lia).
  assert (portfolio (db world_awaiting_address) !! (7%Z, "SOL")
          = Some {| amount := 5; avg_price := 20 |}) as Hh by reflexivity.
  split; [exact Hok|]. split; [exact Hh|].
  edestruct (address_path_withdraws_whole_holding world_awaiting_address 7 7
               sol_address _ "SOL" _ eq_refl eq_refl Hok Hh)
    as (_ & Happroved).
  edestruct Happroved as (_ & _ & (r & Hr & _ & Hgross & Hfee) & Hzero & _);
    [reflexivity|].
  split; [exact Hzero|]. exists r. by repeat split.
Defined.

(** The amounts shown earlier in the flow play no part: with an entry that
    records a gross amount of 1 while the holding is 5, the record and the
    debit are of 5. *)
Example recorded_amounts_are_ignored :
  let w := with_withdrawal_states
             (<[7%Z := {| ws_token := Some "SOL"; ws_withdrawal_token := Some "SOL";
                          ws_withdrawal_amount := Some 1%Q;
                          ws_fee_amount := Some (1 # 10);
                          ws_net_amount := Some (9 # 10);
                          ws_step := Some "entering_address";
                          ws_payment_id := None; ws_txid := None;
                          ws_fee_verified := Some true;
                          ws_fee_payment_id := Some 1%Z |}]>)
             world_awaiting_address in
  map wd_amount (withdrawals (db (snd (run (process_withdrawal_address_input 7 7
                                              sol_address) w)))) = [5%Q]
  ∧ held (db (snd (run (process_withdrawal_address_input 7 7 sol_address) w)))
      7 "SOL" = (5 + - 5)%Q.
Proof. by vm_compute. Qed.

(* ===================================================================== *)
(** * Interleaved and interrupted runs of the address path *)
(* ===================================================================== *)


















(** One invocation that runs without interruption is the handler. *)
Lemma uninterrupted_run_is_the_handler w chat_id user_id a :
  shared (exec [Arrive chat_id user_id a; Run 0; Run 0; Run 0; Run 0]%nat (boot w))
  = snd (run (process_withdrawal_address_input chat_id user_id a) w).
Proof.
  unfold exec, boot, run, process_withdrawal_address_input. simpl.
  unfold step_invocation, advance, try_except, mbind, M_bind, mret, M_ret.
  cbn [inv_chat inv_user inv_pc].
  destruct (address_lookup chat_id user_id a w) as [[[c|]|e] w1]; simpl;
    [| done | done].
  unfold step_invocation, advance, try_except, mbind, M_bind, mret, M_ret.
  cbn [inv_chat inv_user inv_pc].
  destruct (address_gate chat_id user_id c w1) as [[[g|]|e] w2]; simpl;
    [| done | done].
  unfold step_invocation, advance, try_except, mbind, M_bind, mret, M_ret.
  cbn [inv_chat inv_user inv_pc].
  destruct (address_settle chat_id user_id g w2) as [[[ap|]|e] w3]; simpl;
    [| done | done].
  unfold step_invocation, advance, try_except, mbind, M_bind, mret, M_ret.
  cbn [inv_chat inv_user inv_pc].
  destruct (address_confirm chat_id user_id ap w3) as [[[]|e] w4]; simpl;
    done.
Qed.

(** ** The holdings move by the debits alone *)








(** ** Records, debits made and debits awaited *)









(** The two simultaneous invocations of user 7: one Withdrawal record, one
    debit, the holding at zero. *)
Example double_tap_outcome :
  effects (exec double_tap (boot world_awaiting_address))
  = [Debited 7 "SOL" 5 1]
  ∧ map wd_fee_payment_id
      (withdrawals (db (shared (exec double_tap (boot world_awaiting_address)))))
    = [1%Z]
  ∧ map inv_pc (running (exec double_tap (boot world_awaiting_address)))
    = [Finished; Finished].
Proof. by vm_compute. Qed.


(** Nor is the debit made under the gate's check of the holding. With two
    verified fee payments, two simultaneous invocations both pass the gate
    before either debits: two records for the whole holding of 5, each with
    a payment of its own, and the holding ends at -5. *)
Example two_payments_overdraw :
  map wd_fee_payment_id
    (withdrawals (db (shared (exec double_tap (boot world_two_payments)))))
  = [2%Z; 1%Z]
  ∧ effects (exec double_tap (boot world_two_payments))
    = [Debited 7 "SOL" 5 1; Debited 7 "SOL" 5 2]
  ∧ held (db (shared (exec double_tap (boot world_two_payments)))) 7 "SOL"
    = (-5)%Q.
Proof. by vm_compute. Qed.

(* ===================================================================== *)
(** * Properties of the confirmation-accrual coroutine *)
(* ===================================================================== *)

Section Accrual.
Variable env : Environment.

Lemma await_storage_ok {A} c (op : Database → A * Database) t :
  storage_fails env (length (calls t)) = false →
  await_storage env c op t
  = (Ok (op (db (world t))).1,
     {| world := with_db (λ _, (op (db (world t))).2) (world t);
        calls := calls t ++ [c]; slept := slept t |}).
Proof.
  intros H. unfold await_storage. rewrite H. by destruct (op _).
Qed.

Lemma await_storage_raises {A} c (op : Database → A * Database) t :
  storage_fails env (length (calls t)) = true →
  await_storage env c op t
  = (Raise StorageError,
     {| world := world t; calls := calls t ++ [c]; slept := slept t |}).
Proof. intros H. unfold await_storage. by rewrite H. Qed.

Lemma clean_snoc a b : clean env a b → storage_fails env b = false → clean env a (S b).
Proof.
  intros Hc Hb j Hj. destruct (decide (j = b)) as [->|]; [done|].
  apply Hc. lia.
Qed.

Lemma clean_empty a : clean env a a.
Proof. intros j Hj. lia. Qed.

(** One round: the calls it makes, and how it ends. *)
Lemma confirmation_round_calls id req p delays i t r t' :
  confirmation_round env id req p delays i t = (r, t') →
  ∃ cs, calls t' = calls t ++ cs
    ∧ (cs = [UpdateConfirmations id i]
       ∨ cs = [UpdateConfirmations id i; MarkVerified id] ∧ (req ≤ i)%nat
         ∧ in_flow_after_sleep env p i t)
    ∧ match r with
      | Ok c => clean env (length (calls t)) (length (calls t'))
                ∧ c = (if (req <=? i)%nat then Break else Continue)
                ∧ ((req ≤ i)%nat → in_flow_after_sleep env p i t →
                   cs = [UpdateConfirmations id i; MarkVerified id])
      | Raise _ =>
          storage_fails env (length (calls t') - 1) = true
          ∧ clean env (length (calls t)) (length (calls t') - 1)
      end.
Proof.
  unfold confirmation_round, sleep, notify, on_world, in_flow_after_sleep.
  intros H.
  destruct (storage_fails env (length (calls t))) eqn:Hf1.
  - (* the confirmation write raises *)
    unfold mbind, M_bind in H.
    rewrite await_storage_raises in H by done. simplify_eq/=.
    exists [UpdateConfirmations id i]. split; [done|]. split; [by left|].
    rewrite length_app. simpl.
    replace (length (calls t) + 1 - 1)%nat with (length (calls t)) by lia.
    split; [done | apply clean_empty].
  - unfold mbind, M_bind in H. rewrite await_storage_ok in H by done.
    unfold gets, mret, M_ret, try_except, raise, modify in H. simpl in H.
    case_bool_decide as Hflow; simpl in H.
    + destruct (req <=? i)%nat eqn:Hreq.
      * apply Nat.leb_le in Hreq.
        destruct (storage_fails env (S (length (calls t)))) eqn:Hf2.
        -- rewrite await_storage_raises in H
             by (simpl; rewrite length_app; simpl; by rewrite Nat.add_1_r).
           simplify_eq/=.
           exists [UpdateConfirmations id i; MarkVerified id].
           rewrite <-app_assoc. split; [done|]. split; [by right|].
           rewrite length_app. simpl.
           replace (length (calls t) + 2 - 1)%nat with (S (length (calls t))) by lia.
           split; [done|]. apply clean_snoc; [apply clean_empty | done].
        -- rewrite await_storage_ok in H
             by (simpl; rewrite length_app; simpl; by rewrite Nat.add_1_r).
           unfold update_withdrawal_state, mbind, M_bind, gets, modify in H.
           simpl in H.
           pose proof Hflow as [st Hst]. rewrite Hst in H. simpl in H.
           assert (r = Ok Break
                   ∧ calls t' = (calls t ++ [UpdateConfirmations id i])
                                ++ [MarkVerified id]) as [-> Hc].
           { destruct (send_fails env i); simpl in H; simplify_eq/=; by split. }
           exists [UpdateConfirmations id i; MarkVerified id].
           rewrite <-app_assoc in Hc. split; [done|]. split; [by right|].
           rewrite Hc, length_app. simpl. split; [|done].
           replace (length (calls t) + 2)%nat with (S (S (length (calls t)))) by lia.
           apply clean_snoc; [|done]. apply clean_snoc; [apply clean_empty | done].
      * assert (r = Ok Continue
                ∧ calls t' = calls t ++ [UpdateConfirmations id i]) as [-> Hc].
        { destruct (send_fails env i); simpl in H; simplify_eq/=; by split. }
        apply Nat.leb_gt in Hreq.
        exists [UpdateConfirmations id i]. split; [done|]. split; [by left|].
        rewrite Hc, length_app. simpl. split; [|split; [done | lia]].
        rewrite Nat.add_1_r. apply clean_snoc; [apply clean_empty | done].
    + assert (r = Ok (if (req <=? i)%nat then Break else Continue)
              ∧ calls t' = calls t ++ [UpdateConfirmations id i]) as [-> Hc].
      { destruct (req <=? i)%nat; simplify_eq/=; by split. }
      exists [UpdateConfirmations id i]. split; [done|]. split; [by left|].
      rewrite Hc, length_app. simpl. split; [|done].
      rewrite Nat.add_1_r. apply clean_snoc; [apply clean_empty | done].
Qed.

Lemma clean_join a b c : clean env a b → clean env b c → clean env a c.
Proof.
  intros H1 H2 j Hj. destruct (decide (j < b)%nat); [apply H1 | apply H2]; lia.
Qed.

(** The rounds from confirmation [a] on, when [n] of them remain. *)
Lemma rounds_calls id req p delays n : ∀ a t r t',
  for_each (seq a n) (confirmation_round env id req p delays) t = (r, t') →
  (a + n = S req)%nat →
  ∃ k tail,
    calls t' = calls t ++ map (UpdateConfirmations id) (seq a k) ++ tail
    ∧ (k ≤ n)%nat
    ∧ (tail = []
       ∨ tail = [MarkVerified id] ∧ k = n ∧ (0 < n)%nat
         ∧ ∃ t0, in_flow_after_sleep env p req t0)
    ∧ match r with
      | Ok _ =>
          clean env (length (calls t)) (length (calls t')) ∧ k = n
          ∧ ((0 < n)%nat → (∀ t0, in_flow_after_sleep env p req t0) →
             tail = [MarkVerified id])
      | Raise _ =>
          storage_fails env (length (calls t') - 1) = true
          ∧ clean env (length (calls t)) (length (calls t') - 1)
          ∧ (length (calls t) < length (calls t'))%nat
      end.
Proof.
  induction n as [|n IH]; intros a t r t' Hrun Han.
  - simpl in Hrun. unfold mret, M_ret in Hrun. simplify_eq.
    exists 0%nat, []. simpl. rewrite app_nil_r.
    split; [done|]. split; [lia|]. split; [by left|].
    split; [apply clean_empty|]. split; [done | lia].
  - simpl in Hrun. unfold mbind, M_bind in Hrun.
    destruct (confirmation_round env id req p delays a t) as [[c|e] t1] eqn:Hround;
      apply confirmation_round_calls in Hround as (cs & Hcs & Hshape & Hend).
    + destruct Hend as (Hclean & -> & Hmv).
      destruct (req <=? a)%nat eqn:Hreq.
      * (* the last round: break *)
        apply Nat.leb_le in Hreq. unfold mret, M_ret in Hrun. simplify_eq.
        assert (n = 0%nat) as -> by lia. assert (a = req) as -> by lia.
        exists 1%nat. destruct Hshape as [->|(-> & _ & Hin)].
        -- exists []. simpl. split; [by rewrite Hcs|].
           split; [lia|]. split; [by left|]. split; [done|]. split; [done|].
           intros _ Hall. by specialize (Hmv Hreq (Hall t)).
        -- exists [MarkVerified id]. simpl. split; [by rewrite Hcs|].
           split; [lia|]. split; [right; repeat split; eauto; lia|].
           by repeat split.
      * (* an earlier round: continue *)
        apply Nat.leb_gt in Hreq.
        destruct Hshape as [->|(_ & ? & _)]; [|lia].
        apply IH in Hrun as (k & tail & Hk & Hle & Htail & Hr); [|lia].
        exists (S k), tail. simpl. split.
        { rewrite Hk, Hcs. by rewrite <-app_assoc. }
        split; [lia|]. split.
        { destruct Htail as [->|(-> & -> & ? & ?)]; [by left|].
          right. repeat split; eauto; lia. }
        destruct r.
        -- destruct Hr as (Hc & -> & Hlast).
           split; [eapply clean_join; [exact Hclean | exact Hc]|].
           split; [done|]. intros _ Hall. apply Hlast; [lia | done].
        -- destruct Hr as (Hf & Hc & Hlt). split; [done|]. split.
           ++ eapply clean_join; [exact Hclean | exact Hc].
           ++ rewrite Hcs, length_app in Hlt. simpl in Hlt. lia.
    + (* the round raised *)
      simplify_eq. destruct Hend as [Hf Hclean].
      exists 1%nat. destruct Hshape as [->|(-> & Hreq & Hin)].
      * exists []. simpl. split; [by rewrite Hcs|].
        split; [lia|]. split; [by left|]. split; [done|]. split; [done|].
        rewrite Hcs, length_app. simpl. lia.
      * assert (a = req) as -> by lia.
        exists [MarkVerified id]. simpl. split; [by rewrite Hcs|].
        split; [lia|]. split; [right; repeat split; eauto; lia|].
        split; [done|]. split; [done|].
        rewrite Hcs, length_app. simpl. lia.
Qed.

Lemma simulate_outcome id req w r t :
  run (simulate_blockchain_confirmations env id req) (spawn w) = (r, t) →
  accrual_outcome env id req w r t.
Proof.
  unfold run, simulate_blockchain_confirmations, try_except, mbind, M_bind.
  intros Hrun.
  destruct (storage_fails env 0) eqn:Hf0.
  - (* the lookup raises *)
    rewrite await_storage_raises in Hrun by done.
    unfold await_storage in Hrun. simpl in Hrun.
    exists 0%nat, [], [MarkRejected id]. simpl.
    split; [destruct (storage_fails env 1); by simplify_eq/=|].
    split; [lia|]. split; [by left|]. right.
    split; [done|]. split; [done|]. split; [apply clean_empty|].
    split; [lia|].
    intros Hf1. rewrite Hf1 in Hrun. simplify_eq/=. eauto.
  - rewrite await_storage_ok in Hrun by done. simpl in Hrun.
    destruct (get_fee_payment_by_id (db w) id) as [p|] eqn:Hp.
    + match type of Hrun with
      | context [for_each ?l ?b ?t0] =>
          destruct (for_each l b t0) as [[[]|e] t1] eqn:Hloop
      end;
        apply rounds_calls in Hloop as (k & tail & Hk & Hle & Htail & Hr);
        try lia; simpl in Hk, Hr.
      * simplify_eq. destruct Hr as (Hclean & -> & Hlast).
        exists req, tail, []. rewrite app_nil_r.
        split; [by rewrite Hk|]. split; [done|]. split.
        { destruct Htail as [->|(-> & _ & ? & t0 & ?)]; [by left|].
          right. rewrite Hp. repeat split; eauto. }
        left. split; [done|]. split.
        { rewrite Hk in Hclean. simpl in Hclean.
          rewrite length_app, length_map, length_seq in Hclean.
          intros j Hj. destruct j; [done|]. apply Hclean. lia. }
        split; [done|]. rewrite Hp. split; [|done].
        intros p' [= <-]. split; [done | exact Hlast].
      * destruct Hr as (Hf & Hclean & Hlt).
        rewrite Hk in Hf, Hclean. simpl in Hf, Hclean.
        rewrite length_app, length_map, length_seq in Hf, Hclean.
        rewrite Nat.sub_0_r in Hf, Hclean.
        assert (length (calls t1) = S (k + length tail)) as Hlen.
        { rewrite Hk. simpl. by rewrite length_app, length_map, length_seq. }
        exists k, tail, [MarkRejected id]. split.
        { unfold await_storage in Hrun.
          destruct (storage_fails env (length (calls t1))); simplify_eq/=;
            rewrite Hk; simpl; by rewrite <-app_assoc. }
        split; [done|]. split.
        { destruct Htail as [->|(-> & ? & ? & t0 & ?)]; [by left|].
          right. rewrite Hp. repeat split; eauto. }
        right. split; [done|]. split; [done|]. split.
        { intros j Hj. destruct j; [done|]. apply Hclean. lia. }
        split; [by rewrite Hp; eauto|].
        intros Hnext. rewrite await_storage_ok in Hrun by (by rewrite Hlen).
        simplify_eq/=. eauto.
    + unfold mret, M_ret in Hrun. simplify_eq/=.
      exists 0%nat, [], []. simpl. split; [done|]. split; [lia|].
      split; [by left|]. left. split; [done|]. split.
      { intros j Hj. by assert (j = 0%nat) as -> by lia. }
      rewrite Hp. split; [done|]. split; [done|]. intros _.
      split; [done|]. split; [done|]. by destruct w.
Qed.

Lemma counts_written_app l1 l2 :
  counts_written (l1 ++ l2) = counts_written l1 ++ counts_written l2.
Proof. unfold counts_written. apply omap_app. Qed.

Lemma counts_written_updates id l :
  counts_written (map (UpdateConfirmations id) l) = l.
Proof. induction l as [|n l IH]; [done|]. simpl. by rewrite IH. Qed.

Lemma unique_split {A} (x : A) l1 l2 pre post :
  x ∉ l1 → x ∉ l2 → l1 ++ x :: l2 = pre ++ x :: post → pre = l1.
Proof.
  revert pre. induction l1 as [|a l1 IH]; intros [|b pre] H1 H2 Heq;
    simplify_eq/=; try done.
  - exfalso. apply H2. apply elem_of_app. right. by left.
  - exfalso. apply H1. by left.
  - f_equal. eapply IH; [|done|done]. intros ?. apply H1. by right.
Qed.

Lemma verified_not_among_writes id k :
  MarkVerified id ∉ GetFeePaymentById id :: map (UpdateConfirmations id) (seq 1 k).
Proof.
  intros Hin. apply elem_of_cons in Hin as [?|Hin]; [done|].
  apply list_elem_of_fmap in Hin as (? & ? & _). done.
Qed.

Lemma rejected_not_among_writes id k tail :
  tail = [] ∨ tail = [MarkVerified id] →
  MarkRejected id ∉
    GetFeePaymentById id :: map (UpdateConfirmations id) (seq 1 k) ++ tail.
Proof.
  intros Htail Hin. apply elem_of_cons in Hin as [?|Hin]; [done|].
  apply elem_of_app in Hin as [Hin|Hin].
  - apply list_elem_of_fmap in Hin as (? & ? & _). done.
  - destruct Htail as [->| ->]; [by apply elem_of_nil in Hin|].
    by apply list_elem_of_singleton in Hin.
Qed.

Lemma counts_written_shape id req w :
  let cs := calls (snd (run (simulate_blockchain_confirmations env id req) (spawn w))) in
  (∃ k, (k ≤ req)%nat ∧ counts_written cs = seq 1 k)
  ∧ (∀ pre post, cs = pre ++ MarkVerified id :: post →
       counts_written pre = seq 1 req).
Proof.
  intros cs. subst cs.
  destruct (run _ _) as [r t] eqn:Hrun. simpl.
  apply simulate_outcome in Hrun as (k & tail & rej & Hcs & Hk & Htail & Hrej).
  assert (counts_written tail = []) as Ht
    by (by destruct Htail as [->|(-> & _)]).
  assert (counts_written rej = []) as Hr
    by (by destruct Hrej as [(-> & _)|(-> & _)]).
  split.
  - exists k. split; [done|]. rewrite Hcs.
    change (counts_written (?c :: ?l)) with (counts_written l).
    by rewrite !counts_written_app, counts_written_updates, Ht, Hr, !app_nil_r.
  - intros pre post Heq. rewrite Hcs in Heq.
    destruct Htail as [->|(-> & -> & _)].
    + (* no mark_verified in the run *)
      exfalso.
      assert (MarkVerified id ∈ pre ++ MarkVerified id :: post) as Hin
        by (apply elem_of_app; right; by left).
      rewrite <-Heq in Hin. simpl in Hin.
      apply elem_of_cons in Hin as [?|Hin]; [done|].
      apply elem_of_app in Hin as [Hin|Hin].
      * apply list_elem_of_fmap in Hin as (? & ? & _). done.
      * destruct Hrej as [(-> & _)|(-> & _)];
          [by apply elem_of_nil in Hin | by apply list_elem_of_singleton in Hin].
    + rewrite (app_comm_cons _ _ (GetFeePaymentById id)) in Heq.
      simpl in Heq.
      change (GetFeePaymentById id
              :: map (UpdateConfirmations id) (seq 1 req) ++ MarkVerified id :: rej)
        with ((GetFeePaymentById id :: map (UpdateConfirmations id) (seq 1 req))
              ++ MarkVerified id :: rej) in Heq.
      apply unique_split in Heq as ->.
      * change (counts_written (?c :: ?l)) with (counts_written l).
        apply counts_written_updates.
      * apply verified_not_among_writes.
      * destruct Hrej as [(-> & _)|(-> & _)]; [apply not_elem_of_nil|].
        by intros ?%list_elem_of_singleton.
Qed.

(** [mark_verified] is called only with the owner of the payment still in
    [user_withdrawal_states] when the coroutine wakes up for the last
    round. *)
Lemma mark_verified_needs_user_in_flow id req w :
  MarkVerified id
    ∈ calls (snd (run (simulate_blockchain_confirmations env id req) (spawn w))) →
  ∃ p t0, get_fee_payment_by_id (db w) id = Some p
          ∧ in_flow_after_sleep env p req t0.
Proof.
  destruct (run _ _) as [r t] eqn:Hrun. simpl.
  apply simulate_outcome in Hrun as (k & tail & rej & Hcs & Hk & Htail & Hrej).
  rewrite Hcs. intros Hin.
  destruct Htail as [->|(-> & _ & _ & p & t0 & Hp & Hflow)]; [|eauto].
  exfalso. apply elem_of_cons in Hin as [?|Hin]; [done|].
  apply elem_of_app in Hin as [Hin|Hin].
  - apply list_elem_of_fmap in Hin as (? & ? & _). done.
  - destruct Hrej as [(-> & _)|(-> & _)];
      [by apply elem_of_nil in Hin | by apply list_elem_of_singleton in Hin].
Qed.

(** With the owner in the flow and no failing storage call, the coroutine
    writes the confirmations 1..req and then calls [mark_verified]. *)
Lemma verified_when_user_in_flow id req w p :
  (∀ j, storage_fails env j = false) →
  get_fee_payment_by_id (db w) id = Some p →
  (0 < req)%nat →
  (∀ t0, in_flow_after_sleep env p req t0) →
  calls (snd (run (simulate_blockchain_confirmations env id req) (spawn w)))
  = GetFeePaymentById id
      :: map (UpdateConfirmations id) (seq 1 req) ++ [MarkVerified id].
Proof.
  intros Hclean Hp Hreq Hflow.
  destruct (run _ _) as [r t] eqn:Hrun. simpl.
  apply simulate_outcome in Hrun as (k & tail & rej & Hcs & Hk & Htail & Hrej).
  destruct Hrej as [(-> & _ & _ & Hfound & _)|(_ & Hf & _)];
    [|by rewrite Hclean in Hf].
  destruct (Hfound p Hp) as [-> Hmv]. rewrite (Hmv Hreq Hflow) in Hcs.
  by rewrite Hcs, app_nil_r.
Qed.

(** C6: the confirmation counts the coroutine of a payment writes are
    1, 2, ..., k for some k up to the required confirmations of the asset,
    whatever fails and whatever else happens meanwhile: they never
    decrease and never exceed the requirement; and when [mark_verified] is
    called, the counts written before it are exactly 1 up to the
    requirement. *)
Theorem confirmation_counts_ascend (id : Z) (asset : string) (w : World) :
  let required := get_token_confirmation_requirement asset in
  let cs := calls (snd (run (simulate_blockchain_confirmations env id required)
                          (spawn w))) in
  (∃ k, (k ≤ required)%nat ∧ counts_written cs = seq 1 k)
  ∧ (∀ i j a b, (i ≤ j)%nat → counts_written cs !! i = Some a →
                counts_written cs !! j = Some b → (a ≤ b)%nat)
  ∧ Forall (λ n, (n ≤ required)%nat) (counts_written cs)
  ∧ (∀ pre post, cs = pre ++ MarkVerified id :: post →
                 counts_written pre = seq 1 required).
Proof.
  intros required cs.
  destruct (counts_written_shape id required w) as [(k & Hk & Hseq) Hmv].
  fold cs in Hseq, Hmv.
  split; [by exists k|]. split; [|split; [|exact Hmv]].
  - intros i j a b Hij Ha Hb. rewrite Hseq in Ha, Hb.
    apply lookup_seq in Ha as [-> _]. apply lookup_seq in Hb as [-> _]. lia.
  - rewrite Hseq. apply Forall_forall. intros n Hn.
    apply elem_of_seq in Hn. lia.
Qed.

(** C5, as amended: when an awaited storage call of the coroutine raises
    (the lookup, a confirmation write or [mark_verified]), the next and
    last storage call is [mark_rejected] on that payment, and, that call
    not raising, the run ends normally with the payment, if the ledger
    still has it, in a status other than pending; a notification that
    cannot be delivered raises nothing here. When the lookup at the start
    finds no record, the coroutine returns at once: [mark_rejected] is not
    called and nothing changes. *)
Theorem storage_failure_marks_rejected id req w :
  let r := fst (run (simulate_blockchain_confirmations env id req) (spawn w)) in
  let t := snd (run (simulate_blockchain_confirmations env id req) (spawn w)) in
  (∀ k, storage_fails env k = true →
        (∀ j, (j < k)%nat → storage_fails env j = false) →
        (k < length (calls t))%nat →
        calls t = (take (S k) (calls t) ++ [MarkRejected id])
        ∧ (MarkRejected id ∉ take (S k) (calls t))
        ∧ (storage_fails env (S k) = false →
           r = Ok tt
           ∧ ∀ p, get_fee_payment_by_id (db (world t)) id = Some p →
                  fp_status p ≠ pending))
  ∧ (storage_fails env 0 = false →
     get_fee_payment_by_id (db w) id = None →
     r = Ok tt ∧ calls t = [GetFeePaymentById id] ∧ world t = w).
Proof.
  intros r t. subst r t.
  destruct (run _ _) as [r t] eqn:Hrun. simpl.
  apply simulate_outcome in Hrun as (k' & tail & rej & Hcs & Hk & Htail & Hrej).
  assert (tail = [] ∨ tail = [MarkVerified id]) as Htail'
    by (destruct Htail as [->|(-> & _)]; eauto).
  split.
  - intros k Hfail Hfirst Hlen.
    destruct Hrej as [(-> & Hclean & _)|(-> & Hf & Hclean & _ & Hnext)].
    + (* nothing raised in this run *)
      rewrite Hcs in Hlen. simpl in Hlen.
      rewrite !length_app, length_map, length_seq in Hlen. simpl in Hlen.
      rewrite Hclean in Hfail; [done | lia].
    + assert (k = k' + length tail)%nat as ->.
      { destruct (Nat.lt_trichotomy k (k' + length tail)) as [Hlt|[->|Hgt]];
          [|done|].
        - rewrite Hclean in Hfail; [done | lia].
        - rewrite Hfirst in Hf; [done | lia]. }
      assert (take (S (k' + length tail)) (calls t)
              = GetFeePaymentById id
                  :: map (UpdateConfirmations id) (seq 1 k') ++ tail) as Htake.
      { rewrite Hcs, app_assoc, app_comm_cons. apply take_app_length'.
        simpl. by rewrite length_app, length_map, length_seq. }
      rewrite Htake. split; [by rewrite Hcs, app_assoc|].
      split; [by apply rejected_not_among_writes|].
      intros Hok. destruct (Hnext Hok) as (-> & d & Hd). split; [done|].
      intros p. rewrite Hd. apply rejected_payment_not_pending.
  - intros Hf0 Hnone.
    destruct Hrej as [(-> & Hclean & -> & _ & Hn)|(-> & Hf & _ & Hfound & _)].
    + destruct (Hn Hnone) as (-> & -> & ->). by rewrite Hcs.
    + (* the lookup did not raise and found nothing: no later call *)
      exfalso. destruct (k' + length tail)%nat; [congruence|].
      destruct Hfound as [p Hp]; [lia | congruence].
Qed.
End Accrual.

(** C5 as stated fails: with no record of payment 1 on the ledger, the
    coroutine makes its lookup and returns; [mark_rejected] is not
    called. *)
Lemma vanished_payment_is_not_rejected :
  get_fee_payment_by_id (db holder_world) 1 = None
  ∧ fst (run (simulate_blockchain_confirmations calm 1 2) (spawn holder_world))
    = Ok tt
  ∧ calls (snd (run (simulate_blockchain_confirmations calm 1 2)
                  (spawn holder_world)))
    = [GetFeePaymentById 1].
Proof. by vm_compute. Qed.

(** A storage failure at the second confirmation write of a BTC payment:
    the coroutine calls [mark_rejected] and stops. *)
Example failed_write_is_rejected :
  let env := {| storage_fails := λ k, Nat.eqb k 2; send_fails := λ _, false;
                during_sleep := λ _ w, w |} in
  let w := with_db (set_fee_payments
             [{| fp_id := 1; fp_user_id := 1; fp_token := "BTC";
                 fp_expected_amount := 1 # 10; fp_txid := hex_txid;
                 fp_network := "BTC Network"; fp_withdrawal_token := "BTC";
                 fp_withdrawal_amount := 1; fp_confirmations := 0;
                 fp_status := pending |}]) empty_world in
  let t := snd (run (simulate_blockchain_confirmations env 1 2) (spawn w)) in
  calls t = [GetFeePaymentById 1; UpdateConfirmations 1 1;
             UpdateConfirmations 1 2; MarkRejected 1]
  ∧ map fp_status (fee_payments (db (world t))) = [rejected]
  ∧ slept t = [120; 240]%nat.
Proof. by vm_compute. Qed.

(** C4, the defect: user 7 submits a transaction id for SOL (one
    confirmation required) and, while the coroutine sleeps, sends one more
    text; the router hands it to the address handler, the gate rejects it
    and the handler deletes the user's entry. The coroutine then writes
    confirmation 1 of 1 and ends normally without calling [mark_verified]:
    the payment stays pending with all its confirmations. *)
Theorem accrual_skips_verification_once_user_left :
  let r := run (simulate_blockchain_confirmations user_sends_text 1
                  (get_token_confirmation_requirement "SOL"))
             (spawn world_verifying) in
  get_token_confirmation_requirement "SOL" = 1%nat
  ∧ fst r = Ok tt
  ∧ calls (snd r) = [GetFeePaymentById 1; UpdateConfirmations 1 1]
  ∧ map (λ p, (fp_id p, fp_status p, fp_confirmations p))
      (fee_payments (db (world (snd r)))) = [(1%Z, pending, 1%nat)]
  ∧ user_withdrawal_states (world (snd r)) !! 7%Z = None.
Proof. by vm_compute. Qed.

(** The same payment with the user waiting: verified. *)
Example accrual_verifies_with_user_waiting :
  let r := run (simulate_blockchain_confirmations calm 1
                  (get_token_confirmation_requirement "SOL"))
             (spawn world_verifying) in
  calls (snd r) = [GetFeePaymentById 1; UpdateConfirmations 1 1; MarkVerified 1]
  ∧ map (λ p, (fp_id p, fp_status p, fp_confirmations p))
      (fee_payments (db (world (snd r)))) = [(1%Z, verified, 1%nat)]
  ∧ (ws_step <$> user_withdrawal_states (world (snd r)) !! 7%Z)
    = Some (Some "verified").
Proof. by vm_compute. Qed.

(** A notification that cannot be delivered does not stop the accrual. *)
Example undelivered_notification_is_swallowed :
  let env := {| storage_fails := λ _, false; send_fails := λ _, true;
                during_sleep := λ _ w, w |} in
  let r := run (simulate_blockchain_confirmations env 1
                  (get_token_confirmation_requirement "SOL"))
             (spawn world_verifying) in
  fst r = Ok tt
  ∧ calls (snd r) = [GetFeePaymentById 1; UpdateConfirmations 1 1; MarkVerified 1]
  ∧ sent (world (snd r)) = sent world_verifying.
Proof. by vm_compute. Qed.

(* ===================================================================== *)
(** * Properties of the callback dispatcher *)
(* ===================================================================== *)

Lemma all_of_complete data g ds :
  guard_holds data g = true → all_of g = Some ds → data ∈ ds.
Proof.
  destruct g as [s|p|l|a b]; simpl; intros H [= <-].
  - apply bool_decide_eq_true in H as ->. by apply list_elem_of_singleton.
  - by apply bool_decide_eq_true in H.
  - apply orb_true_iff in H as [H|H]; apply bool_decide_eq_true in H as ->.
    + by left.
    + right. by left.
Qed.

Lemma branch_check_all : forallb branch_check callback_branches = true.
Proof. by vm_compute. Qed.

(** X1: of the 85 branches of [handle_callback_query], the seven at lines
    2973 ([wallet_disconnect], the only caller of [disconnect_wallet]),
    3002, 3036, 3077, 3937, 3993 and 4051 are never selected, whatever the
    callback data: an earlier branch ([data.startswith("wallet_")] at line
    1825, [data == "menu_withdraw"] at line 855) accepts all their data.
    Every other branch is selected for some data. *)
Theorem shadowed_branches_are_the_unreachable_ones :
  Forall (λ b, (∃ data, selected_branch data = Some (fst b))
               ↔ fst b ∉ shadowed_branches) callback_branches.
Proof.
  apply Forall_forall. intros [line g] Hin.
  pose proof branch_check_all as Hall. rewrite forallb_forall in Hall.
  split.
  - intros [data Hsel] Hsh. pose proof Hsel as Hsel'.
    unfold selected_branch in Hsel.
    destruct (List.find _ callback_branches) as [[l g']|] eqn:Hfind; [|done].
    simpl in Hsel. injection Hsel as ->.
    apply find_some in Hfind as [Hin' Hholds]. simpl in Hholds.
    specialize (Hall _ Hin'). unfold branch_check in Hall. simpl in Hall.
    rewrite (bool_decide_eq_true_2 _ Hsh) in Hall.
    destruct (all_of g') as [ds|] eqn:Hds; [|done].
    rewrite forallb_forall in Hall.
    pose proof (all_of_complete _ _ _ Hholds Hds) as Hd.
    apply list_elem_of_In in Hd. specialize (Hall _ Hd).
    by apply negb_true_iff, bool_decide_eq_false in Hall.
  - intros Hns. exists (sample_of g).
    apply list_elem_of_In in Hin. specialize (Hall _ Hin).
    unfold branch_check in Hall. simpl in Hall.
    rewrite (bool_decide_eq_false_2 _ Hns) in Hall.
    by apply bool_decide_eq_true in Hall.
Qed.

Lemma diverge_spec x y r :
  diverge x y = true → startswith (x ++ r) y = false ∧ x ++ r ≠ y.
Proof.
  revert y. induction x as [|a x IH]; intros [|b y]; simpl; try done.
  destruct (N.eqb_spec a b) as [->|Hab].
  - intros H. destruct (IH _ H) as [H1 H2]. rewrite H1, andb_false_r.
    split; [done|]. by intros [=].
  - intros _. split; [|by intros [=]].
    apply andb_false_iff. left. apply N.eqb_neq. congruence.
Qed.

Lemma startswith_prefix x p r :
  startswith x p = true → startswith (x ++ r) p = true.
Proof.
  rewrite !startswith_app. intros [r' ->]. exists (r' ++ r). by rewrite app_assoc.
Qed.

Lemma guard_apart_spec x excl g r :
  guard_apart x excl g = true → x ++ r ∉ excl → guard_holds (x ++ r) g = false.
Proof.
  destruct g as [s|p|l|a b]; simpl; intros H Hex.
  - apply bool_decide_eq_false_2. intros Heq.
    apply orb_true_iff in H as [H|H].
    + by eapply diverge_spec.
    + apply bool_decide_eq_true in H. by rewrite Heq in Hex.
  - by eapply diverge_spec.
  - apply bool_decide_eq_false_2. intros Hin.
    apply list_elem_of_fmap in Hin as (s & Heq & Hs).
    rewrite forallb_forall in H. apply list_elem_of_In in Hs.
    specialize (H _ Hs). by eapply diverge_spec.
  - apply andb_true_iff in H as [Ha Hb].
    destruct (diverge_spec _ _ r Ha) as [_ Ha'].
    destruct (diverge_spec _ _ r Hb) as [_ Hb'].
    by rewrite !bool_decide_eq_false_2.
Qed.

Lemma resolve_spec x excl table line r :
  resolve x excl table = Some line → x ++ r ∉ excl →
  fst <$> List.find (λ b, guard_holds (x ++ r) (snd b)) table = Some line.
Proof.
  intros H Hex. induction table as [|[l g] rest IH]; [done|].
  simpl in *. destruct (guard_apart x excl g) eqn:Hap.
  - rewrite (guard_apart_spec _ _ _ _ Hap Hex). by apply IH.
  - destruct g as [s|p|l'|a b]; try done. simpl.
    destruct (startswith x (codes p)) eqn:Hp; [|done].
    rewrite (startswith_prefix _ _ _ Hp). simpl. congruence.
Qed.

(** X2: every callback data that begins with [wallet_], other than
    [wallet_connect], runs the branch of line 1825; the chain inside that
    branch knows six actions and has no [else], so for the buttons
    [wallet_disconnect], [wallet_security], [wallet_privacy] and
    [wallet_backup] no action runs. *)
Theorem wallet_prefix_takes_all (data : pystr) :
  startswith data (codes "wallet_") = true →
  data ≠ codes "wallet_connect" →
  selected_branch data = Some 1825%nat
  ∧ Forall (λ button, wallet_action (codes button) = None)
      ["wallet_disconnect"; "wallet_security"; "wallet_privacy"; "wallet_backup"].
Proof.
  intros Hp Hne. split; [|by repeat constructor].
  apply startswith_app in Hp as [r ->].
  apply (resolve_spec _ [codes "wallet_connect"]); [by vm_compute|].
  by intros Hin%list_elem_of_singleton.
Qed.

Lemma wallet_prefix_takes_all_witness :
  startswith (codes "wallet_disconnect") (codes "wallet_") = true
  ∧ codes "wallet_disconnect" ≠ codes "wallet_connect"
  ∧ selected_branch (codes "wallet_disconnect") = Some 1825%nat.
Proof.
  assert (startswith (codes "wallet_disconnect") (codes "wallet_") = true) as H1
    by reflexivity.
  assert (codes "wallet_disconnect" ≠ codes "wallet_connect") as H2
    by discriminate.
  split; [exact H1|]. split; [exact H2|].
  exact (proj1 (wallet_prefix_takes_all (codes "wallet_disconnect") H1 H2)).
Defined.

(** X3: whatever the token, the callback data of each button of the
    withdrawal flow ([withdraw_type_], [withdraw_token_], [confirm_fee_],
    [copy_fee_address_], [fee_paid_], [enter_txid_], [fee_verified_],
    [check_verification_], [enter_address_] followed by the token) runs the
    branch written for that button: no earlier condition of the chain
    accepts it. *)
Theorem flow_buttons_reach_their_branch (token : pystr) :
  Forall (λ b, selected_branch (callback_data (fst b) token) = Some (snd b))
    flow_buttons.
Proof.
  repeat constructor; simpl;
    (apply (resolve_spec _ []); [by vm_compute | by intros ?%elem_of_nil]).
Qed.

Lemma replace_from_skip old new l r :
  replace_from old new (length l) (l ++ r) = replace_from old new 0 r.
Proof. induction l as [|c l IH]; [done|]. simpl. exact IH. Qed.

Lemma replace_from_occurrence old new r :
  old ≠ [] →
  replace_from old new 0 (old ++ r) = new ++ replace_from old new 0 r.
Proof.
  destruct old as [|c old]; [done|]. intros _.
  change ((c :: old) ++ r) with (c :: (old ++ r)).
  cbn [replace_from].
  assert (startswith (c :: old ++ r) (c :: old) = true) as ->
    by (apply startswith_app; by exists r).
  cbn [length]. rewrite Nat.sub_1_r. cbn [Nat.pred].
  by rewrite replace_from_skip.
Qed.

Lemma replace_from_absent old new s :
  ¬ occurs old s → replace_from old new 0 s = s.
Proof.
  induction s as [|c s IH]; [done|]. intros Hno. cbn [replace_from].
  destruct (startswith (c :: s) old) eqn:Hs.
  - exfalso. apply Hno. apply startswith_app in Hs as [r Hr].
    exists [], r. by rewrite Hr.
  - f_equal. apply IH. intros (a & b & ->). apply Hno.
    by exists (c :: a), b.
Qed.

Lemma replace_from_length old k s :
  (length (replace_from old [] k s) ≤ length s)%nat.
Proof.
  revert k. induction s as [|c s IH]; intros k; [done|].
  cbn [replace_from]. destruct k as [|k].
  - destruct (startswith (c :: s) old).
    + simpl. specialize (IH (length old - 1)%nat). lia.
    + simpl. specialize (IH 0%nat). lia.
  - simpl. specialize (IH k). lia.
Qed.

Lemma replace_from_shrinks old s :
  old ≠ [] → occurs old s →
  (length (replace_from old [] 0 s) < length s)%nat.
Proof.
  intros Hold. induction s as [|c s IH]; intros (a & b & Hs).
  - destruct a, old; done.
  - cbn [replace_from]. destruct (startswith (c :: s) old) eqn:Hst.
    + simpl. pose proof (replace_from_length old (length old - 1) s). lia.
    + destruct a as [|c' a].
      * exfalso. simpl in Hs. rewrite Hs in Hst.
        assert (startswith (old ++ b) old = true) by (apply startswith_app; eauto).
        congruence.
      * injection Hs as -> ->. simpl.
        assert (occurs old (a ++ old ++ b)) as Hocc by (by exists a, b).
        specialize (IH Hocc). lia.
Qed.

Lemma codes_nil s : codes s = [] → s = "".
Proof. by destruct s. Qed.

(** X4: a branch reads the token of a button back with
    [data.replace(prefix, "")], which removes every occurrence of the
    prefix, not only the leading one: the token written into the callback
    data comes back unchanged exactly when the prefix does not occur inside
    the token. *)
Theorem callback_token_round_trip (prefix : string) (token : pystr) :
  prefix ≠ "" →
  callback_token prefix (callback_data prefix token) = token
  ↔ ¬ occurs (codes prefix) token.
Proof.
  intros Hp. assert (codes prefix ≠ []) as Hne by (intros ?%codes_nil; done).
  unfold callback_token, callback_data, str_replace.
  destruct (codes prefix) as [|c p] eqn:Hc; [done|].
  rewrite replace_from_occurrence by done. simpl app at 1.
  split.
  - intros Heq Hocc. apply (replace_from_shrinks _ _ Hne) in Hocc.
    rewrite Heq in Hocc. lia.
  - apply replace_from_absent.
Qed.

Lemma callback_token_round_trip_witness :
  "fee_paid_" ≠ ""
  ∧ callback_token "fee_paid_" (callback_data "fee_paid_" (codes "BTC"))
    = codes "BTC"
  ∧ ¬ occurs (codes "fee_paid_") (codes "BTC").
Proof.
  assert ("fee_paid_" ≠ "") as Hp by discriminate.
  split; [exact Hp|]. split; [reflexivity|].
  exact (proj1 (callback_token_round_trip "fee_paid_" (codes "BTC") Hp) eq_refl).
Defined.

(** A token that contains the prefix does not come back. *)
Example callback_token_loses_an_inner_prefix :
  callback_token "fee_paid_" (callback_data "fee_paid_" (codes "Xfee_paid_Y"))
  = codes "XY".
Proof. reflexivity. Qed.

(* ===================================================================== *)
(** * Further properties of the validation utilities *)
(* ===================================================================== *)

Lemma dict_get_absent {V} (d : list (string * V)) k x :
  k ∉ map fst d → dict_get d k x = x.
Proof.
  induction d as [|[k' v] d IH]; [done|]. simpl. intros Hk.
  destruct (String.eqb_spec k' k) as [->|_].
  - exfalso. apply Hk. by left.
  - apply IH. intros ?. apply Hk. by right.
Qed.

(** X5: the assets fall into families that share no transaction id: when
    one input is accepted by [validate_txid] for two assets, the two assets
    accept exactly the same inputs. So an id valid for BTC or ADA is never
    valid for SOL or for an asset of the [0x] family, and conversely. *)
Theorem tokens_sharing_a_txid_share_all (x : pyobj) (t1 t2 : string) :
  validate_txid x t1 = true → validate_txid x t2 = true →
  ∀ y, validate_txid y t1 = validate_txid y t2.
Proof.
  intros Hv1 Hv2 y.
  destruct x as [s| |z]; [|done..].
  destruct (decide (s = [])) as [->|Hs]; [done|].
  destruct y as [s'| |z']; [|done..].
  destruct (decide (s' = [])) as [->|Hs']; [done|].
  revert Hv1 Hv2. rewrite !validate_txid_families by done.
  repeat case_bool_decide; intros Hv1 Hv2; try done; exfalso;
    repeat match goal with
           | H : _ && _ = true |- _ => apply andb_true_iff in H as []
           | H : (_ =? _)%nat = true |- _ => apply Nat.eqb_eq in H
           end; lia.
Qed.

Lemma tokens_sharing_a_txid_share_all_witness :
  validate_txid (PyStr hex_txid) "BTC" = true
  ∧ validate_txid (PyStr hex_txid) "ADA" = true
  ∧ validate_txid (PyStr sol_txid) "BTC" = validate_txid (PyStr sol_txid) "ADA".
Proof.
  assert (validate_txid (PyStr hex_txid) "BTC" = true) as H1 by reflexivity.
  assert (validate_txid (PyStr hex_txid) "ADA" = true) as H2 by reflexivity.
  split; [exact H1|]. split; [exact H2|].
  exact (tokens_sharing_a_txid_share_all _ _ _ H1 H2 (PyStr sol_txid)).
Defined.

(** X6: for each of the eight assets of [fee_token_mapping], the format
    check of a transaction id for the asset agrees with the check for the
    asset its fee is paid in: USDT, MATIC and LINK, whose fee is paid in
    ETH, take ids of the ETH format. *)
Theorem fee_token_has_the_same_txid_format (x : pyobj) (token : string) :
  token ∈ map fst fee_token_mapping →
  validate_txid x token = validate_txid x (get_fee_payment_token token).
Proof.
  intros Hin. simpl in Hin.
  destruct x as [s| |z]; [|done..].
  destruct (decide (s = [])) as [->|Hs]; [done|].
  rewrite !validate_txid_families by done.
  token_cases; vm_compute get_fee_payment_token;
    repeat case_bool_decide; try done; exfalso; token_cases.
Qed.

Lemma fee_token_has_the_same_txid_format_witness :
  "USDT" ∈ map fst fee_token_mapping
  ∧ validate_txid (PyStr hex_txid) "USDT"
    = validate_txid (PyStr hex_txid) (get_fee_payment_token "USDT").
Proof.
  assert ("USDT" ∈ map fst fee_token_mapping) as Hin
    by (simpl; repeat first [by left | right]).
  split; [exact Hin|].
  exact (fee_token_has_the_same_txid_format (PyStr hex_txid) "USDT" Hin).
Defined.

(** X7: whatever the withdrawal token, known or not, the fee is paid in
    one of BTC, ETH, SOL, BNB and ADA, and each of these pays its own fee:
    [get_fee_payment_token] is idempotent. *)
Theorem fee_token_is_native (token : string) :
  get_fee_payment_token (get_fee_payment_token token) = get_fee_payment_token token
  ∧ get_fee_payment_token token ∈ ["BTC"; "ETH"; "SOL"; "BNB"; "ADA"].
Proof.
  destruct (decide (token ∈ map fst fee_token_mapping)) as [Hin|Hout].
  - simpl in Hin.
    token_cases; (split; [by vm_compute|]); vm_compute get_fee_payment_token;
      repeat first [by left | right].
  - assert (get_fee_payment_token token = "ETH") as ->
      by (unfold get_fee_payment_token; by rewrite dict_get_absent).
    split; [by vm_compute|]. right. by left.
Qed.

(* ===================================================================== *)
(** * The sleeps of the confirmation-accrual coroutine *)
(* ===================================================================== *)

Section AccrualSleeps.
Variable env : Environment.

(** One round sleeps once and writes one confirmation count. *)
Lemma confirmation_round_slept id req p delays i t r t' :
  confirmation_round env id req p delays i t = (r, t') →
  slept t' = slept t ++ [wait_time delays i]
  ∧ counts_written (calls t') = counts_written (calls t) ++ [i].
Proof.
  intros H. split.
  - revert H. unfold confirmation_round, sleep, notify, on_world, await_storage.
    unfold update_withdrawal_state.
    unfold mbind, M_bind, gets, mret, M_ret, try_except, raise, modify. simpl.
    repeat first [case_match | progress simplify_eq/=];
      try done; by intros [= <- <-].
  - apply confirmation_round_calls in H as (cs & -> & Hcs & _).
    rewrite counts_written_app. f_equal.
    by destruct Hcs as [->|(-> & _)].
Qed.

Lemma rounds_slept id req p delays n : ∀ a t r t',
  for_each (seq a n) (confirmation_round env id req p delays) t = (r, t') →
  ∃ k, (k ≤ n)%nat
    ∧ slept t' = slept t ++ map (wait_time delays) (seq a k)
    ∧ counts_written (calls t') = counts_written (calls t) ++ seq a k.
Proof.
  induction n as [|n IH]; intros a t r t' Hrun.
  - simpl in Hrun. unfold mret, M_ret in Hrun. simplify_eq.
    exists 0%nat. simpl. by rewrite !app_nil_r.
  - simpl in Hrun. unfold mbind, M_bind in Hrun.
    destruct (confirmation_round env id req p delays a t) as [[c|e] t1] eqn:Hround;
      apply confirmation_round_slept in Hround as [Hs Hc].
    + destruct c.
      * apply IH in Hrun as (k & Hk & Hs' & Hc'). exists (S k).
        split; [lia|]. simpl. rewrite Hs', Hc', Hs, Hc, <-!app_assoc. done.
      * unfold mret, M_ret in Hrun. simplify_eq. exists 1%nat.
        split; [lia|]. done.
    + simplify_eq. exists 1%nat. split; [lia|]. done.
Qed.

Lemma simulate_slept id req w p r t :
  get_fee_payment_by_id (db w) id = Some p →
  run (simulate_blockchain_confirmations env id req) (spawn w) = (r, t) →
  ∃ k, (k ≤ req)%nat
    ∧ slept t = map (wait_time (dict_get confirmation_delays (fp_token p)
                                  [60; 120]%nat)) (seq 1 k)
    ∧ counts_written (calls t) = seq 1 k.
Proof.
  intros Hp.
  unfold run, simulate_blockchain_confirmations, try_except, mbind, M_bind.
  intros Hrun.
  destruct (storage_fails env 0) eqn:Hf0.
  - unfold await_storage in Hrun. simpl in Hrun. rewrite Hf0 in Hrun.
    simpl in Hrun. exists 0%nat. split; [lia|].
    destruct (storage_fails env 1); simplify_eq/=; done.
  - unfold await_storage at 1 in Hrun. simpl in Hrun. rewrite Hf0, Hp in Hrun.
    match type of Hrun with
    | context [for_each ?l ?b ?t0] =>
        destruct (for_each l b t0) as [[[]|e] t1] eqn:Hloop
    end; apply rounds_slept in Hloop as (k & Hk & Hs & Hc); simpl in Hs, Hc.
    + simplify_eq. by exists k.
    + exists k. split; [done|].
      unfold await_storage in Hrun.
      destruct (storage_fails env (length (calls t1))); simplify_eq/=;
        rewrite ?counts_written_app, Hc; simpl; by rewrite ?app_nil_r.
Qed.

(** With no failing storage call the coroutine of a payment on the ledger
    writes all the required confirmation counts. *)
Lemma simulate_writes_all id req w p r t :
  (∀ j, storage_fails env j = false) →
  get_fee_payment_by_id (db w) id = Some p →
  run (simulate_blockchain_confirmations env id req) (spawn w) = (r, t) →
  counts_written (calls t) = seq 1 req.
Proof.
  intros Hclean Hp Hrun.
  apply simulate_outcome in Hrun as (k & tail & rej & Hcs & Hk & Htail & Hrej).
  destruct Hrej as [(-> & _ & _ & Hfound & _)|(_ & Hf & _)];
    [|by rewrite Hclean in Hf].
  destruct (Hfound p Hp) as [-> _]. rewrite Hcs.
  change (counts_written (?c :: ?l)) with (counts_written l).
  rewrite !counts_written_app, counts_written_updates.
  destruct Htail as [->|(-> & _)]; simpl; by rewrite ?app_nil_r.
Qed.

End AccrualSleeps.

Lemma sum_list_seq_prefix (f : nat → nat) a k n :
  (k ≤ n)%nat → (sum_list (map f (seq a k)) ≤ sum_list (map f (seq a n)))%nat.
Proof.
  revert a k. induction n as [|n IH]; intros a k Hk.
  - by assert (k = 0%nat) as -> by lia.
  - destruct k as [|k]; simpl; [lia|]. specialize (IH (S a) k). lia.
Qed.

Lemma sleep_schedule_bound token :
  (sum_list (sleep_schedule token) ≤ 540)%nat
  ∧ (1 ≤ get_token_confirmation_requirement token ≤ 6)%nat.
Proof.
  destruct (decide (token ∈ map fst confirmation_requirements)) as [Hin|Hout].
  - simpl in Hin. token_cases; vm_compute; lia.
  - assert (token ∉ map fst confirmation_delays) as Hout'.
    { intros Hin. apply Hout. simpl in Hin |- *.
      repeat (apply elem_of_cons in Hin as [->|Hin];
              [repeat first [by left | right]|]).
      by apply elem_of_nil in Hin. }
    unfold sleep_schedule, get_token_confirmation_requirement.
    rewrite !dict_get_absent by done. vm_compute; lia.
Qed.

(** X8: the coroutine started for a payment, with the confirmation
    requirement of the payment's token as [process_txid_input] passes it,
    sleeps exactly once before each confirmation count it writes, for the
    delay the table of the token gives that index (the last delay of the
    table from there on); whatever fails and whatever else happens
    meanwhile, its sleeps add up to at most 540 seconds, the requirement
    being between 1 and 6 for every token; and when no storage call fails
    it sleeps the whole schedule of the token. *)
Theorem accrual_sleeps_follow_schedule (env : Environment) (id : Z) (w : World)
    (p : FeePayment) :
  get_fee_payment_by_id (db w) id = Some p →
  let req := get_token_confirmation_requirement (fp_token p) in
  let t := snd (run (simulate_blockchain_confirmations env id req) (spawn w)) in
  (∃ k, (k ≤ req)%nat
     ∧ slept t = take k (sleep_schedule (fp_token p))
     ∧ counts_written (calls t) = seq 1 k)
  ∧ (sum_list (slept t) ≤ 540)%nat
  ∧ (1 ≤ req ≤ 6)%nat
  ∧ ((∀ j, storage_fails env j = false) →
     slept t = sleep_schedule (fp_token p)).
Proof.
  intros Hp req t.
  destruct (run (simulate_blockchain_confirmations env id req) (spawn w))
    as [r t'] eqn:Hrun. subst t. simpl.
  destruct (simulate_slept env id req w p r t' Hp Hrun) as (k & Hk & Hs & Hc).
  assert (slept t' = take k (sleep_schedule (fp_token p))) as Htake.
  { rewrite Hs. unfold sleep_schedule. fold req.
    rewrite firstn_map. f_equal. by rewrite take_seq, Nat.min_l. }
  split; [by exists k|]. split; [|split].
  - rewrite Hs. etrans; [apply (sum_list_seq_prefix _ _ _ req Hk)|].
    apply (sleep_schedule_bound (fp_token p)).
  - apply (sleep_schedule_bound (fp_token p)).
  - intros Hclean.
    pose proof (simulate_writes_all env id req w p r t' Hclean Hp Hrun) as Hall.
    rewrite Hc in Hall. apply (f_equal length) in Hall.
    rewrite !length_seq in Hall. subst k. rewrite Htake.
    apply firstn_all2. unfold sleep_schedule. by rewrite length_map, length_seq.
Qed.

Lemma accrual_sleeps_follow_schedule_witness :
  ∃ p, get_fee_payment_by_id (db world_verifying) 1 = Some p
       ∧ slept (snd (run (simulate_blockchain_confirmations user_sends_text 1
                            (get_token_confirmation_requirement (fp_token p)))
                       (spawn world_verifying)))
         = sleep_schedule (fp_token p).
Proof.
  eexists. split; [reflexivity|].
  refine (proj2 (proj2 (proj2 (accrual_sleeps_follow_schedule user_sends_text 1
                                 world_verifying _ eq_refl))) _).
  reflexivity.
Defined.

(* ===================================================================== *)
(** * Properties of [escape_markdown] *)
(* ===================================================================== *)

Lemma escape_chars_head s :
  match escape_chars s with
  | [] => s = []
  | c :: _ => markdown_special c = false
  end.
Proof.
  destruct s as [|c r]; [done|]. simpl.
  destruct (markdown_special c) eqn:Hc; [by vm_compute | done].
Qed.

Lemma escape_chars_inj s1 : ∀ s2, escape_chars s1 = escape_chars s2 → s1 = s2.
Proof.
  induction s1 as [|c1 r1 IH]; intros [|c2 r2]; simpl.
  - done.
  - destruct (markdown_special c2); done.
  - destruct (markdown_special c1); done.
  - destruct (markdown_special c1) eqn:H1, (markdown_special c2) eqn:H2.
    + intros [= -> Hr]. f_equal. by apply IH.
    + intros [= <- Hr]. exfalso.
      pose proof (escape_chars_head r2) as Hh. rewrite <-Hr in Hh. congruence.
    + intros [= -> Hr]. exfalso.
      pose proof (escape_chars_head r1) as Hh. rewrite Hr in Hh. congruence.
    + intros [= -> Hr]. f_equal. by apply IH.
Qed.

Lemma escape_chars_escaped s i c :
  escape_chars s !! i = Some c → markdown_special c = true →
  ∃ j, i = S j ∧ escape_chars s !! j = Some backslash.
Proof.
  revert i. induction s as [|a r IH]; intros i; [done|]. simpl.
  destruct (markdown_special a) eqn:Ha.
  - destruct i as [|[|i]]; simpl.
    + intros [= <-]. by vm_compute.
    + intros _ _. by exists 0%nat.
    + intros Hi Hc. destruct (IH _ Hi Hc) as (j & -> & Hj). by exists (S (S j)).
  - destruct i as [|i]; simpl.
    + intros [= <-]. congruence.
    + intros Hi Hc. destruct (IH _ Hi Hc) as (j & -> & Hj). by exists (S j).
Qed.

Lemma escape_chars_plain s :
  forallb (λ c, negb (markdown_special c)) s = true → escape_chars s = s.
Proof.
  induction s as [|c r IH]; [done|]. simpl.
  intros [Hc Hr]%andb_true_iff. apply negb_true_iff in Hc. rewrite Hc.
  f_equal. by apply IH.
Qed.

(** X14: in the result of [escape_markdown] every occurrence of one of the
    characters [*], [_], [`] and [[] stands right after a backslash; the
    escaping loses nothing (two different strings never escape to the same
    text); a string without those characters comes back unchanged; and
    [None] and the empty string give the empty string. *)
Theorem escape_markdown_escapes_and_keeps_the_text (s1 s2 : pystr) :
  (∀ i c, escape_markdown (PyStr s1) !! i = Some c →
          markdown_special c = true →
          ∃ j, i = S j ∧ escape_markdown (PyStr s1) !! j = Some backslash)
  ∧ (escape_markdown (PyStr s1) = escape_markdown (PyStr s2) → s1 = s2)
  ∧ (forallb (λ c, negb (markdown_special c)) s1 = true →
     escape_markdown (PyStr s1) = s1)
  ∧ escape_markdown PyNone = []
  ∧ escape_markdown (PyStr []) = [].
Proof.
  assert (∀ s, escape_markdown (PyStr s) = escape_chars s) as Hesc.
  { intros s. unfold escape_markdown. simpl. case_bool_decide; by subst. }
  rewrite !Hesc. split; [apply escape_chars_escaped|].
  split; [apply escape_chars_inj|]. split; [apply escape_chars_plain | done].
Qed.

Example escape_markdown_of_a_username :
  escape_markdown (PyStr (codes "crypto_trader*")) = codes "crypto\_trader\*".
Proof. reflexivity. Qed.

(* ===================================================================== *)
(** * Properties of the status check *)
(* ===================================================================== *)

(** X15: the [check_verification_] callback shows a payment to its owner
    only (for a payment of another user it answers "Access denied"); it
    offers "Proceed to Withdrawal" exactly for a payment of the caller
    whose status is verified; and for a payment of the caller that is
    still pending although all the required confirmations are recorded
    (as the coroutine leaves it when the user's entry was gone at the last
    round) it replies "VERIFICATION IN PROGRESS" with the body "FEE PAYMENT
    VERIFIED!" of [get_verification_status_message] and the refresh button
    only. *)
Theorem status_check_is_private_and_gated (d : Database) (user_id payment_id : Z) :
  (∀ p, get_fee_payment_by_id d payment_id = Some p → fp_user_id p ≠ user_id →
        check_verification_callback d user_id payment_id = PopupAccessDenied)
  ∧ (offers_to_proceed (check_verification_callback d user_id payment_id) = true
     ↔ ∃ p, get_fee_payment_by_id d payment_id = Some p
            ∧ fp_user_id p = user_id ∧ fp_status p = verified)
  ∧ (∀ p, get_fee_payment_by_id d payment_id = Some p → fp_user_id p = user_id →
          fp_status p = pending →
          (get_token_confirmation_requirement (fp_token p) ≤ fp_confirmations p)%nat →
          check_verification_callback d user_id payment_id
          = ReplyVerificationInProgress (fp_token p) (fp_confirmations p)
              (get_token_confirmation_requirement (fp_token p))
              (StatusVerified (fp_token p)) payment_id).
Proof.
  unfold check_verification_callback.
  destruct (get_fee_payment_by_id d payment_id) as [p|] eqn:Hp.
  - destruct (Z.eqb_spec (fp_user_id p) user_id) as [Hu|Hu]; simpl.
    + split; [intros q [= <-] Hq; done|]. split.
      * destruct (fp_status p) eqn:Hs; simpl;
          (split; [intros Ho|intros (q & [= <-] & _ & Hq)]);
          try done; try congruence. by exists p.
      * intros q [= <-] _ Hs Hle. rewrite Hs.
        unfold get_verification_status_message.
        apply Nat.leb_le in Hle. by rewrite Hle.
    + split; [done|]. split.
      * split; [done|]. intros (q & [= <-] & Hq & _). done.
      * intros q [= <-] Hq. done.
  - split; [done|]. split; [|done]. split; [done|]. intros (q & Hq & _). done.
Qed.

(** The payment of user 7 that the coroutine left pending with its one
    confirmation: the status check shows it as in progress and as
    verified at once, and offers no way on. *)
Example unverified_payment_looks_verified :
  check_verification_callback
    (db (world (snd (run (simulate_blockchain_confirmations user_sends_text 1
                            (get_token_confirmation_requirement "SOL"))
                       (spawn world_verifying))))) 7 1
  = ReplyVerificationInProgress "SOL" 1 1 (StatusVerified "SOL") 1.
Proof. by vm_compute. Qed.

(* ===================================================================== *)
(** * What the router leaves behind *)
(* ===================================================================== *)

Section RouterStates.
Variable ADMIN_USER_ID : option Z.

(** When every call returns, the router leaves the state buckets as
    [handle_text_input] gives them. *)
Lemma returned_call_is_the_router (m : text_message) (w : World) :
  handle_text_input_after ADMIN_USER_ID returned m w
  = fst (handle_text_input ADMIN_USER_ID m w).
Proof.
  unfold handle_text_input_after, handle_text_input.
  repeat case_match; simplify_eq/=; done.
Qed.

(** X13: what remains, after the router has dealt with a text message, of
    the state that claimed it. The trader-id and the wallet-connection
    state are used up by the one message, however the call of their
    handler ends: the router removes them before it (lines 5278, 5284).
    The support and bug-report state is popped after the call of its
    handler (lines 5324, 5330): it is used up when the call has returned
    and is still there when the call has raised. An admin operation is left
    by the router exactly when the sender is the admin, and the withdrawal
    state is always left: their handlers, not run here, remove them. *)
Theorem router_keeps_only_lasting_states (call : ending) (m : text_message)
    (w : World) (b : bucket) :
  first_match w (from_user m) = Some b →
  bucket_matches (handle_text_input_after ADMIN_USER_ID call m w)
    (from_user m) b
  = match b with
    | trader_id_entry | wallet_connection => false
    | admin_balance_operation | admin_ban_operation =>
        is_admin ADMIN_USER_ID (from_user m)
    | withdrawal_state => true
    | support_state =>
        match call with returned => false | raised => true end
    end.
Proof.
  unfold first_match, priority_order, handle_text_input_after.
  cbn [List.find bucket_matches].
  rewrite !bool_decide_is_Some.
  destruct (bool_decide (from_user m ∈ users_inputting_trader_id w)) eqn:Htr.
  { intros [= <-]. simpl. apply bool_decide_eq_false_2.
    rewrite elem_of_difference, elem_of_singleton. by intros [_ []]. }
  destruct (users_connecting_wallet w !! from_user m) as [wt|] eqn:Hwal.
  { intros [= <-]. simpl. rewrite bool_decide_is_Some, lookup_delete_eq. done. }
  destruct (admin_balance_operations w !! from_user m) as [op|] eqn:Hbal.
  { intros [= <-]. simpl. destruct (is_admin _ _); simpl;
      rewrite bool_decide_is_Some, ?lookup_delete_eq, ?Hbal; done. }
  destruct (admin_ban_operations w !! from_user m) as [op|] eqn:Hban.
  { intros [= <-]. simpl. destruct (is_admin _ _); simpl;
      rewrite bool_decide_is_Some, ?lookup_delete_eq, ?Hban; done. }
  destruct (user_withdrawal_states w !! from_user m) as [st|] eqn:Hst.
  { intros [= <-]. simpl. rewrite bool_decide_is_Some, Hst. done. }
  simpl. rewrite support_bucket_matches.
  destruct (user_states w !! from_user m) as [us|] eqn:Hus; [|done].
  simpl.
  destruct (String.eqb us "waiting_for_support_message"
            || String.eqb us "waiting_for_bug_report") eqn:Hsup; [|done].
  intros [= <-]. destruct call; cbn [bucket_matches].
  - apply bool_decide_eq_false_2. simpl. rewrite lookup_delete_eq.
    by intros [|].
  - by rewrite support_bucket_matches, Hus.
Qed.

End RouterStates.

Lemma router_keeps_only_lasting_states_witness :
  first_match world_awaiting_support 7 = Some support_state
  ∧ bucket_matches
      (handle_text_input_after None raised (text_from 7 sol_address)
         world_awaiting_support)
      7 support_state = true.
Proof.
  assert (first_match world_awaiting_support 7 = Some support_state) as H
    by reflexivity.
  split; [exact H|].
  exact (router_keeps_only_lasting_states None raised (text_from 7 sol_address)
           world_awaiting_support support_state H).
Defined.

(** A support message whose handler raises leaves the user in the support
    state; when the handler returns, the state is gone. *)
Example support_state_survives_a_raising_handler :
  user_states (handle_text_input_after None raised (text_from 7 sol_address)
                 world_awaiting_support) !! 7%Z
  = Some "waiting_for_support_message"
  ∧ user_states (handle_text_input_after None returned
                   (text_from 7 sol_address) world_awaiting_support) !! 7%Z
    = None.
Proof. by vm_compute. Qed.

(* ===================================================================== *)
(** * Properties of the withdrawal flow as a whole *)
(* ===================================================================== *)

Lemma lstrip_suffix s : ∃ pre, s = pre ++ lstrip s.
Proof.
  induction s as [|c s [pre IH]]; [by exists []|]. simpl.
  destruct (is_space c).
  - exists (c :: pre). simpl. by f_equal.
  - by exists [].
Qed.

Lemma lstrip_fixed s :
  hd_error (lstrip s) = None
  ∨ (∃ c, hd_error (lstrip s) = Some c ∧ is_space c = false).
Proof.
  induction s as [|c s IH]; [by left|]. simpl.
  destruct (is_space c) eqn:Hc; [done|]. right. by exists c.
Qed.

Lemma lstrip_head c s : is_space c = false → lstrip (c :: s) = c :: s.
Proof. intros H. simpl. by rewrite H. Qed.

Lemma strip_idem s : strip (strip s) = strip s.
Proof.
  unfold strip, rstrip.
  set (y := lstrip s).
  destruct (lstrip_suffix (rev y)) as [pre Hpre].
  set (z := lstrip (rev y)) in *.
  assert (y = rev z ++ rev pre) as Hy.
  { rewrite <-(rev_involutive y), Hpre, rev_app_distr. done. }
  assert (lstrip (rev z) = rev z) as Hx.
  { destruct (rev z) as [|c x] eqn:Hz; [done|].
    apply lstrip_head.
    destruct (lstrip_fixed s) as [Hn|(c' & Hc' & Hsp)]; fold y in Hn || fold y in Hc'.
    - rewrite Hy in Hn. done.
    - rewrite Hy in Hc'. simpl in Hc'. by injection Hc' as ->. }
  rewrite Hx, rev_involutive.
  assert (lstrip z = z) as ->; [|done].
  subst z. destruct (lstrip_fixed (rev y)) as [Hn|(c & Hc & Hsp)].
  - destruct (lstrip (rev y)); done.
  - destruct (lstrip (rev y)) as [|c' l]; [done|]. simpl in Hc.
    injection Hc as ->. by apply lstrip_head.
Qed.

(** A well-formed transaction id has the length of an address. *)
Lemma txid_has_address_length s token :
  validate_txid (PyStr s) token = true → address_ok s.
Proof.
  intros Hv. destruct (decide (s = [])) as [->|Hs]; [done|].
  rewrite validate_txid_families in Hv by done. unfold address_ok.
  repeat case_bool_decide; try done;
    repeat match goal with
           | H : _ && _ = true |- _ => apply andb_true_iff in H as []
           | H : (_ =? _)%nat = true |- _ => apply Nat.eqb_eq in H
           end; lia.
Qed.

(** ** Storage facts *)

Lemma find_latest_with_pending d user_id asset p :
  fp_status p = pending →
  find_latest_verified_unconsumed
    (set_fee_payments (fee_payments d ++ [p]) d) user_id asset
  = find_latest_verified_unconsumed d user_id asset.
Proof.
  intros Hp. unfold find_latest_verified_unconsumed. simpl.
  rewrite List.filter_app. simpl.
  assert (verified_unconsumed
            (set_fee_payments (fee_payments d ++ [p]) d) user_id asset p
          = false) as ->.
  { unfold verified_unconsumed. rewrite Hp. by rewrite andb_false_r. }
  by rewrite app_nil_r.
Qed.

Lemma elem_of_other_removed (u v : Z) (s : gset Z) :
  u ≠ v → u ∈ s ∖ {[v]} ↔ u ∈ s.
Proof.
  intros Huv. rewrite elem_of_difference, elem_of_singleton.
  split; [by intros [] | by split].
Qed.

Lemma untouched_outside_refl u w : untouched_outside u w w.
Proof. by repeat split. Qed.

Ltac outside :=
  unfold untouched_outside, update_portfolio; simpl;
  repeat split; try done;
    intros; simpl; rewrite ?lookup_insert_ne, ?lookup_delete_ne by congruence;
    try done; congruence.

Ltac follow_txid :=
  unfold process_txid_input;
  repeat first [progress run_monad
               | match goal with H : ?l = _ |- _ => rewrite H end];
  try done.

(** The address handler writes neither the fee-payment ledger nor the task
    list. *)
Lemma address_path_keeps_payments w chat_id user_id addr :
  fee_payments (db (snd (run (process_withdrawal_address_input chat_id user_id
                                addr) w))) = fee_payments (db w)
  ∧ tasks (snd (run (process_withdrawal_address_input chat_id user_id addr) w))
    = tasks w.
Proof.
  unfold_address_path. run_monad.
  destruct (user_withdrawal_states w !! user_id) as [st|] eqn:Hst; [|done].
  destruct (wstate_falsy st); [done|].
  destruct (ws_token st) as [token|]; run_monad; [|done].
  destruct (_ || _); run_monad; [done|].
  unfold get_user_portfolio.
  destruct (portfolio (db w) !! (user_id, token)) as [h|]; run_monad.
  - destruct (atomic_create_verified_withdrawal _ _ _ _ _ _)
      as [[reason msg|wid fee ft net txid] d1] eqn:Hgate; run_monad; rewrite Hst;
      run_monad.
    + by apply gate_rejection in Hgate as ->.
    + apply gate_approval in Hgate as (_ & _ & p & _ & _ & Hfp & _).
      unfold update_portfolio. simpl. done.
  - by rewrite Hst.
Qed.

Lemma address_path_outside w chat_id user_id addr :
  untouched_outside user_id w
    (snd (run (process_withdrawal_address_input chat_id user_id addr) w)).
Proof.
  unfold_address_path. run_monad.
  destruct (user_withdrawal_states w !! user_id) as [st|] eqn:Hst; [|outside].
  destruct (wstate_falsy st); [outside|].
  destruct (ws_token st) as [token|]; run_monad; [|outside].
  destruct (_ || _); run_monad; [outside|].
  unfold get_user_portfolio.
  destruct (portfolio (db w) !! (user_id, token)) as [h|]; run_monad.
  - destruct (atomic_create_verified_withdrawal _ _ _ _ _ _)
      as [[reason msg|wid fee ft net txid] d1] eqn:Hgate; run_monad; rewrite Hst;
      run_monad.
    + apply gate_rejection in Hgate as ->. outside.
    + apply gate_approval in Hgate as (_ & _ & p & _ & Hport & _ & _).
      outside.
  - rewrite Hst. outside.
Qed.

(** ** Outcomes of the callbacks, of the router and of the handlers *)

Lemma fee_paid_outcome w chat_id user_id token h :
  portfolio (db w) !! (user_id, token) = Some h →
  run (fee_paid_callback chat_id user_id token) w
  = (Ok tt,
     with_sent (λ l, l ++ [(chat_id, MsgTxidRequest token (amount h * tenth))])
       (with_withdrawal_states
          (<[user_id := {| ws_token := Some token;
               ws_withdrawal_token := Some token;
               ws_withdrawal_amount := Some (amount h);
               ws_fee_amount := Some (amount h * tenth)%Q;
               ws_net_amount := Some (amount h - amount h * tenth)%Q;
               ws_step := Some "awaiting_txid";
               ws_payment_id := None; ws_txid := None;
               ws_fee_verified := None; ws_fee_payment_id := None |}]>) w)).
Proof.
  intros Hh. unfold fee_paid_callback. run_monad.
  unfold get_user_portfolio. rewrite Hh. by run_monad.
Qed.

Lemma enter_txid_outcome w chat_id user_id token st :
  user_withdrawal_states w !! user_id = Some st →
  run (enter_txid_callback chat_id user_id token) w
  = (Ok tt,
     with_sent (λ l, l ++ [(chat_id, MsgEnterTxid token)])
       (with_withdrawal_states (<[user_id := set_step "entering_txid" st]>) w)).
Proof.
  intros Hst. unfold enter_txid_callback. run_monad. rewrite Hst. run_monad.
  by rewrite Hst.
Qed.

Lemma fee_verified_outcome w chat_id user_id token p :
  get_user_verified_fee_payment (db w) user_id token = Some p →
  run (fee_verified_callback chat_id user_id token) w
  = (Ok tt,
     with_sent (λ l, l ++ [(chat_id,
        MsgProvideAddress token (fp_withdrawal_amount p) (fp_expected_amount p)
          (fp_withdrawal_amount p - fp_expected_amount p))])
       (with_withdrawal_states
          (<[user_id := {| ws_token := Some token; ws_withdrawal_token := None;
               ws_withdrawal_amount := None; ws_fee_amount := None;
               ws_net_amount := None; ws_step := Some "entering_address";
               ws_payment_id := None; ws_txid := None;
               ws_fee_verified := Some true;
               ws_fee_payment_id := Some (fp_id p) |}]>) w)).
Proof.
  intros Hp. unfold fee_verified_callback. run_monad. rewrite Hp. by run_monad.
Qed.

Section Routes.
Variable ADMIN_USER_ID : option Z.

Lemma router_to_withdrawal_handlers (m : text_message) (w : World) st :
  idle_elsewhere w (from_user m) →
  user_withdrawal_states w !! from_user m = Some st →
  handle_text_input ADMIN_USER_ID m w
  = (w, [if step_is st "entering_txid"
         then call_process_txid_input (chat m) (from_user m) (strip (text m))
         else call_process_withdrawal_address_input (chat m) (from_user m)
                (strip (text m))]).
Proof.
  intros (Htr & Hwal & Hbal & Hban) Hst. unfold handle_text_input.
  rewrite bool_decide_eq_false_2 by done.
  rewrite Hwal, Hbal, Hban, Hst. by destruct (step_is st "entering_txid").
Qed.

End Routes.

Lemma address_path_outcome w chat_id user_id addr st token h :
  user_withdrawal_states w !! user_id = Some st →
  ws_token st = Some token →
  address_ok addr →
  portfolio (db w) !! (user_id, token) = Some h →
  run (process_withdrawal_address_input chat_id user_id addr) w
  = match atomic_create_verified_withdrawal (db w) user_id "crypto" token
            (amount h) (strip addr) with
    | (Rejected reason msg, d1) =>
        (Ok tt,
         with_withdrawal_states (delete user_id)
           (with_sent (λ l, l ++ [(chat_id,
              MsgWithdrawalRejected reason msg (amount h * tenth)
                (get_fee_payment_token token))])
              (with_db (λ _, d1) w)))
    | (Approved wid fee ft net txid, d1) =>
        (Ok tt,
         with_withdrawal_states (delete user_id)
           (with_sent (λ l, l ++ [(chat_id,
              MsgWithdrawalApproved token (amount h) fee ft net
                (strip addr) wid txid)])
              (with_db (λ _, update_portfolio d1 user_id token
                               (- amount h) 0) w)))
    end.
Proof.
  intros Hst Htok Hok Hh. unfold_address_path.
  run_monad. rewrite Hst, (wstate_with_token _ _ Htok), Htok. run_monad.
  rewrite (address_ok_check _ Hok). run_monad.
  unfold get_user_portfolio. rewrite Hh. run_monad.
  destruct (atomic_create_verified_withdrawal _ _ _ _ _ _) as [[] d1];
    run_monad; by rewrite Hst.
Qed.

Section Flow.

Variable ADMIN_USER_ID : option Z.
Variable WITHDRAWAL_FEE_NETWORK : string → option string.

Lemma txid_input_accepts (w : World) (chat_id user_id : Z) (txid : pystr)
    st token wt wa fa :
  user_withdrawal_states w !! user_id = Some st →
  step_is st "entering_txid" = true →
  ws_token st = Some token →
  ws_withdrawal_token st = Some wt →
  ws_withdrawal_amount st = Some wa →
  ws_fee_amount st = Some fa →
  validate_txid (PyStr txid) token = true →
  (txid ∉ map fp_txid (fee_payments (db w))) →
  run (process_txid_input WITHDRAWAL_FEE_NETWORK chat_id user_id txid) w
  = (Ok tt,
     with_tasks
       (λ l, l ++ [(next_payment_id (db w),
                    get_token_confirmation_requirement token)])
       (with_sent
          (λ l, l ++ [(chat_id,
             MsgVerificationInProgress txid token fa
               (default (token +:+ " Network")
                  (WITHDRAWAL_FEE_NETWORK token))
               (get_token_confirmation_requirement token)
               (next_payment_id (db w)))])
          (with_withdrawal_states
             (<[user_id := set_verifying (next_payment_id (db w)) txid st]>)
             (with_db
                (λ _, set_fee_payments
                        (fee_payments (db w) ++
                         [{| fp_id := next_payment_id (db w);
                             fp_user_id := user_id; fp_token := token;
                             fp_expected_amount := fa; fp_txid := txid;
                             fp_network :=
                               default (token +:+ " Network")
                                 (WITHDRAWAL_FEE_NETWORK token);
                             fp_withdrawal_token := wt;
                             fp_withdrawal_amount := wa;
                             fp_confirmations := 0; fp_status := pending |}])
                        (db w))
                w)))).
Proof.
  intros Hst Hstep Htok Hwt Hwa Hfa Hval Hnew.
  assert (get_fee_payment_by_txid (db w) txid = None) as Hnone.
  { destruct (get_fee_payment_by_txid (db w) txid) eqn:Hg; [|done].
    exfalso. apply Hnew, get_fee_payment_by_txid_present. eauto. }
  assert (wstate_falsy st = false) as Hfalsy by (by eapply wstate_with_token).
  unfold process_txid_input, start_fee_verification_simulation. run_monad.
  rewrite Hst, Hfalsy, Hstep, Htok, Hwt, Hwa, Hfa. run_monad.
  rewrite Hval. run_monad. rewrite Hnone. run_monad.
  unfold create_fee_payment. simpl. rewrite Hnone. run_monad.
  rewrite Hst. by run_monad.
Qed.

Lemma txid_input_outside w chat_id user_id txid :
  untouched_outside user_id w
    (snd (run (process_txid_input WITHDRAWAL_FEE_NETWORK chat_id user_id txid) w)).
Proof.
  unfold process_txid_input, create_fee_payment,
    start_fee_verification_simulation.
  run_cases; outside.
Qed.

(** With both messages delivered the handler is [process_txid_input]. *)
Lemma all_delivered_is_the_handler (w : World) (chat_id user_id : Z)
    (txid : pystr) :
  run (process_txid_input_sending WITHDRAWAL_FEE_NETWORK
         {| reply_delivered := true; apology_delivered := true |}
         chat_id user_id txid) w
  = run (process_txid_input WITHDRAWAL_FEE_NETWORK chat_id user_id txid) w.
Proof. reflexivity. Qed.

Ltac follow_sending :=
  unfold process_txid_input_sending, send_message_or_raise,
    start_fee_verification_simulation, create_fee_payment;
  repeat first [progress run_monad
               | match goal with H : ?l = _ |- _ => rewrite H end
               | match goal with
                 | |- context [if ?b then _ else _] => destruct b
                 end];
  try done.

(** X9: what [process_txid_input] leaves behind, with [bot.send_message]
    able to raise. Either the store, the task list and every conversation
    entry are as they were (the handler may have replied), or the sender
    was in the step [entering_txid], the id passed [validate_txid] for the
    token of the entry and was not on the ledger, and then exactly one
    payment was appended for that user, token and id, pending and with no
    confirmation, and the entry moved to [verifying]; the coroutine of the
    payment was created, with the confirmation requirement of the token,
    exactly when the progress message of line 6024 was delivered. When
    that call raises, the [except] clause is all that follows: the payment
    stays on the ledger without a coroutine, the entry stays at
    [verifying], and the id is used up. No coroutine is created without
    its payment. The ledger's [create] is modelled from the spec. *)
Theorem txid_input_outcomes (b : delivery) (w : World)
    (chat_id user_id : Z) (txid : pystr) :
  let w' := snd (run (process_txid_input_sending WITHDRAWAL_FEE_NETWORK b
                        chat_id user_id txid) w) in
  (db w' = db w ∧ tasks w' = tasks w
   ∧ user_withdrawal_states w' = user_withdrawal_states w)
  ∨ (∃ st token p,
       user_withdrawal_states w !! user_id = Some st
       ∧ step_is st "entering_txid" = true
       ∧ ws_token st = Some token
       ∧ validate_txid (PyStr txid) token = true
       ∧ (txid ∉ map fp_txid (fee_payments (db w)))
       ∧ fee_payments (db w') = fee_payments (db w) ++ [p]
       ∧ withdrawals (db w') = withdrawals (db w)
       ∧ portfolio (db w') = portfolio (db w)
       ∧ fp_id p = next_payment_id (db w)
       ∧ fp_user_id p = user_id ∧ fp_token p = token ∧ fp_txid p = txid
       ∧ fp_status p = pending ∧ fp_confirmations p = 0%nat
       ∧ tasks w'
         = (if reply_delivered b
            then tasks w ++ [(fp_id p, get_token_confirmation_requirement token)]
            else tasks w)
       ∧ user_withdrawal_states w'
         = <[user_id := set_verifying (fp_id p) txid st]> (user_withdrawal_states w)).
Proof.
  intros w'. subst w'.
  destruct (user_withdrawal_states w !! user_id) as [st|] eqn:Hst;
    [|left; follow_sending].
  destruct (wstate_falsy st || negb (step_is st "entering_txid")) eqn:Hstep;
    [left; follow_sending|].
  apply orb_false_iff in Hstep as [Hfalsy Hstep]. apply negb_false_iff in Hstep.
  destruct (ws_token st) as [token|] eqn:Htok; [|left; follow_sending].
  destruct (ws_withdrawal_token st) as [wt|] eqn:Hwt; [|left; follow_sending].
  destruct (ws_withdrawal_amount st) as [wa|] eqn:Hwa; [|left; follow_sending].
  destruct (ws_fee_amount st) as [fa|] eqn:Hfa; [|left; follow_sending].
  destruct (validate_txid (PyStr txid) token) eqn:Hval; [|left; follow_sending].
  destruct (decide (txid ∈ map fp_txid (fee_payments (db w)))) as [Hin|Hnew].
  - left. apply get_fee_payment_by_txid_present in Hin as [q Hq].
    follow_sending.
  - right.
    assert (get_fee_payment_by_txid (db w) txid = None) as Hnone.
    { destruct (get_fee_payment_by_txid (db w) txid) eqn:Hg; [|done].
      exfalso. apply Hnew, get_fee_payment_by_txid_present. eauto. }
    exists st, token.
    unfold process_txid_input_sending, send_message_or_raise,
      start_fee_verification_simulation. run_monad.
    rewrite Hst, Hfalsy, Hstep, Htok, Hwt, Hwa, Hfa. run_monad.
    rewrite Hval. run_monad. rewrite Hnone. run_monad.
    unfold create_fee_payment. simpl. rewrite Hnone. run_monad.
    rewrite Hst.
    destruct (reply_delivered b), (apology_delivered b); run_monad;
      (eexists; repeat (split; [done|]); done).
Qed.

(** The payment that is left without a coroutine: user 2 of
    [world_two_users] sends a well-formed id and the progress message
    cannot be delivered. *)
Example undelivered_progress_message_orphans_the_payment :
  map fp_txid
    (fee_payments
       (db (snd (run (process_txid_input_sending WITHDRAWAL_FEE_NETWORK
                        {| reply_delivered := false; apology_delivered := true |}
                        2 2 eth_txid) world_two_users))))
  = [hex_txid; eth_txid]
  ∧ tasks (snd (run (process_txid_input_sending WITHDRAWAL_FEE_NETWORK
                       {| reply_delivered := false; apology_delivered := true |}
                       2 2 eth_txid) world_two_users)) = []
  ∧ (ws_step <$> user_withdrawal_states
                   (snd (run (process_txid_input_sending WITHDRAWAL_FEE_NETWORK
                                {| reply_delivered := false;
                                   apology_delivered := true |}
                                2 2 eth_txid) world_two_users)) !! 2%Z)
    = Some (Some "verifying").
Proof. by vm_compute. Qed.

(** X10: after "I paid" ([fee_paid_]) the user is told to enter the
    transaction id below, but the entry stands at [awaiting_txid], not at
    [entering_txid]: a well-formed transaction id typed at once is handed
    to the address handler as a destination address (every well-formed id
    has the length of an address), which ends the flow: the user's entry
    is removed, and no fee payment is recorded and no coroutine created
    for the id. *)
Theorem typed_txid_is_taken_for_an_address (w : World) (chat_id user_id : Z)
    (token : string) (h : holding) (typed : pystr) :
  idle_elsewhere w user_id →
  portfolio (db w) !! (user_id, token) = Some h →
  validate_txid (PyStr (strip typed)) token = true →
  let w1 := snd (run (fee_paid_callback chat_id user_id token) w) in
  let m := {| from_user := user_id; chat := chat_id; text := typed |} in
  let w2 := receive_text ADMIN_USER_ID WITHDRAWAL_FEE_NETWORK m w1 in
  (ws_step <$> user_withdrawal_states w1 !! user_id) = Some (Some "awaiting_txid")
  ∧ snd (handle_text_input ADMIN_USER_ID m w1)
    = [call_process_withdrawal_address_input chat_id user_id (strip typed)]
  ∧ user_withdrawal_states w2 !! user_id = None
  ∧ fee_payments (db w2) = fee_payments (db w)
  ∧ tasks w2 = tasks w.
Proof.
  intros Hidle Hh Hval w1 m w2.
  assert (w1 = (run (fee_paid_callback chat_id user_id token) w).2) as Hw1
    by done.
  rewrite (fee_paid_outcome _ _ _ _ _ Hh) in Hw1. cbn [snd] in Hw1.
  match type of Hw1 with
  | context [<[user_id := ?s]>] => set (st1 := s) in *
  end.
  assert (user_withdrawal_states w1 !! user_id = Some st1) as Hst1
    by (rewrite Hw1; simpl; apply lookup_insert_eq).
  assert (idle_elsewhere w1 user_id) as Hidle1 by (by rewrite Hw1).
  pose proof (router_to_withdrawal_handlers ADMIN_USER_ID m w1 st1 Hidle1 Hst1)
    as Hroute.
  change (step_is st1 "entering_txid") with false in Hroute.
  cbn [chat from_user text m] in Hroute.
  split; [by rewrite Hst1|]. split; [by rewrite Hroute|].
  subst w2. unfold receive_text. rewrite Hroute. cbn [fold_left run_call].
  split.
  - apply (address_message_clears_entry w1 chat_id user_id (strip typed) st1
             token Hst1 eq_refl).
    by apply (txid_has_address_length _ token).
  - destruct (address_path_keeps_payments w1 chat_id user_id (strip typed))
      as [H1 H2]. unfold run in H1, H2. rewrite H1, H2. by rewrite Hw1.
Qed.

(** X11: when the address handler has let an address message through the
    length check, the user's entry is gone, whatever the gate answered; the
    button "Pay Withdrawal Fee" under the security block
    ([enter_txid_<fee token>]) does not create one, so the transaction id
    the user types next gets the generic guidance, reaches no handler, and
    no fee payment is recorded for it. *)
Theorem pay_fee_button_after_the_block_leads_nowhere (w : World)
    (chat_id user_id : Z) (addr typed : pystr) (st : wstate) (token : string) :
  idle_elsewhere w user_id →
  user_states w !! user_id = None →
  user_withdrawal_states w !! user_id = Some st →
  ws_token st = Some token →
  address_ok addr →
  let w1 := snd (run (process_withdrawal_address_input chat_id user_id addr) w) in
  let w2 := snd (run (enter_txid_callback chat_id user_id
                        (get_fee_payment_token token)) w1) in
  let m := {| from_user := user_id; chat := chat_id; text := typed |} in
  user_withdrawal_states w2 !! user_id = None
  ∧ handle_text_input ADMIN_USER_ID m w2
    = (with_sent (λ l, l ++ [(chat_id, MsgDefaultGuidance)]) w2, [])
  ∧ fee_payments (db (receive_text ADMIN_USER_ID WITHDRAWAL_FEE_NETWORK m w2))
    = fee_payments (db w)
  ∧ tasks (receive_text ADMIN_USER_ID WITHDRAWAL_FEE_NETWORK m w2) = tasks w.
Proof.
  intros (Htr & Hwal & Hbal & Hban) Hus Hst Htok Hok w1 w2 m.
  pose proof (address_message_clears_entry w chat_id user_id addr st token
                Hst Htok Hok) as Hgone.
  destruct (address_path_outside w chat_id user_id addr)
    as (A1 & A2 & A3 & A4 & A5 & _ & _).
  destruct (address_path_keeps_payments w chat_id user_id addr) as [Hfp Htasks].
  fold w1 in Hgone, A1, A2, A3, A4, A5, Hfp, Htasks.
  assert (w2 = with_sent (λ l, l ++ [(chat_id,
                 MsgEnterTxid (get_fee_payment_token token))]) w1) as Hw2.
  { subst w2. unfold enter_txid_callback. run_monad. by rewrite Hgone. }
  assert (handle_text_input ADMIN_USER_ID m w2
          = (with_sent (λ l, l ++ [(chat_id, MsgDefaultGuidance)]) w2, []))
    as Hroute.
  { unfold handle_text_input. rewrite Hw2. simpl.
    rewrite A1, A2, A3, A4, A5, Hgone.
    rewrite bool_decide_eq_false_2 by done.
    by rewrite Hwal, Hbal, Hban, Hus. }
  split; [by rewrite Hw2|]. split; [exact Hroute|].
  unfold receive_text. rewrite Hroute, Hw2. simpl. by rewrite Hfp, Htasks.
Qed.

(** X12: a text message of one user, through the router and the TXID and
    address handlers it may reach, changes nothing that is kept for another
    user: neither the other's membership or entry in any of the state
    buckets nor any of the other's holdings. *)
Theorem text_of_one_user_leaves_the_others_alone (m : text_message) (w : World)
    (u : Z) :
  u ≠ from_user m →
  let w' := receive_text ADMIN_USER_ID WITHDRAWAL_FEE_NETWORK m w in
  (u ∈ users_inputting_trader_id w' ↔ u ∈ users_inputting_trader_id w)
  ∧ users_connecting_wallet w' !! u = users_connecting_wallet w !! u
  ∧ admin_balance_operations w' !! u = admin_balance_operations w !! u
  ∧ admin_ban_operations w' !! u = admin_ban_operations w !! u
  ∧ user_withdrawal_states w' !! u = user_withdrawal_states w !! u
  ∧ user_states w' !! u = user_states w !! u
  ∧ ∀ token, portfolio (db w') !! (u, token) = portfolio (db w) !! (u, token).
Proof.
  intros Hu w'. subst w'. unfold receive_text, handle_text_input.
  repeat case_match; simplify_eq; cbn [fold_left run_call snd].
  all: try (simpl; rewrite ?lookup_delete_ne, ?elem_of_other_removed by done;
            by repeat split).
  - match goal with
    | |- context [process_txid_input _ ?c ?uid ?t ?w0] =>
        destruct (txid_input_outside w0 c uid t)
          as (A1 & A2 & A3 & A4 & A5 & A6 & A7)
    end.
    unfold run in *. rewrite A1, A2, A3, A4, A5, A6 by done.
    repeat split; try done. intros token. by apply A7.
  - match goal with
    | |- context [process_withdrawal_address_input ?c ?uid ?t ?w0] =>
        destruct (address_path_outside w0 c uid t)
          as (A1 & A2 & A3 & A4 & A5 & A6 & A7)
    end.
    unfold run in *. rewrite A1, A2, A3, A4, A5, A6 by done.
    repeat split; try done. intros token. by apply A7.
Qed.

(** X16: the withdrawal flow as the program runs it, for a user who holds
    the token, is in no other conversation and has no verified, unconsumed
    fee payment in the fee asset of the token: "I paid", "Enter transaction
    id", a well-formed transaction id that is not on the ledger, "Proceed
    to withdrawal" and an address of 20 to 100 characters. The payment is
    recorded and its coroutine created; the coroutine is cancelled with the
    event loop of [asyncio.run] (line 5311) before its first write, so the
    payment stays pending with no confirmation. The address then meets the
    security block of the gate: no Withdrawal is created, no holding
    changes, the entry is removed and the payment is left pending on the
    ledger. The ledger operations and the gate are modelled from the
    spec. *)
Theorem withdrawal_attempt_ends_in_the_security_block (w : World)
    (chat_id user_id : Z) (token : string) (typed_txid typed_address : pystr)
    (h : holding) :
  idle_elsewhere w user_id →
  portfolio (db w) !! (user_id, token) = Some h →
  find_latest_verified_unconsumed (db w) user_id (get_fee_payment_token token)
  = None →
  validate_txid (PyStr (strip typed_txid)) token = true →
  (strip typed_txid ∉ map fp_txid (fee_payments (db w))) →
  address_ok typed_address →
  let w' := withdrawal_attempt ADMIN_USER_ID WITHDRAWAL_FEE_NETWORK chat_id
              user_id token typed_txid typed_address w in
  withdrawals (db w') = withdrawals (db w)
  ∧ portfolio (db w') = portfolio (db w)
  ∧ (∃ p, fee_payments (db w') = fee_payments (db w) ++ [p]
          ∧ fp_id p = next_payment_id (db w) ∧ fp_user_id p = user_id
          ∧ fp_token p = token ∧ fp_txid p = strip typed_txid
          ∧ fp_status p = pending ∧ fp_confirmations p = 0%nat
          ∧ tasks w'
            = tasks w ++ [(fp_id p, get_token_confirmation_requirement token)])
  ∧ user_withdrawal_states w' !! user_id = None
  ∧ last (sent w')
    = Some (chat_id,
            MsgWithdrawalRejected no_verified_fee_payment
              "No verified fee payment found for this withdrawal"
              (amount h * tenth) (get_fee_payment_token token)).
Proof.
  intros Hidle Hh Hnone Hval Hnew Hok w'. subst w'.
  unfold withdrawal_attempt. cbn beta zeta.
  pose proof Hidle as (Htr & Hwal & Hbal & Hban).
  set (pid := next_payment_id (db w)) in *.
  set (req := get_token_confirmation_requirement token).
  (* "I paid" *)
  remember (snd (run (fee_paid_callback chat_id user_id token) w)) as w1 eqn:E1.
  rewrite (fee_paid_outcome _ _ _ _ _ Hh) in E1. cbn [snd] in E1.
  match type of E1 with
  | context [<[user_id := ?s]>] => set (st1 := s) in *
  end.
  assert (user_withdrawal_states w1 !! user_id = Some st1) as Hst1
    by (rewrite E1; simpl; apply lookup_insert_eq).
  (* "Enter transaction id" *)
  remember (snd (run (enter_txid_callback chat_id user_id token) w1)) as w2 eqn:E2.
  rewrite (enter_txid_outcome _ _ _ _ _ Hst1) in E2. cbn [snd] in E2.
  set (st2 := set_step "entering_txid" st1) in *.
  assert (user_withdrawal_states w2 !! user_id = Some st2) as Hst2
    by (rewrite E2; simpl; apply lookup_insert_eq).
  assert (idle_elsewhere w2 user_id) as Hidle2 by (by rewrite E2, E1).
  assert (db w2 = db w) as Hdb2 by (by rewrite E2, E1).
  assert (tasks w2 = tasks w) as Htasks2 by (by rewrite E2, E1).
  (* the transaction id *)
  remember (receive_text ADMIN_USER_ID WITHDRAWAL_FEE_NETWORK
              {| from_user := user_id; chat := chat_id; text := typed_txid |} w2)
    as w3 eqn:E3.
  unfold receive_text in E3.
  rewrite (router_to_withdrawal_handlers ADMIN_USER_ID
             {| from_user := user_id; chat := chat_id; text := typed_txid |}
             w2 _ Hidle2 Hst2) in E3.
  change (step_is st2 "entering_txid") with true in E3.
  cbn [fold_left run_call chat from_user text] in E3.
  pose proof (txid_input_accepts w2 chat_id user_id
                (strip typed_txid) st2 token token (amount h)
                (amount h * tenth)%Q Hst2 eq_refl eq_refl eq_refl eq_refl
                eq_refl Hval) as Hacc.
  rewrite Hdb2 in Hacc. specialize (Hacc Hnew). unfold run in Hacc.
  rewrite Hacc in E3. cbn [snd] in E3. clear Hacc. fold pid in E3.
  match type of E3 with
  | context [fee_payments (db w) ++ [?q]] => set (p0 := q) in *
  end.
  set (st3 := set_verifying pid (strip typed_txid) st2) in *.
  assert (db w3 = set_fee_payments (fee_payments (db w) ++ [p0]) (db w)) as Hdb3
    by (by rewrite E3).
  assert (user_withdrawal_states w3 !! user_id = Some st3) as Hst3
    by (rewrite E3; simpl; apply lookup_insert_eq).
  assert (tasks w3 = tasks w ++ [(pid, req)]) as Htasks3
    by (by rewrite E3; simpl; rewrite Htasks2).
  assert (idle_elsewhere w3 user_id) as Hidle3
    by (by rewrite E3; destruct Hidle2 as (?&?&?&?)).
  clear E3.
  (* "Proceed to withdrawal" *)
  remember (snd (run (fee_verified_callback chat_id user_id token) w3))
    as w4 eqn:E4.
  assert (∃ st4, user_withdrawal_states w4 !! user_id = Some st4
                 ∧ ws_token st4 = Some token
                 ∧ step_is st4 "entering_txid" = false
                 ∧ db w4 = db w3 ∧ tasks w4 = tasks w3
                 ∧ idle_elsewhere w4 user_id) as (st4 & Hst4 & Htok4 & Hstep4
                                                   & Hdb4 & Htasks4 & Hidle4).
  { unfold fee_verified_callback in E4. run_monad.
    destruct (get_user_verified_fee_payment (db w3) user_id token) as [q|];
      simpl in E4; subst w4; simpl.
    - eexists. split; [apply lookup_insert_eq|].
      split; [reflexivity|]. split; [reflexivity|].
      split; [reflexivity|]. split; [reflexivity|]. exact Hidle3.
    - exists st3. split; [exact Hst3|].
      split; [reflexivity|]. split; [reflexivity|].
      split; [reflexivity|]. split; [reflexivity|]. exact Hidle3. }
  clear E4.
  (* the address *)
  unfold receive_text.
  rewrite (router_to_withdrawal_handlers ADMIN_USER_ID
             {| from_user := user_id; chat := chat_id; text := typed_address |}
             w4 _ Hidle4 Hst4).
  rewrite Hstep4. cbn [fold_left run_call chat from_user text].
  assert (address_ok (strip typed_address)) as Hok'
    by (unfold address_ok; by rewrite strip_idem).
  assert (portfolio (db w4) !! (user_id, token) = Some h) as Hh4
    by (by rewrite Hdb4, Hdb3).
  pose proof (address_path_outcome w4 chat_id user_id (strip typed_address)
                st4 token h Hst4 Htok4 Hok' Hh4) as Hout.
  unfold run in Hout. rewrite Hout. clear Hout.
  assert (find_latest_verified_unconsumed (db w4) user_id
            (get_fee_payment_token token) = None) as Hnone4.
  { rewrite Hdb4, Hdb3. by rewrite find_latest_with_pending. }
  rewrite (gate_rejects _ _ _ _ _ _ Hnone4). cbn [snd].
  cbn [db with_withdrawal_states with_sent with_db tasks sent
       user_withdrawal_states].
  rewrite Hdb4, Hdb3, Htasks4, Htasks3.
  split; [done|]. split; [done|]. split; [|split].
  - exists p0. by repeat split.
  - apply lookup_delete_eq.
  - by rewrite last_snoc.
Qed.

(** X17: the button "Proceed to withdrawal" and the gate look for the
    user's verified fee payment under different assets. [fee_verified_]
    takes a verified, unconsumed payment recorded under the withdrawal
    token itself, which is where [fee_paid_] and [process_txid_input]
    record it; the gate, modelled from the spec, takes one recorded under
    [get_fee_payment_token(token)]. For a user whose ledger has the first
    and not the second (so for a token whose fee is paid in another asset:
    USDT, MATIC, LINK), the button marks the entry as verified and asks for
    the address, and the address of 20 to 100 characters meets the security
    block: the store is as it was, payment unconsumed, and the entry is
    removed. *)
Theorem fee_verified_button_and_gate_differ_on_the_asset (w : World)
    (chat_id user_id : Z) (token : string) (typed_address : pystr)
    (p : FeePayment) (h : holding) :
  idle_elsewhere w user_id →
  portfolio (db w) !! (user_id, token) = Some h →
  find_latest_verified_unconsumed (db w) user_id token = Some p →
  find_latest_verified_unconsumed (db w) user_id (get_fee_payment_token token)
  = None →
  address_ok typed_address →
  let w1 := snd (run (fee_verified_callback chat_id user_id token) w) in
  let w2 := receive_text ADMIN_USER_ID WITHDRAWAL_FEE_NETWORK
              {| from_user := user_id; chat := chat_id; text := typed_address |}
              w1 in
  get_fee_payment_token token ≠ token
  ∧ (ws_fee_verified <$> user_withdrawal_states w1 !! user_id)
    = Some (Some true)
  ∧ (ws_step <$> user_withdrawal_states w1 !! user_id)
    = Some (Some "entering_address")
  ∧ last (sent w1)
    = Some (chat_id,
            MsgProvideAddress token (fp_withdrawal_amount p)
              (fp_expected_amount p)
              (fp_withdrawal_amount p - fp_expected_amount p))
  ∧ db w2 = db w
  ∧ user_withdrawal_states w2 !! user_id = None
  ∧ last (sent w2)
    = Some (chat_id,
            MsgWithdrawalRejected no_verified_fee_payment
              "No verified fee payment found for this withdrawal"
              (amount h * tenth) (get_fee_payment_token token)).
Proof.
  intros Hidle Hh Hp Hnone Hok w1 w2.
  split; [intros Heq; rewrite Heq in Hnone; congruence|].
  assert (w1 = (run (fee_verified_callback chat_id user_id token) w).2) as Hw1
    by done.
  rewrite (fee_verified_outcome _ _ _ _ p Hp) in Hw1. cbn [snd] in Hw1.
  match type of Hw1 with
  | context [<[user_id := ?s]>] => set (st1 := s) in *
  end.
  assert (user_withdrawal_states w1 !! user_id = Some st1) as Hst1
    by (rewrite Hw1; simpl; apply lookup_insert_eq).
  assert (idle_elsewhere w1 user_id) as Hidle1 by (by rewrite Hw1).
  assert (db w1 = db w) as Hdb1 by (by rewrite Hw1).
  rewrite Hst1.
  split; [done|]. split; [done|].
  split; [by rewrite Hw1; simpl; rewrite last_snoc|].
  subst w2. unfold receive_text.
  rewrite (router_to_withdrawal_handlers ADMIN_USER_ID
             {| from_user := user_id; chat := chat_id; text := typed_address |}
             w1 _ Hidle1 Hst1).
  change (step_is st1 "entering_txid") with false.
  cbn [fold_left run_call chat from_user text].
  assert (address_ok (strip typed_address)) as Hok'
    by (unfold address_ok; by rewrite strip_idem).
  assert (portfolio (db w1) !! (user_id, token) = Some h) as Hh1
    by (by rewrite Hdb1).
  pose proof (address_path_outcome w1 chat_id user_id (strip typed_address)
                st1 token h Hst1 eq_refl Hok' Hh1) as Hout.
  unfold run in Hout. rewrite Hout. clear Hout.
  rewrite Hdb1 in *.
  rewrite (gate_rejects _ _ _ _ _ _ Hnone). cbn [snd].
  cbn [db with_withdrawal_states with_sent with_db sent
       user_withdrawal_states].
  split; [by rewrite <- Hdb1; destruct w1|]. split.
  - apply lookup_delete_eq.
  - by rewrite last_snoc.
Qed.

End Flow.

Lemma holder_is_idle : idle_elsewhere holder_world 7.
Proof. split; [apply not_elem_of_empty | by repeat split]. Qed.

Lemma typed_txid_is_taken_for_an_address_witness :
  idle_elsewhere holder_world 7
  ∧ portfolio (db holder_world) !! (7%Z, "SOL")
    = Some {| amount := 5; avg_price := 20 |}
  ∧ validate_txid (PyStr (strip sol_txid)) "SOL" = true
  ∧ user_withdrawal_states
      (receive_text None no_networks (text_from 7 sol_txid)
         (snd (run (fee_paid_callback 7 7 "SOL") holder_world))) !! 7%Z = None.
Proof.
  assert (portfolio (db holder_world) !! (7%Z, "SOL")
          = Some {| amount := 5; avg_price := 20 |}) as Hh by reflexivity.
  assert (validate_txid (PyStr (strip sol_txid)) "SOL" = true) as Hv
    by reflexivity.
  split; [exact holder_is_idle|]. split; [exact Hh|]. split; [exact Hv|].
  destruct (typed_txid_is_taken_for_an_address None no_networks holder_world
              7 7 "SOL" _ sol_txid holder_is_idle Hh Hv)
    as (_ & _ & Hgone & _).
  exact Hgone.
Defined.

Lemma pay_fee_button_after_the_block_leads_nowhere_witness :
  idle_elsewhere world_stale_flag 7
  ∧ user_states world_stale_flag !! 7%Z = None
  ∧ address_ok sol_address
  ∧ fee_payments
      (db (receive_text None no_networks (text_from 7 sol_txid)
             (snd (run (enter_txid_callback 7 7 (get_fee_payment_token "SOL"))
                     (snd (run (process_withdrawal_address_input 7 7 sol_address)
                             world_stale_flag))))))
    = fee_payments (db world_stale_flag).
Proof.
  assert (idle_elsewhere world_stale_flag 7) as Hidle
    by (split; [apply not_elem_of_empty | by repeat split]).
  assert (user_states world_stale_flag !! 7%Z = None) as Hus by reflexivity.
  assert (address_ok sol_address) as Hok by (by vm_compute; lia).
  split; [exact Hidle|]. split; [exact Hus|]. split; [exact Hok|].
  edestruct (pay_fee_button_after_the_block_leads_nowhere None no_networks
               world_stale_flag 7 7 sol_address sol_txid _ "SOL" Hidle Hus
               eq_refl eq_refl Hok)
    as (_ & _ & Hfp & _).
  exact Hfp.
Defined.

Lemma text_of_one_user_leaves_the_others_alone_witness :
  2%Z ≠ from_user (text_from 1 sol_address)
  ∧ user_withdrawal_states
      (receive_text None no_networks (text_from 1 sol_address) world_two_users)
      !! 2%Z
    = user_withdrawal_states world_two_users !! 2%Z.
Proof.
  assert (2%Z ≠ from_user (text_from 1 sol_address)) as Hne by discriminate.
  split; [exact Hne|].
  destruct (text_of_one_user_leaves_the_others_alone None no_networks
              (text_from 1 sol_address) world_two_users 2 Hne)
    as (_ & _ & _ & _ & Hst & _).
  exact Hst.
Defined.

Lemma withdrawal_attempt_ends_in_the_security_block_witness :
  idle_elsewhere holder_world 7
  ∧ find_latest_verified_unconsumed (db holder_world) 7
      (get_fee_payment_token "SOL") = None
  ∧ validate_txid (PyStr (strip sol_txid)) "SOL" = true
  ∧ address_ok sol_address
  ∧ withdrawals
      (db (withdrawal_attempt None no_networks 7 7 "SOL" sol_txid sol_address
             holder_world))
    = withdrawals (db holder_world)
  ∧ portfolio
      (db (withdrawal_attempt None no_networks 7 7 "SOL" sol_txid sol_address
             holder_world))
    = portfolio (db holder_world)
  ∧ user_withdrawal_states
      (withdrawal_attempt None no_networks 7 7 "SOL" sol_txid sol_address
         holder_world) !! 7%Z = None.
Proof.
  assert (portfolio (db holder_world) !! (7%Z, "SOL")
          = Some {| amount := 5; avg_price := 20 |}) as Hh by reflexivity.
  assert (find_latest_verified_unconsumed (db holder_world) 7
            (get_fee_payment_token "SOL") = None) as Hnone by reflexivity.
  assert (validate_txid (PyStr (strip sol_txid)) "SOL" = true) as Hv
    by reflexivity.
  assert (strip sol_txid ∉ map fp_txid (fee_payments (db holder_world))) as Hnew
    by apply not_elem_of_nil.
  assert (address_ok sol_address) as Hok by (by vm_compute; lia).
  split; [exact holder_is_idle|]. split; [exact Hnone|]. split; [exact Hv|].
  split; [exact Hok|].
  destruct (withdrawal_attempt_ends_in_the_security_block None no_networks
              holder_world 7 7 "SOL" sol_txid sol_address _ holder_is_idle Hh
              Hnone Hv Hnew Hok)
    as (Hwd & Hport & _ & Hgone & _).
  split; [exact Hwd|]. split; [exact Hport | exact Hgone].
Defined.

(** The attempt of user 7 for 5 SOL, run: the payment is on the ledger,
    pending; there is no Withdrawal and the holding is whole. *)
Example withdrawal_attempt_of_sol :
  map (λ p, (fp_id p, fp_status p, fp_confirmations p))
    (fee_payments (db (withdrawal_attempt None no_networks 7 7 "SOL" sol_txid
                         sol_address holder_world)))
  = [(1%Z, pending, 0%nat)]
  ∧ withdrawals (db (withdrawal_attempt None no_networks 7 7 "SOL" sol_txid
                       sol_address holder_world)) = []
  ∧ held (db (withdrawal_attempt None no_networks 7 7 "SOL" sol_txid
                sol_address holder_world)) 7 "SOL" = 5%Q
  ∧ tasks (withdrawal_attempt None no_networks 7 7 "SOL" sol_txid sol_address
             holder_world) = [(1%Z, 1%nat)].
Proof. by vm_compute. Qed.

Lemma fee_verified_button_and_gate_differ_on_the_asset_witness :
  idle_elsewhere usdt_verified_world 7
  ∧ is_Some (find_latest_verified_unconsumed (db usdt_verified_world) 7 "USDT")
  ∧ find_latest_verified_unconsumed (db usdt_verified_world) 7
      (get_fee_payment_token "USDT") = None
  ∧ address_ok sol_address
  ∧ db (receive_text None no_networks (text_from 7 sol_address)
          (snd (run (fee_verified_callback 7 7 "USDT") usdt_verified_world)))
    = db usdt_verified_world
  ∧ user_withdrawal_states
      (receive_text None no_networks (text_from 7 sol_address)
         (snd (run (fee_verified_callback 7 7 "USDT") usdt_verified_world)))
      !! 7%Z = None.
Proof.
  assert (idle_elsewhere usdt_verified_world 7) as Hidle
    by (split; [apply not_elem_of_empty | by repeat split]).
  assert (portfolio (db usdt_verified_world) !! (7%Z, "USDT")
          = Some {| amount := 100; avg_price := 1 |}) as Hh by reflexivity.
  destruct (find_latest_verified_unconsumed (db usdt_verified_world) 7 "USDT")
    as [p|] eqn:Hp; [|discriminate Hp].
  assert (find_latest_verified_unconsumed (db usdt_verified_world) 7
            (get_fee_payment_token "USDT") = None) as Hnone by reflexivity.
  assert (address_ok sol_address) as Hok by (by vm_compute; lia).
  split; [exact Hidle|]. split; [by eexists|]. split; [exact Hnone|].
  split; [exact Hok|].
  destruct (fee_verified_button_and_gate_differ_on_the_asset None no_networks
              usdt_verified_world 7 7 "USDT" sol_address p _ Hidle Hh Hp Hnone
              Hok)
    as (_ & _ & _ & _ & Hdb & Hgone & _).
  split; [exact Hdb | exact Hgone].
Defined.

(* ===================================================================== *)
(** * Properties of the callback data with several fields *)
(* ===================================================================== *)

Lemma split_char_nonempty sep s : split_char sep s ≠ [].
Proof. destruct s as [|c r]; simpl; [done|]. by repeat case_match. Qed.

Lemma split_char_plain sep s r :
  sep ∉ s →
  split_char sep (s ++ sep :: r) = s :: split_char sep r.
Proof.
  induction s as [|c s IH]; simpl; intros Hs.
  - by rewrite N.eqb_refl.
  - apply not_elem_of_cons in Hs as [Hc Hs].
    destruct (N.eqb_spec c sep) as [->|_]; [done|].
    by rewrite IH.
Qed.

Lemma split_char_last sep s :
  sep ∉ s → split_char sep s = [s].
Proof.
  induction s as [|c s IH]; simpl; intros Hs; [done|].
  apply not_elem_of_cons in Hs as [Hc Hs].
  destruct (N.eqb_spec c sep) as [->|_]; [done|].
  by rewrite IH.
Qed.

Lemma split_char_head sep s :
  ∃ p ps, split_char sep s = p :: ps ∧ (sep ∉ p)
          ∧ (sep ∈ s → length p < length s).
Proof.
  induction s as [|c s (p & ps & Heq & Hp & Hlen)]; simpl.
  - exists [], []. split_and!; [done|apply not_elem_of_nil|by intros ?%elem_of_nil].
  - destruct (N.eqb_spec c sep) as [->|Hc].
    + eexists [], _. split_and!; [done|apply not_elem_of_nil|simpl; lia].
    + rewrite Heq. eexists _, _. split_and!; [done| |].
      * by apply not_elem_of_cons.
      * intros [?|Hin]%elem_of_cons; [done|]. simpl. specialize (Hlen Hin). lia.
Qed.

Lemma join_split_char sep s : join_char sep (split_char sep s) = s.
Proof.
  induction s as [|c s IH]; simpl; [done|].
  destruct (N.eqb_spec c sep) as [->|_].
  - pose proof (split_char_nonempty sep s).
    destruct (split_char sep s) eqn:E; [done|]. simpl in *. by rewrite IH.
  - pose proof (split_char_nonempty sep s).
    destruct (split_char sep s) as [|p ps] eqn:E; [done|].
    simpl in *. destruct ps; simpl in *; by rewrite <-IH.
Qed.

Lemma split_char_snoc sep a u :
  sep ∉ u → split_char sep (a ++ sep :: u) = split_char sep a ++ [u].
Proof.
  intros Hu. induction a as [|c a IH]; simpl.
  - by rewrite N.eqb_refl, split_char_last.
  - destruct (N.eqb_spec c sep) as [->|_]; [by rewrite IH|].
    rewrite IH. pose proof (split_char_nonempty sep a).
    by destruct (split_char sep a).
Qed.

Lemma codes_app s1 s2 : codes (s1 +:+ s2) = codes s1 ++ codes s2.
Proof. induction s1 as [|a s1 IH]; simpl; [done|by rewrite IH]. Qed.

Lemma pretty_N_go_chars x s c :
  c ∈ codes (pretty_N_go x s) → c ∈ codes s ∨ (48 ≤ c ≤ 57)%N.
Proof.
  revert s. induction (N.lt_wf_0 x) as [x _ IH]; intros s Hc.
  assert (x = 0 ∨ 0 < x)%N as [->|Hx] by lia.
  - left. by rewrite pretty_N_go_0 in Hc.
  - rewrite pretty_N_go_step in Hc by done.
    apply IH in Hc; [|by apply N.div_lt].
    destruct Hc as [Hc|Hc]; [|by right].
    simpl in Hc. apply elem_of_cons in Hc as [->|Hc]; [|by left].
    right. unfold pretty_N_char. repeat case_match; cbn; lia.
Qed.

Lemma pretty_Z_chars (z : Z) c :
  c ∈ codes (pretty z) → c = 45%N ∨ (48 ≤ c ≤ 57)%N.
Proof.
  assert (∀ p : positive, c ∈ codes (pretty p) → (48 ≤ c ≤ 57)%N) as Hpos.
  { intros p. unfold pretty, pretty_positive, pretty, pretty_N.
    case_decide; [done|]. intros [Hc|Hc]%pretty_N_go_chars; [|done].
    by apply elem_of_nil in Hc. }
  destruct z as [|p|p].
  - change (pretty 0%Z) with "0".
    intros Hc%list_elem_of_singleton. subst c. right. cbn. lia.
  - change (pretty (Z.pos p)) with (pretty p). intros Hc. right. eauto.
  - change (pretty (Z.neg p)) with ("-" +:+ pretty p).
    rewrite codes_app. intros [Hc|Hc]%elem_of_app.
    + apply list_elem_of_singleton in Hc. by left.
    + right. eauto.
Qed.

Lemma pretty_Z_no_underscore (z : Z) : underscore ∉ codes (pretty z).
Proof. intros [H|H]%pretty_Z_chars; [done|]. unfold underscore in H. lia. Qed.

Lemma underscore_prefix (a b : string) r :
  underscore ∉ codes a → underscore ∉ codes b →
  split_char underscore (codes a ++ underscore :: codes b ++ underscore :: r)
  = codes a :: codes b :: split_char underscore r.
Proof. intros Ha Hb. by rewrite !split_char_plain. Qed.

Lemma not_underscore (s : string) :
  forallb (λ c, negb (N.eqb c underscore)) (codes s) = true →
  underscore ∉ codes s.
Proof.
  rewrite forallb_forall. intros H Hin%list_elem_of_In.
  apply H in Hin. by rewrite N.eqb_refl in Hin.
Qed.

Lemma buy_amount_parts r :
  split_char underscore (codes "buy_amount_" ++ r)
  = codes "buy" :: codes "amount" :: split_char underscore r.
Proof.
  change (codes "buy_amount_" ++ r)
    with (codes "buy" ++ underscore :: codes "amount" ++ underscore :: r).
  by apply underscore_prefix; apply not_underscore.
Qed.

Lemma confirm_deposit_parts r :
  split_char underscore (codes "confirm_deposit_" ++ r)
  = codes "confirm" :: codes "deposit" :: split_char underscore r.
Proof.
  change (codes "confirm_deposit_" ++ r)
    with (codes "confirm" ++ underscore :: codes "deposit" ++ underscore :: r).
  by apply underscore_prefix; apply not_underscore.
Qed.

Lemma sell_percent_parts r :
  split_char underscore (codes "sell_percent_" ++ r)
  = codes "sell" :: codes "percent" :: split_char underscore r.
Proof.
  change (codes "sell_percent_" ++ r)
    with (codes "sell" ++ underscore :: codes "percent" ++ underscore :: r).
  by apply underscore_prefix; apply not_underscore.
Qed.

Lemma split_char_first sep token r :
  sep ∈ token →
  ∃ p ps, split_char sep (token ++ sep :: r) = p :: ps ∧ p ≠ token.
Proof.
  intros Hin. destruct (split_char_head sep (token ++ sep :: r))
    as (p & ps & Heq & Hp & _).
  exists p, ps. split; [done|]. by intros ->.
Qed.

(** X18: the callback data with several fields are read back by
    [data.split("_")]: the token and the amount of a [buy_amount_] button
    and of a [confirm_deposit_] button, and the token and the percentage
    of a [sell_percent_] button, come back as they were written exactly
    when the token holds no underscore (an amount such as [usd_10] may
    hold one); and whatever data reaches the branches of [buy_amount_] and
    [confirm_deposit_], [parts[2]] exists: their prefix holds two
    underscores. *)
Theorem callback_fields_round_trip (token_symbol value : pystr)
    (user_id percentage : Z) :
  (buy_amount_fields (buy_amount_data token_symbol value)
   = Some (token_symbol, value) ↔ underscore ∉ token_symbol)
  ∧ (confirm_deposit_fields (confirm_deposit_data token_symbol value user_id)
     = Some (token_symbol, value) ↔ underscore ∉ token_symbol)
  ∧ (sell_percent_fields (sell_percent_data token_symbol percentage)
     = Some (token_symbol, codes (pretty percentage))
     ↔ underscore ∉ token_symbol)
  ∧ (∀ data, startswith data (codes "buy_amount_") = true →
             is_Some (buy_amount_fields data))
  ∧ (∀ data, startswith data (codes "confirm_deposit_") = true →
             is_Some (confirm_deposit_fields data)).
Proof.
  pose proof (pretty_Z_no_underscore user_id) as Hu.
  pose proof (pretty_Z_no_underscore percentage) as Hp.
  unfold buy_amount_fields, confirm_deposit_fields, sell_percent_fields,
    buy_amount_data, confirm_deposit_data, sell_percent_data.
  rewrite buy_amount_parts, confirm_deposit_parts, sell_percent_parts.
  split_and!.
  - split.
    + intros H Hin.
      destruct (split_char_first _ _ value Hin) as (p & ps & Heq & Hne).
      rewrite Heq in H. simpl in H. congruence.
    + intros Hout. rewrite split_char_plain by done. simpl.
      by rewrite drop_0, join_split_char.
  - split.
    + intros H Hin.
      destruct (split_char_first _ _
                  (value ++ underscore :: codes (pretty user_id)) Hin)
        as (p & ps & Heq & Hne).
      rewrite Heq in H. simpl in H. congruence.
    + intros Hout. rewrite split_char_plain, split_char_snoc by done.
      unfold from_third_to_last. simpl. rewrite length_app, drop_0. simpl.
      rewrite Nat.add_sub.
      by rewrite take_app_length, join_split_char.
  - split.
    + intros H Hin.
      destruct (split_char_first _ _ (codes (pretty percentage)) Hin)
        as (p & ps & Heq & Hne).
      rewrite Heq in H. simpl in H. case_match; [|done].
      destruct ps; simpl in H; congruence.
    + intros Hout. by rewrite split_char_plain, split_char_last.
  - intros data (r & ->)%startswith_app. rewrite buy_amount_parts.
    pose proof (split_char_nonempty underscore r).
    by destruct (split_char underscore r).
  - intros data (r & ->)%startswith_app. rewrite confirm_deposit_parts.
    pose proof (split_char_nonempty underscore r).
    by destruct (split_char underscore r).
Qed.

(* ===================================================================== *)
(** * Properties of the buttons and of the admin branches *)
(* ===================================================================== *)

Lemma candidates_spec x table r :
  fst <$> List.find (λ b, guard_holds (x ++ r) (snd b)) table
  ∈ candidates x table.
Proof.
  induction table as [|[line g] rest IH]; simpl.
  - apply list_elem_of_singleton. done.
  - destruct (guard_apart x [] g) eqn:Hap.
    + rewrite (guard_apart_spec _ _ _ r Hap) by apply not_elem_of_nil. done.
    + destruct (guard_holds (x ++ r) g) eqn:Hg.
      * simpl. destruct g; simpl; try apply list_elem_of_here.
        case_match; apply list_elem_of_here.
      * destruct g; simpl; try (apply list_elem_of_further, IH).
        case_match eqn:Hp; [|apply list_elem_of_further, IH].
        simpl in Hg. by rewrite (startswith_prefix _ _ _ Hp) in Hg.
Qed.

Lemma find_guard (table : list (nat * guard)) data line :
  fst <$> List.find (λ b, guard_holds data (snd b)) table = Some line →
  ∃ g, g ∈ map snd (List.filter (λ b, Nat.eqb (fst b) line) table)
       ∧ guard_holds data g = true.
Proof.
  destruct (List.find _ table) as [[l g]|] eqn:Hf; [|done].
  intros [= ->]. apply find_some in Hf as [Hin Hg]. exists g. split; [|done].
  apply list_elem_of_fmap. exists (line, g). split; [done|].
  apply list_elem_of_In, filter_In. split; [done|]. apply Nat.eqb_refl.
Qed.

Lemma selected_guard data line :
  selected_branch data = Some line →
  ∃ g, g ∈ guards_of line ∧ guard_holds data g = true.
Proof. apply find_guard. Qed.


Ltac compute_in H :=
  match type of H with
  | _ ∈ ?c => let c' := eval vm_compute in c in change c with c' in H
  end.

(** X19: of the 141 callback data the file writes as literals, nineteen
    have no code behind them: thirteen fall to the final [else] of the
    dispatcher, which answers every data alike, and six reach the branch of
    [admin_], [wallet_] or [withdraw_type_] with a rest that no comparison
    of its inner chain accepts, so that nothing runs. The buttons built as
    [manage_follow_<id>] (line 4924) fall to the [else] for every id. *)
Theorem buttons_without_code :
  List.filter (λ b, negb (handled (codes (snd b)))) literal_buttons
  = unhandled_buttons
  ∧ ∀ id, selected_branch (codes "manage_follow_" ++ id) = None.
Proof.
  split; [vm_compute; reflexivity|]. intros id.
  pose proof (candidates_spec (codes "manage_follow_") callback_branches id) as H.
  compute_in H. by apply list_elem_of_singleton in H.
Qed.

Lemma selected_among x r (lines : list nat) :
  candidates x callback_branches = Some <$> lines →
  ∃ line, selected_branch (x ++ r) = Some line ∧ line ∈ lines.
Proof.
  intros Hc. pose proof (candidates_spec x callback_branches r) as H.
  rewrite Hc in H. apply list_elem_of_fmap in H as (line & Hl & Hin).
  by exists line.
Qed.

Lemma among_checked (lines : list nat) line :
  forallb (λ l, bool_decide (l ∈ admin_checked_branches)) lines = true →
  line ∈ lines → line ∈ admin_checked_branches.
Proof.
  rewrite forallb_forall. intros H Hin%list_elem_of_In.
  apply H in Hin. by apply bool_decide_eq_true in Hin.
Qed.

(** X20: the branches that begin with the admin check are selected by
    the data of the admin functions and by no other: a data runs one of
    them exactly when it is [menu_admin] or begins with [admin_],
    [approve_deposit_] or [reject_deposit_]. No data with one of these
    prefixes reaches a branch without the check. *)
Theorem admin_data_meets_the_check (data : pystr) :
  (∃ line, selected_branch data = Some line ∧ line ∈ admin_checked_branches)
  ↔ data = codes "menu_admin"
    ∨ startswith data (codes "admin_") = true
    ∨ startswith data (codes "approve_deposit_") = true
    ∨ startswith data (codes "reject_deposit_") = true.
Proof.
  split.
  - intros (line & Hsel & Hin).
    apply selected_guard in Hsel as (g & Hg & Hholds).
    unfold admin_checked_branches in Hin.
    repeat (apply elem_of_cons in Hin as [->|Hin]);
      [..|by apply elem_of_nil in Hin];
      compute_in Hg; apply list_elem_of_singleton in Hg as ->;
      unfold guard_holds in Hholds.
    + left. by apply bool_decide_eq_true in Hholds.
    + right; left. apply bool_decide_eq_true in Hholds. by subst.
    + by right; right; left.
    + by right; right; right.
    + right; left. apply startswith_app in Hholds as (r & ->).
      apply startswith_app. by exists (codes "curr_" ++ r).
    + by right; left.
  - intros [->|[H|[H|H]]].
    + exists 1193%nat. split; [vm_compute; reflexivity|].
      unfold admin_checked_branches. apply list_elem_of_here.
    + apply startswith_app in H as (r & ->).
      destruct (selected_among (codes "admin_") r [1221; 1468; 1520]%nat)
        as (line & Hsel & Hin); [vm_compute; reflexivity|].
      exists line. split; [done|].
      eapply among_checked; [|exact Hin]. vm_compute. reflexivity.
    + apply startswith_app in H as (r & ->).
      destruct (selected_among (codes "approve_deposit_") r [1276]%nat)
        as (line & Hsel & Hin); [vm_compute; reflexivity|].
      exists line. split; [done|].
      eapply among_checked; [|exact Hin]. vm_compute. reflexivity.
    + apply startswith_app in H as (r & ->).
      destruct (selected_among (codes "reject_deposit_") r [1377]%nat)
        as (line & Hsel & Hin); [vm_compute; reflexivity|].
      exists line. split; [done|].
      eapply among_checked; [|exact Hin]. vm_compute. reflexivity.
Qed.

Section AdminFlow.
Variable ADMIN_USER_ID : option Z.

Lemma admin_action_of (user_id : Z) (button : string) (w : World) :
  is_admin ADMIN_USER_ID user_id = true →
  admin_branch ADMIN_USER_ID user_id (codes button) w
  = Some
      (let action := str_replace (codes button) (codes "admin_") [] in
       if bool_decide (action = codes "add_balance") then
         start_balance_management user_id "add" w
       else if bool_decide (action = codes "subtract_balance") then
         start_balance_management user_id "subtract" w
       else if bool_decide (action = codes "ban_user") then
         start_user_ban_process user_id w
       else if bool_decide (action = codes "unban_user") then
         start_user_unban_process user_id w
       else w).
Proof. intros Ha. unfold admin_branch. by rewrite Ha. Qed.

(** X21: the button "Cancel" of a balance operation ([admin_balance_mgmt])
    shows the balance screen and leaves the operation where it was. When
    the admin then starts a ban ([admin_ban_user]), both operations are in
    progress, and the router, which looks at the balance operations first,
    hands the user id typed for the ban to [process_admin_balance_input]. *)
Theorem cancel_keeps_the_balance_operation (w : World) (m : text_message)
    (start action : string) :
  is_admin ADMIN_USER_ID (from_user m) = true →
  from_user m ∉ users_inputting_trader_id w →
  users_connecting_wallet w !! from_user m = None →
  (start, action) ∈ [("admin_add_balance", "add");
                     ("admin_subtract_balance", "subtract")] →
  let admin := from_user m in
  let w1 := start_balance_management admin action w in
  let w2 := start_user_ban_process admin w1 in
  Forall (λ button, selected_branch (codes button) = Some 1520%nat)
    [start; "admin_balance_mgmt"; "admin_ban_user"]
  ∧ admin_branch ADMIN_USER_ID admin (codes start) w = Some w1
  ∧ admin_branch ADMIN_USER_ID admin (codes "admin_balance_mgmt") w1 = Some w1
  ∧ admin_branch ADMIN_USER_ID admin (codes "admin_ban_user") w1 = Some w2
  ∧ admin_balance_operations w2 !! admin
    = Some {| op_action := action; op_step := "user_id" |}
  ∧ admin_ban_operations w2 !! admin
    = Some {| op_action := "ban"; op_step := "user_id" |}
  ∧ handle_text_input ADMIN_USER_ID m w2
    = (w2, [call_process_admin_balance_input (chat m) admin (strip (text m))]).
Proof.
  intros Ha Htr Hwal Hin admin w1 w2.
  assert (admin_balance_operations w2 !! admin
          = Some {| op_action := action; op_step := "user_id" |}) as Hbal.
  { unfold w2, w1. simpl. apply lookup_insert_eq. }
  split_and!.
  - repeat (apply elem_of_cons in Hin as [[= -> ->]|Hin]);
      [..|by apply elem_of_nil in Hin];
      repeat constructor; vm_compute; reflexivity.
  - rewrite admin_action_of by done.
    repeat (apply elem_of_cons in Hin as [[= -> ->]|Hin]);
      [..|by apply elem_of_nil in Hin]; reflexivity.
  - by rewrite admin_action_of.
  - by rewrite admin_action_of.
  - done.
  - unfold w2. simpl. apply lookup_insert_eq.
  - unfold handle_text_input. subst admin.
    rewrite bool_decide_eq_false_2 by done.
    replace (users_connecting_wallet w2 !! from_user m) with (@None string)
      by done.
    by rewrite Hbal, Ha.
Qed.

End AdminFlow.

Lemma cancel_keeps_the_balance_operation_witness :
  is_admin (Some 1%Z) 1 = true
  ∧ handle_text_input (Some 1%Z) (text_from 1 (codes "42"))
      (start_user_ban_process 1
         (start_balance_management 1 "add" empty_world))
    = (start_user_ban_process 1
         (start_balance_management 1 "add" empty_world),
       [call_process_admin_balance_input 1 1 (codes "42")]).
Proof.
  assert (is_admin (Some 1%Z) 1 = true) as Ha by reflexivity.
  split; [exact Ha|].
  refine (proj2 (proj2 (proj2 (proj2 (proj2 (proj2
    (cancel_keeps_the_balance_operation (Some 1%Z) empty_world
       (text_from 1 (codes "42")) "admin_add_balance" "add" Ha _ _ _))))))).
  - apply not_elem_of_empty.
  - reflexivity.
  - apply list_elem_of_here.
Defined.

(* ===================================================================== *)
(** * The completion time shown and the time slept *)
(* ===================================================================== *)

Ltac not_a_key Hout :=
  let Hin := fresh in
  intros Hin; apply Hout; simpl in Hin |- *;
  repeat (apply elem_of_cons in Hin as [->|Hin];
          [repeat first [by left | right]|]);
  by apply elem_of_nil in Hin.

(** X22: the "average completion time" shown in the progress update that
    follows the confirmation count [confirmation] is, for every token but
    BTC, exactly the time the coroutine still sleeps before it writes the
    last count: a whole number of minutes, worded in the singular for one
    minute; for BTC the update shows 3 minutes where the coroutine sleeps
    4. *)
Theorem shown_estimate_and_remaining_sleep (token : string) (confirmation : nat) :
  (1 ≤ confirmation < get_token_confirmation_requirement token)%nat →
  let required := get_token_confirmation_requirement token in
  if String.eqb token "BTC" then
    get_estimated_completion_time token confirmation required = "3 minutes"
    ∧ remaining_sleep token confirmation = 240%nat
  else
    ∃ n : nat,
      remaining_sleep token confirmation = (60 * n)%nat
      ∧ get_estimated_completion_time token confirmation required
        = pretty n +:+ " minute" +:+ (if (1 <? n)%nat then "s" else "").
Proof.
  intros Hc required. subst required.
  destruct (decide (token ∈ map fst confirmation_requirements)) as [Hin|Hout].
  - simpl in Hin.
    repeat (apply elem_of_cons in Hin as [->|Hin]);
      [..|by apply elem_of_nil in Hin];
      match type of Hc with
      | context [get_token_confirmation_requirement ?t] =>
          let v := eval vm_compute in (get_token_confirmation_requirement t) in
          change (get_token_confirmation_requirement t) with v in Hc
      end;
      destruct confirmation as [|[|[|[|[|[|?]]]]]]; try lia;
      match goal with
      | |- if ?b then _ else _ =>
          let v := eval vm_compute in b in change b with v; cbv iota
      end;
      first [ split; vm_compute; reflexivity
            | match goal with
              | |- ∃ n, remaining_sleep ?t ?c = _ ∧ _ =>
                  exists (remaining_sleep t c / 60)%nat
              end; split; vm_compute; reflexivity ].
  - assert (String.eqb token "BTC" = false) as ->.
    { apply String.eqb_neq. intros ->. apply Hout. simpl. by left. }
    unfold remaining_sleep, sleep_schedule, get_estimated_completion_time,
      get_token_confirmation_requirement in *.
    rewrite !dict_get_absent in * by not_a_key Hout.
    destruct confirmation as [|[|[|?]]]; try lia.
    + exists 4%nat. split; vm_compute; reflexivity.
    + exists 2%nat. split; vm_compute; reflexivity.
Qed.

Lemma shown_estimate_and_remaining_sleep_witness :
  (1 ≤ 1 < get_token_confirmation_requirement "ETH")%nat
  ∧ ∃ n : nat,
      remaining_sleep "ETH" 1 = (60 * n)%nat
      ∧ get_estimated_completion_time "ETH" 1
          (get_token_confirmation_requirement "ETH")
        = pretty n +:+ " minute" +:+ (if (1 <? n)%nat then "s" else "").
Proof.
  assert (1 ≤ 1 < get_token_confirmation_requirement "ETH")%nat as Hc
    by (vm_compute; lia).
  split; [exact Hc|].
  exact (shown_estimate_and_remaining_sleep "ETH" 1 Hc).
Defined.

(* ===================================================================== *)
(** * Properties of the approval of deposits *)
(* ===================================================================== *)

Lemma not_occurs_without (c : N) old a b s :
  old = a ++ c :: b → c ∉ s → ¬ occurs old s.
Proof.
  intros -> Hc (x & y & ->). apply Hc.
  rewrite !elem_of_app, elem_of_cons. auto.
Qed.

Lemma callback_token_absent (prefix : string) (token : pystr) :
  codes prefix ≠ [] → ¬ occurs (codes prefix) token →
  str_replace (callback_data prefix token) (codes prefix) [] = token.
Proof.
  intros Hne Hno. unfold callback_data, str_replace.
  destruct (codes prefix) as [|c p] eqn:Hc; [done|].
  rewrite replace_from_occurrence by done. simpl app at 1.
  by apply replace_from_absent.
Qed.

Lemma deposit_id_chars user_id time c :
  c ∈ deposit_id user_id time → char_in "DEP_-0123456789" c = true.
Proof.
  assert (∀ z : Z, c ∈ codes (pretty z) → char_in "DEP_-0123456789" c = true)
    as Hz.
  { intros z [->|Hc]%pretty_Z_chars; [done|].
    assert (c ∈ [48; 49; 50; 51; 52; 53; 54; 55; 56; 57]%N) as Hin.
    { assert (c = 48 ∨ c = 49 ∨ c = 50 ∨ c = 51 ∨ c = 52 ∨ c = 53 ∨ c = 54
              ∨ c = 55 ∨ c = 56 ∨ c = 57)%N as Hd by lia.
      repeat (destruct Hd as [->|Hd]; [repeat first [by left | right]|]).
      subst c. repeat first [by left | right]. }
    repeat (apply elem_of_cons in Hin as [->|Hin]; [done|]).
    by apply elem_of_nil in Hin. }
  unfold deposit_id. rewrite !elem_of_app, elem_of_cons.
  intros [Hc|[Hc|[->|Hc]]]; eauto.
  vm_compute in Hc.
  repeat (apply elem_of_cons in Hc as [->|Hc]; [done|]).
  by apply elem_of_nil in Hc.
Qed.

Lemma deposit_id_round_trip (prefix : string) user_id time c :
  c ∈ codes prefix → char_in "DEP_-0123456789" c = false →
  str_replace (callback_data prefix (deposit_id user_id time)) (codes prefix) []
  = deposit_id user_id time.
Proof.
  intros Hc Hout. apply callback_token_absent.
  - intros Hnil. rewrite Hnil in Hc. by apply elem_of_nil in Hc.
  - apply list_elem_of_split in Hc as (a & b & Hab).
    eapply not_occurs_without; [exact Hab|].
    intros Hin%deposit_id_chars. congruence.
Qed.

Section DepositProofs.
Variable ADMIN_USER_ID : option Z.

Lemma approve_data user_id time :
  str_replace (callback_data "approve_deposit_" (deposit_id user_id time))
    (codes "approve_deposit_") []
  = deposit_id user_id time.
Proof.
  apply (deposit_id_round_trip _ _ _ 97%N); [|done].
  vm_compute. apply list_elem_of_here.
Qed.

Lemma reject_data user_id time :
  str_replace (callback_data "reject_deposit_" (deposit_id user_id time))
    (codes "reject_deposit_") []
  = deposit_id user_id time.
Proof.
  apply (deposit_id_round_trip _ _ _ 114%N); [|done].
  vm_compute. apply list_elem_of_here.
Qed.

Lemma approve_outcome o admin user_id time s d :
  is_admin ADMIN_USER_ID admin = true →
  pending_deposits s !! deposit_id user_id time = Some d →
  approve_deposit_callback ADMIN_USER_ID o admin
    (callback_data "approve_deposit_" (deposit_id user_id time)) s
  = if Qeq_bool (dep_amount d) 0 then (PopupApprovalError, s)
    else if update_portfolio_raises o then (PopupApprovalError, s)
    else
      let credited :=
        update_portfolio (desk_db s) (dep_user_id d) (dep_token_symbol d)
          (dep_amount d) (dep_cost_usd d / dep_amount d) in
      if add_trade_history_raises o then
        (PopupApprovalError,
         {| pending_deposits := pending_deposits s; desk_db := credited;
            trade_history := trade_history s; notices := notices s |})
      else
        (PopupDepositApproved (deposit_id user_id time),
         {| pending_deposits :=
              delete (deposit_id user_id time) (pending_deposits s);
            desk_db := credited;
            trade_history :=
              trade_history s ++
              [{| tr_user_id := dep_user_id d; tr_type := "DEPOSIT";
                  tr_token := dep_token_symbol d; tr_amount := dep_amount d;
                  tr_price := (dep_cost_usd d / dep_amount d)%Q;
                  tr_total := dep_cost_usd d |}];
            notices :=
              notices s ++
              [(dep_user_id d,
                NoticeDepositApproved (deposit_id user_id time) (dep_amount d)
                  (dep_token_symbol d) (dep_cost_usd d))] |}).
Proof.
  intros Ha Hd. unfold approve_deposit_callback.
  rewrite Ha, approve_data. simpl negb. cbv iota. by rewrite Hd.
Qed.

Lemma settled_deposit_not_found o admin user_id time s :
  is_admin ADMIN_USER_ID admin = true →
  pending_deposits s !! deposit_id user_id time = None →
  approve_deposit_callback ADMIN_USER_ID o admin
    (callback_data "approve_deposit_" (deposit_id user_id time)) s
  = (PopupDepositNotFound, s)
  ∧ reject_deposit_callback ADMIN_USER_ID admin
      (callback_data "reject_deposit_" (deposit_id user_id time)) s
    = (PopupDepositNotFound, s).
Proof.
  intros Ha Hd. unfold approve_deposit_callback, reject_deposit_callback.
  rewrite Ha, approve_data, reject_data. simpl negb. cbv iota. by rewrite Hd.
Qed.

(** X23: a pending deposit is settled at most once. For the admin and a
    deposit under an id of the form [DEP_<user>_<time>], the press of
    "Approve" is answered "approved" exactly when the amount is not zero
    and neither storage call raises, and then the tokens are credited once
    through [update_portfolio], one trade is recorded and the entry is
    removed; "Reject" removes the entry and leaves the store alone; after
    either, every further press of "Approve" or "Reject" for that id is
    answered "Deposit not found or already processed" and changes
    nothing. The store's [update_portfolio] is modelled from the spec. *)
Theorem deposit_is_settled_once (o o' : storage_outcome)
    (admin user_id time : Z) (s : Desk) (d : deposit) :
  is_admin ADMIN_USER_ID admin = true →
  pending_deposits s !! deposit_id user_id time = Some d →
  let id := deposit_id user_id time in
  let approve := approve_deposit_callback ADMIN_USER_ID o admin
                   (callback_data "approve_deposit_" id) s in
  let reject := reject_deposit_callback ADMIN_USER_ID admin
                  (callback_data "reject_deposit_" id) s in
  (fst approve = PopupDepositApproved id
   ↔ ¬ Qeq (dep_amount d) 0 ∧ update_portfolio_raises o = false
     ∧ add_trade_history_raises o = false)
  ∧ (fst approve = PopupDepositApproved id →
     desk_db (snd approve)
     = update_portfolio (desk_db s) (dep_user_id d) (dep_token_symbol d)
         (dep_amount d) (dep_cost_usd d / dep_amount d)
     ∧ pending_deposits (snd approve) = delete id (pending_deposits s)
     ∧ length (trade_history (snd approve)) = S (length (trade_history s)))
  ∧ fst reject = PopupDepositRejected id
  ∧ desk_db (snd reject) = desk_db s
  ∧ pending_deposits (snd reject) = delete id (pending_deposits s)
  ∧ (∀ settled,
       settled = snd reject
       ∨ (fst approve = PopupDepositApproved id ∧ settled = snd approve) →
       approve_deposit_callback ADMIN_USER_ID o' admin
         (callback_data "approve_deposit_" id) settled
       = (PopupDepositNotFound, settled)
       ∧ reject_deposit_callback ADMIN_USER_ID admin
           (callback_data "reject_deposit_" id) settled
         = (PopupDepositNotFound, settled)).
Proof.
  intros Ha Hd id approve reject.
  assert (reject
          = (PopupDepositRejected id,
             {| pending_deposits := delete id (pending_deposits s);
                desk_db := desk_db s; trade_history := trade_history s;
                notices := notices s
                           ++ [(dep_user_id d, NoticeDepositRejected id)] |}))
    as Hrej.
  { subst reject. unfold id. unfold reject_deposit_callback.
    rewrite Ha, reject_data. simpl negb. cbv iota. by rewrite Hd. }
  pose proof (approve_outcome o admin user_id time s d Ha Hd) as Hap.
  fold id in Hap. fold approve in Hap.
  assert (fst approve = PopupDepositApproved id
          → ¬ Qeq (dep_amount d) 0 ∧ update_portfolio_raises o = false
            ∧ add_trade_history_raises o = false) as Hwhen.
  { rewrite Hap. destruct (Qeq_bool (dep_amount d) 0) eqn:Hz; [done|].
    destruct (update_portfolio_raises o); [done|].
    destruct (add_trade_history_raises o); [done|]. intros _.
    split; [|done]. by apply Qeq_bool_neq. }
  split_and!.
  - split; [exact Hwhen|]. intros (Hnz & Hu & Hh). rewrite Hap.
    destruct (Qeq_bool (dep_amount d) 0) eqn:Hz.
    { by apply Qeq_bool_iff in Hz. }
    by rewrite Hu, Hh.
  - intros Hok. destruct (Hwhen Hok) as (Hnz & Hu & Hh). rewrite Hap.
    destruct (Qeq_bool (dep_amount d) 0) eqn:Hz.
    { by apply Qeq_bool_iff in Hz. }
    rewrite Hu, Hh. simpl. split_and!; [done..|].
    rewrite length_app. simpl. lia.
  - by rewrite Hrej.
  - by rewrite Hrej.
  - by rewrite Hrej.
  - intros settled [->|[Hok ->]]; apply settled_deposit_not_found; try done.
    + rewrite Hrej. simpl. apply lookup_delete_eq.
    + destruct (Hwhen Hok) as (Hnz & Hu & Hh). rewrite Hap.
      destruct (Qeq_bool (dep_amount d) 0) eqn:Hz.
      { by apply Qeq_bool_iff in Hz. }
      rewrite Hu, Hh. simpl. apply lookup_delete_eq.
Qed.

(** X24: the approval is not atomic. The entry is removed only after both
    storage calls have returned (line 1301), so when [add_trade_history]
    raises after [update_portfolio] has credited the tokens, the admin is
    answered "Error processing approval. Please try again." while the
    tokens stay credited and the deposit stays pending; the approval
    pressed again credits the same deposit a second time. The store's
    [update_portfolio] is modelled from the spec. *)
Theorem approval_is_not_atomic (admin user_id time : Z) (s : Desk)
    (d : deposit) :
  is_admin ADMIN_USER_ID admin = true →
  pending_deposits s !! deposit_id user_id time = Some d →
  ¬ Qeq (dep_amount d) 0 →
  let id := deposit_id user_id time in
  let press o := approve_deposit_callback ADMIN_USER_ID o admin
                   (callback_data "approve_deposit_" id) in
  let history_fails := {| update_portfolio_raises := false;
                          add_trade_history_raises := true |} in
  let all_well := {| update_portfolio_raises := false;
                     add_trade_history_raises := false |} in
  let s1 := snd (press history_fails s) in
  let s2 := snd (press all_well s1) in
  fst (press history_fails s) = PopupApprovalError
  ∧ pending_deposits s1 !! id = Some d
  ∧ fst (press all_well s1) = PopupDepositApproved id
  ∧ pending_deposits s2 !! id = None
  ∧ Qeq (held (desk_db s2) (dep_user_id d) (dep_token_symbol d))
        (held (desk_db s) (dep_user_id d) (dep_token_symbol d)
         + dep_amount d + dep_amount d)
  ∧ length (trade_history s2) = S (length (trade_history s)).
Proof.
  intros Ha Hd Hnz id press history_fails all_well s1 s2.
  assert (Qeq_bool (dep_amount d) 0 = false) as Hz.
  { destruct (Qeq_bool (dep_amount d) 0) eqn:Hz; [|done].
    by apply Qeq_bool_iff in Hz. }
  assert (press history_fails s
          = (PopupApprovalError,
             {| pending_deposits := pending_deposits s;
                desk_db := update_portfolio (desk_db s) (dep_user_id d)
                             (dep_token_symbol d) (dep_amount d)
                             (dep_cost_usd d / dep_amount d);
                trade_history := trade_history s; notices := notices s |}))
    as H1.
  { subst press. cbv beta. unfold id.
    rewrite (approve_outcome _ _ _ _ _ d) by done. by rewrite Hz. }
  assert (pending_deposits s1 !! id = Some d) as Hd1.
  { subst s1. by rewrite H1. }
  pose proof (approve_outcome all_well admin user_id time s1 d Ha Hd1) as H2.
  rewrite Hz in H2. simpl in H2. fold id in H2.
  change (approve_deposit_callback ADMIN_USER_ID all_well admin
            (callback_data "approve_deposit_" id) s1)
    with (press all_well s1) in H2.
  split_and!.
  - by rewrite H1.
  - done.
  - by rewrite H2.
  - subst s2. rewrite H2. simpl. apply lookup_delete_eq.
  - subst s2. rewrite H2. simpl. subst s1. rewrite H1. simpl.
    unfold held, update_portfolio. simpl.
    rewrite !lookup_insert_eq.
    destruct (portfolio (desk_db s) !! (dep_user_id d, dep_token_symbol d));
      simpl; ring.
  - subst s2. rewrite H2. simpl. rewrite length_app. subst s1.
    rewrite H1. simpl. lia.
Qed.

End DepositProofs.

Lemma deposit_is_settled_once_witness :
  is_admin (Some 1%Z) 1 = true
  ∧ pending_deposits sample_desk !! deposit_id 7 1700000000
    = Some sample_deposit
  ∧ fst (reject_deposit_callback (Some 1%Z) 1
           (callback_data "reject_deposit_" (deposit_id 7 1700000000))
           sample_desk)
    = PopupDepositRejected (deposit_id 7 1700000000).
Proof.
  assert (is_admin (Some 1%Z) 1 = true) as Ha by reflexivity.
  assert (pending_deposits sample_desk !! deposit_id 7 1700000000
          = Some sample_deposit) as Hd by apply lookup_singleton_eq.
  split; [exact Ha|]. split; [exact Hd|].
  destruct (deposit_is_settled_once (Some 1%Z)
              {| update_portfolio_raises := false;
                 add_trade_history_raises := false |}
              {| update_portfolio_raises := false;
                 add_trade_history_raises := false |}
              1 7 1700000000 sample_desk sample_deposit Ha Hd)
    as (_ & _ & Hrej & _).
  exact Hrej.
Defined.

Lemma approval_is_not_atomic_witness :
  is_admin (Some 1%Z) 1 = true
  ∧ pending_deposits sample_desk !! deposit_id 7 1700000000
    = Some sample_deposit
  ∧ ¬ Qeq (dep_amount sample_deposit) 0
  ∧ fst (approve_deposit_callback (Some 1%Z)
           {| update_portfolio_raises := false;
              add_trade_history_raises := true |} 1
           (callback_data "approve_deposit_" (deposit_id 7 1700000000))
           sample_desk)
    = PopupApprovalError.
Proof.
  assert (is_admin (Some 1%Z) 1 = true) as Ha by reflexivity.
  assert (pending_deposits sample_desk !! deposit_id 7 1700000000
          = Some sample_deposit) as Hd by apply lookup_singleton_eq.
  assert (¬ Qeq (dep_amount sample_deposit) 0) as Hnz by discriminate.
  split; [exact Ha|]. split; [exact Hd|]. split; [exact Hnz|].
  destruct (approval_is_not_atomic (Some 1%Z) 1 7 1700000000 sample_desk
              sample_deposit Ha Hd Hnz) as (Herr & _).
  exact Herr.
Defined.

